(** * Outline inference for PDF documents: a shallow embedding

    The development follows the four source files of the repository:
    [PDFOutlineExtractor.py], [TitleFinder.py], [cover_page.py] and
    [main.py].  Python values are embedded as follows.

    - [str] is [string]; a character is a code point below 256 (the Latin-1
      block), classified exactly as CPython classifies it, with one
      exception: the code 149 stands for the bullet U+2022, which two
      patterns of the source mention.  The control character U+0095, whose
      place the bullet takes, belongs to the same classes as the bullet (no
      letter, no digit, no space, no case), so that only those two patterns
      tell them apart.
    - [float] is [Q].  Arithmetic is exact, with one exception: the
      selection of the heading styles ([_identify_heading_styles]) is
      computed in binary64, where a number stands for the binary64 number
      nearest to it ([Num.fl]) and every operation rounds its result.  Where
      arithmetic is exact, a comparison of the model can differ from the
      program's only when its two sides are within a rounding error of each
      other, as 11.7 / 9.0 and 1.3 are.
    - exceptions are values of [exn]; code that can raise returns [result].
    - the page geometry delivered by PyMuPDF and pdfplumber is plain data. *)

From Stdlib Require Import List String Ascii Bool Arith ZArith QArith Qabs Qround Lia.
From Stdlib Require Import DecimalString Sorted.
Import ListNotations.

Set Implicit Arguments.
Local Close Scope Q_scope.
Local Open Scope string_scope.
Local Open Scope nat_scope.

(** ** Python runtime *)

Module Py.

Inductive exn :=
| ZeroDivisionError
| IndexError
| ValueError
| FileDataError.

Inductive result (A : Type) :=
| Ok (a : A)
| Raise (e : exn).
Arguments Ok {A} a.
Arguments Raise {A} e.

Definition bind {A B} (m : result A) (f : A -> result B) : result B :=
  match m with
  | Ok a => f a
  | Raise e => Raise e
  end.

(** *** Characters *)

Definition ord (c : ascii) : N := N_of_ascii c.
Definition chr (n : N) : ascii := ascii_of_N n.

Definition between (lo hi n : N) : bool := ((lo <=? n) && (n <=? hi))%N.

(** [str.isspace] on one character; also the class [\s] and the separators
    of [str.split()] and [str.strip()]. *)
Definition isspace_c (c : ascii) : bool :=
  let n := ord c in
  between 9 13 n || between 28 32 n || (n =? 133)%N || (n =? 160)%N.

Definition isupper_c (c : ascii) : bool :=
  let n := ord c in
  between 65 90 n || between 192 214 n || between 216 222 n.

Definition islower_c (c : ascii) : bool :=
  let n := ord c in
  between 97 122 n || (n =? 170)%N || (n =? 181)%N || (n =? 186)%N
  || between 223 246 n || between 248 255 n.

(** decimal digits, the class [\d] *)
Definition isdecimal_c (c : ascii) : bool := between 48 57 (ord c).

(** [str.isdigit] on one character: decimal digits and superscripts *)
Definition isdigit_c (c : ascii) : bool :=
  let n := ord c in
  between 48 57 n || (n =? 178)%N || (n =? 179)%N || (n =? 185)%N.

(** the class [\w]: alphanumerics and the underscore *)
Definition isword_c (c : ascii) : bool :=
  let n := ord c in
  between 48 57 n || between 65 90 n || (n =? 95)%N || between 97 122 n
  || (n =? 170)%N || (n =? 178)%N || (n =? 179)%N || (n =? 181)%N
  || (n =? 185)%N || (n =? 186)%N || between 188 190 n
  || between 192 214 n || between 216 246 n || between 248 255 n.

Definition lower_c (c : ascii) : ascii :=
  if isupper_c c then chr (ord c + 32) else c.

(** upper case inside the alphabet; [ß], [µ] and [ÿ] have none there *)
Definition upper_c (c : ascii) : ascii :=
  let n := ord c in
  if between 97 122 n || between 224 246 n || between 248 254 n
  then chr (n - 32) else c.

(** *** Strings *)

Fixpoint all_c (f : ascii -> bool) (s : string) : bool :=
  match s with
  | EmptyString => true
  | String c s' => f c && all_c f s'
  end.

Fixpoint any_c (f : ascii -> bool) (s : string) : bool :=
  match s with
  | EmptyString => false
  | String c s' => f c || any_c f s'
  end.

Fixpoint map_c (f : ascii -> ascii) (s : string) : string :=
  match s with
  | EmptyString => EmptyString
  | String c s' => String (f c) (map_c f s')
  end.

Fixpoint count_c (f : ascii -> bool) (s : string) : nat :=
  match s with
  | EmptyString => 0
  | String c s' => (if f c then 1 else 0) + count_c f s'
  end.

Definition len (s : string) : nat := String.length s.

(** truth value of a string *)
Definition truthy (s : string) : bool :=
  match s with EmptyString => false | _ => true end.

Definition lower (s : string) : string := map_c lower_c s.

Definition isupper (s : string) : bool :=
  any_c isupper_c s && negb (any_c islower_c s).

Definition isdigit (s : string) : bool := truthy s && all_c isdigit_c s.

Fixpoint lstrip (s : string) : string :=
  match s with
  | String c s' => if isspace_c c then lstrip s' else s
  | EmptyString => EmptyString
  end.

Fixpoint rstrip (s : string) : string :=
  match s with
  | EmptyString => EmptyString
  | String c s' =>
      match rstrip s' with
      | EmptyString => if isspace_c c then EmptyString else String c EmptyString
      | r => String c r
      end
  end.

Definition strip (s : string) : string := rstrip (lstrip s).

(** [s.split()]: maximal runs of non-space characters *)
Fixpoint split_aux (cur : string) (s : string) : list string :=
  match s with
  | EmptyString => if truthy cur then [cur] else []
  | String c s' =>
      if isspace_c c
      then (if truthy cur then cur :: split_aux EmptyString s'
            else split_aux EmptyString s')
      else split_aux (cur ++ String c EmptyString) s'
  end.

Definition split (s : string) : list string := split_aux EmptyString s.

Definition join (sep : string) (l : list string) : string := String.concat sep l.

Fixpoint startswith (p s : string) : bool :=
  match p, s with
  | EmptyString, _ => true
  | String a p', String b s' => Ascii.eqb a b && startswith p' s'
  | _, EmptyString => false
  end.

Fixpoint drop (n : nat) (s : string) : string :=
  match n, s with
  | O, _ => s
  | S n', String _ s' => drop n' s'
  | S _, EmptyString => EmptyString
  end.

Fixpoint take (n : nat) (s : string) : string :=
  match n, s with
  | S n', String c s' => String c (take n' s')
  | _, _ => EmptyString
  end.

(** [sub in s] *)
Fixpoint contains (sub s : string) : bool :=
  startswith sub s ||
  match s with
  | EmptyString => false
  | String _ s' => contains sub s'
  end.

Fixpoint endswith_aux (n : nat) (suffix s : string) : bool :=
  match n with
  | O => String.eqb suffix s
  | S n' => match s with
            | String _ s' => endswith_aux n' suffix s'
            | EmptyString => false
            end
  end.

Definition endswith (s suffix : string) : bool :=
  Nat.leb (len suffix) (len s) && endswith_aux (len s - len suffix) suffix s.

(** [s.count(sub)] for a non-empty [sub]: occurrences that do not overlap,
    found from the left *)
Fixpoint count_from (fuel : nat) (sub s : string) : nat :=
  match fuel with
  | O => 0
  | S fuel' =>
      match s with
      | EmptyString => 0
      | String _ s' =>
          if startswith sub s
          then S (count_from fuel' sub (drop (len sub) s))
          else count_from fuel' sub s'
      end
  end.

Definition count (s sub : string) : nat := count_from (len s) sub s.

Fixpoint repeat_str (s : string) (n : nat) : string :=
  match n with
  | O => EmptyString
  | S n' => s ++ repeat_str s n'
  end.

(** [int(c)] for a one-character string *)
Definition int_c (c : ascii) : result Z :=
  if isdecimal_c c then Ok (Z.of_N (ord c) - 48)%Z else Raise ValueError.

(** [str(n)] for an integer *)
Definition str_of_Z (n : Z) : string := NilZero.string_of_int (Z.to_int n).

(** [os.path.basename] and [os.path.splitext] of [posixpath] *)
Fixpoint basename_aux (cur : string) (s : string) : string :=
  match s with
  | EmptyString => cur
  | String c s' =>
      if Ascii.eqb c "/" then basename_aux EmptyString s'
      else basename_aux (cur ++ String c EmptyString) s'
  end.

Definition basename (p : string) : string := basename_aux EmptyString p.

(** position of the last dot of a name that has a non-dot character before
    it; [None] when the name has no extension *)
Fixpoint last_ext_dot (i : nat) (seen_non_dot : bool) (s : string) : option nat :=
  match s with
  | EmptyString => None
  | String c s' =>
      let here := if Ascii.eqb c "." && seen_non_dot then Some i else None in
      match last_ext_dot (S i) (seen_non_dot || negb (Ascii.eqb c ".")) s' with
      | Some j => Some j
      | None => here
      end
  end.

Definition splitext_root (p : string) : string :=
  let dir_len := len p - len (basename p) in
  match last_ext_dot 0 false (basename p) with
  | Some i => take (dir_len + i) p
  | None => p
  end.

(** [os.path.splitext(os.path.basename(path))[0]]: the file name without
    directory and extension *)
Definition file_stem (path : string) : string :=
  splitext_root (basename path).

End Py.

Notation "x <- m ;; k" := (Py.bind m (fun x => k))
  (at level 61, m at next level, right associativity).

(** ** Regular expressions

    The fragment of Python's [re] that the source uses, with the
    backtracking semantics of the library: alternatives are tried from the
    left, repetitions are greedy, and a capture holds the text of the last
    time its group matched. *)

Module Re.
Import Py.

Inductive citem :=
| CChar (c : ascii)
| CRange (lo hi : ascii)
| CDigit
| CWord
| CSpace.

Inductive re :=
| Void                                  (* matches nothing *)
| Eps
| Lit (c : ascii)
| AnyChar                               (* [.]: all but the newline *)
| CSet (neg : bool) (items : list citem)
| Bol                                   (* [^] *)
| Eol                                   (* [$] *)
| WordB                                 (* [\b] *)
| Cat (a b : re)
| Alt (a b : re)
| Star (a : re)
| Group (n : nat) (a : re)
| Backref (n : nat).

(** *** Reading a pattern *)

Definition hex_val (c : ascii) : option N :=
  let n := ord c in
  if between 48 57 n then Some (n - 48)%N
  else if between 97 102 n then Some (n - 87)%N
  else if between 65 70 n then Some (n - 55)%N
  else None.

Fixpoint rep (n : nat) (a : re) : re :=
  match n with
  | O => Eps
  | S n' => Cat a (rep n' a)
  end.

Fixpoint read_nat (acc : nat) (s : string) : nat * string :=
  match s with
  | String c s' =>
      if isdecimal_c c
      then read_nat (10 * acc + N.to_nat (ord c - 48)) s'
      else (acc, s)
  | EmptyString => (acc, s)
  end.

(** the quantifier, if any, that follows an atom *)
Definition read_quant (a : re) (s : string) : option (re * string) :=
  match s with
  | String "*" s' => Some (Star a, s')
  | String "+" s' => Some (Cat a (Star a), s')
  | String "?" s' => Some (Alt a Eps, s')
  | String "{" s' =>
      let '(n, s1) := read_nat 0 s' in
      match s1 with
      | String "}" s2 => Some (rep n a, s2)
      | String "," (String "}" s2) => Some (Cat (rep n a) (Star a), s2)
      | _ => None
      end
  | _ => Some (a, s)
  end.

(** one member of a bracketed class, without the range it may start *)
Definition read_class_char (s : string) : option (citem * string) :=
  match s with
  | String "\" (String "d" s') => Some (CDigit, s')
  | String "\" (String "w" s') => Some (CWord, s')
  | String "\" (String "s" s') => Some (CSpace, s')
  | String "\" (String "x" (String h (String l s'))) =>
      match hex_val h, hex_val l with
      | Some a, Some b => Some (CChar (chr (16 * a + b)), s')
      | _, _ => None
      end
  | String "\" (String c s') => Some (CChar c, s')
  | String c s' => Some (CChar c, s')
  | EmptyString => None
  end.

Fixpoint read_class (fuel : nat) (acc : list citem) (s : string)
  : option (list citem * string) :=
  match fuel with
  | O => None
  | S fuel' =>
      match s with
      | String "]" s' => Some (rev acc, s')
      | _ =>
          match read_class_char s with
          | Some (CChar lo, String "-" s1) =>
              match s1 with
              | String "]" _ => read_class fuel' (CChar lo :: acc) (String "-" s1)
              | _ =>
                  match read_class_char s1 with
                  | Some (CChar hi, s2) => read_class fuel' (CRange lo hi :: acc) s2
                  | _ => None
                  end
              end
          | Some (it, s1) => read_class fuel' (it :: acc) s1
          | None => None
          end
      end
  end.

Fixpoint read_alt (fuel : nat) (gi : nat) (s : string) {struct fuel}
  : option (re * nat * string) :=
  match fuel with
  | O => None
  | S fuel' =>
      match read_cat fuel' gi s with
      | Some (a, gi1, String "|" s1) =>
          match read_alt fuel' gi1 s1 with
          | Some (b, gi2, s2) => Some (Alt a b, gi2, s2)
          | None => None
          end
      | r => r
      end
  end
with read_cat (fuel : nat) (gi : nat) (s : string) {struct fuel}
  : option (re * nat * string) :=
  match fuel with
  | O => None
  | S fuel' =>
      match s with
      | EmptyString => Some (Eps, gi, s)
      | String "|" _ => Some (Eps, gi, s)
      | String ")" _ => Some (Eps, gi, s)
      | _ =>
          match read_atom fuel' gi s with
          | Some (a, gi1, s1) =>
              match read_quant a s1 with
              | Some (q, s2) =>
                  match read_cat fuel' gi1 s2 with
                  | Some (Eps, gi2, s3) => Some (q, gi2, s3)
                  | Some (b, gi2, s3) => Some (Cat q b, gi2, s3)
                  | None => None
                  end
              | None => None
              end
          | None => None
          end
      end
  end
with read_atom (fuel : nat) (gi : nat) (s : string) {struct fuel}
  : option (re * nat * string) :=
  match fuel with
  | O => None
  | S fuel' =>
      match s with
      | String "(" (String "?" (String ":" s')) =>
          match read_alt fuel' gi s' with
          | Some (a, gi1, String ")" s1) => Some (a, gi1, s1)
          | _ => None
          end
      | String "(" s' =>
          match read_alt fuel' (S gi) s' with
          | Some (a, gi1, String ")" s1) => Some (Group gi a, gi1, s1)
          | _ => None
          end
      | String "[" (String "^" s') =>
          match read_class (S (len s')) [] s' with
          | Some (items, s1) => Some (CSet true items, gi, s1)
          | None => None
          end
      | String "[" s' =>
          match read_class (S (len s')) [] s' with
          | Some (items, s1) => Some (CSet false items, gi, s1)
          | None => None
          end
      | String "\" (String "d" s') => Some (CSet false [CDigit], gi, s')
      | String "\" (String "w" s') => Some (CSet false [CWord], gi, s')
      | String "\" (String "s" s') => Some (CSet false [CSpace], gi, s')
      | String "\" (String "b" s') => Some (WordB, gi, s')
      | String "\" (String "x" (String h (String l s'))) =>
          match hex_val h, hex_val l with
          | Some a, Some b => Some (Lit (chr (16 * a + b)), gi, s')
          | _, _ => None
          end
      | String "\" (String c s') =>
          if isdecimal_c c then Some (Backref (N.to_nat (ord c - 48)), gi, s')
          else Some (Lit c, gi, s')
      | String "^" s' => Some (Bol, gi, s')
      | String "$" s' => Some (Eol, gi, s')
      | String "." s' => Some (AnyChar, gi, s')
      | String c s' => Some (Lit c, gi, s')
      | EmptyString => None
      end
  end.

Definition parse (p : string) : option re :=
  match read_alt (3 * len p + 3) 1 p with
  | Some (r, _, EmptyString) => Some r
  | _ => None
  end.

(** a compiled pattern: the expression and the [IGNORECASE] flag *)
Record pattern := { pat_re : re; pat_ic : bool }.

Definition compile (p : string) : pattern :=
  {| pat_re := match parse p with Some r => r | None => Void end;
     pat_ic := false |}.

Definition compile_ic (p : string) : pattern :=
  {| pat_re := match parse p with Some r => r | None => Void end;
     pat_ic := true |}.

(** *** Matching *)

Definition caps := list (nat * string).

Fixpoint cap (n : nat) (g : caps) : option string :=
  match g with
  | [] => None
  | (m, t) :: g' => if Nat.eqb n m then Some t else cap n g'
  end.

Definition citem_has (it : citem) (c : ascii) : bool :=
  match it with
  | CChar x => Ascii.eqb x c
  | CRange lo hi => between (ord lo) (ord hi) (ord c)
  | CDigit => isdecimal_c c
  | CWord => isword_c c
  | CSpace => isspace_c c
  end.

Definition cset_has (ic : bool) (items : list citem) (c : ascii) : bool :=
  existsb (fun it => citem_has it c
                     || (ic && (citem_has it (lower_c c) || citem_has it (upper_c c))))
          items.

Definition lit_eq (ic : bool) (x c : ascii) : bool :=
  if ic then Ascii.eqb (lower_c x) (lower_c c) else Ascii.eqb x c.

(** [t] is a prefix of [s]: the rest of [s] and the last character read *)
Fixpoint eat (ic : bool) (t : string) (p : option ascii) (s : string)
  : option (option ascii * string) :=
  match t with
  | EmptyString => Some (p, s)
  | String x t' =>
      match s with
      | String c s' => if lit_eq ic x c then eat ic t' (Some c) s' else None
      | EmptyString => None
      end
  end.

Definition is_word_opt (o : option ascii) : bool :=
  match o with Some c => isword_c c | None => false end.

Definition head (s : string) : option ascii :=
  match s with String c _ => Some c | EmptyString => None end.

(** a greedy repetition: as long as [step] matches and makes progress the
    loop goes on; otherwise, and when going on leads nowhere, the rest of
    the pattern [k] is tried.  [n] bounds the number of rounds, and the
    length of the subject is enough. *)
Fixpoint star {X : Type}
  (step : option ascii -> string -> caps ->
          (option ascii -> string -> caps -> option X) -> option X)
  (k : option ascii -> string -> caps -> option X)
  (n : nat) (p : option ascii) (s : string) (g : caps) {struct n} : option X :=
  match n with
  | O => k p s g
  | S n' =>
      match step p s g
                 (fun p' s' g' =>
                    if Nat.ltb (len s') (len s) then star step k n' p' s' g'
                    else None) with
      | Some x => Some x
      | None => k p s g
      end
  end.

(** [m ic r p s g k]: match [r] at the head of [s], where [p] is the
    character before it ([None] at the start of the subject), and hand the
    position reached to [k]; the first success in backtracking order wins. *)
Fixpoint m {X : Type} (ic : bool) (r : re) (p : option ascii) (s : string)
  (g : caps) (k : option ascii -> string -> caps -> option X) {struct r}
  : option X :=
  match r with
  | Void => None
  | Eps => k p s g
  | Lit x =>
      match s with
      | String c s' => if lit_eq ic x c then k (Some c) s' g else None
      | EmptyString => None
      end
  | AnyChar =>
      match s with
      | String c s' => if Ascii.eqb c "010" then None else k (Some c) s' g
      | EmptyString => None
      end
  | CSet neg items =>
      match s with
      | String c s' =>
          if xorb neg (cset_has ic items c) then k (Some c) s' g else None
      | EmptyString => None
      end
  | Bol => match p with None => k p s g | Some _ => None end
  | Eol =>
      match s with
      | EmptyString => k p s g
      | String "010" EmptyString => k p s g
      | _ => None
      end
  | WordB =>
      if xorb (is_word_opt p) (is_word_opt (head s)) then k p s g else None
  | Cat a b => m ic a p s g (fun p' s' g' => m ic b p' s' g' k)
  | Alt a b =>
      match m ic a p s g k with
      | Some x => Some x
      | None => m ic b p s g k
      end
  | Star a => star (fun p' s' g' k' => m ic a p' s' g' k') k (len s) p s g
  | Group n a =>
      m ic a p s g
        (fun p' s' g' => k p' s' ((n, take (len s - len s') s) :: g'))
  | Backref n =>
      match cap n g with
      | Some t =>
          match eat ic t p s with
          | Some (p', s') => k p' s' g
          | None => None
          end
      | None => None
      end
  end.

(** the outcome of a match: what follows it, the last character read, and
    the captures *)
Record found := { f_rest : string; f_prev : option ascii; f_caps : caps }.

(** the end of a pattern: the match is complete *)
Definition finish (p : option ascii) (s : string) (g : caps) : option found :=
  Some {| f_rest := s; f_prev := p; f_caps := g |}.

Definition match_at (pt : pattern) (p : option ascii) (s : string) : option found :=
  m (pat_ic pt) (pat_re pt) p s [] finish.

(** [pattern.match(s)] *)
Definition match_ (pt : pattern) (s : string) : option found :=
  match_at pt None s.

(** text of group [n] of a match on [s]; group 0 is the whole match *)
Definition group (s : string) (f : found) (n : nat) : option string :=
  match n with
  | O => Some (take (len s - len (f_rest f)) s)
  | _ => cap n (f_caps f)
  end.

(** [pattern.search(s)]: the leftmost position where the pattern matches *)
Fixpoint search_from (pt : pattern) (p : option ascii) (s : string) : option found :=
  match match_at pt p s with
  | Some f => Some f
  | None =>
      match s with
      | String c s' => search_from pt (Some c) s'
      | EmptyString => None
      end
  end.

Definition search (pt : pattern) (s : string) : option found :=
  search_from pt None s.

(** the replacement template: [\N] stands for group [N] *)
Fixpoint expand (repl : string) (g : caps) : string :=
  match repl with
  | String "\" (String d repl') =>
      if isdecimal_c d
      then match cap (N.to_nat (ord d - 48)) g with
           | Some t => t
           | None => EmptyString
           end ++ expand repl' g
      else String "\" (String d (expand repl' g))
  | String c repl' => String c (expand repl' g)
  | EmptyString => EmptyString
  end.

(** [pattern.sub(repl, s)]: every match, found from the left and without
    overlap, is replaced; an empty match is replaced where it stands and
    the scan moves on by one character *)
Fixpoint sub_from (fuel : nat) (pt : pattern) (repl : string)
  (p : option ascii) (s : string) : string :=
  match fuel with
  | O => s
  | S fuel' =>
      match match_at pt p s with
      | Some f =>
          if Nat.ltb (len (f_rest f)) (len s)
          then expand repl (f_caps f) ++ sub_from fuel' pt repl (f_prev f) (f_rest f)
          else expand repl (f_caps f) ++
               match s with
               | String c s' => String c (sub_from fuel' pt repl (Some c) s')
               | EmptyString => EmptyString
               end
      | None =>
          match s with
          | String c s' => String c (sub_from fuel' pt repl (Some c) s')
          | EmptyString => EmptyString
          end
      end
  end.

Definition sub (pt : pattern) (repl : string) (s : string) : string :=
  sub_from (S (len s)) pt repl None s.

Definition matches (pt : pattern) (s : string) : bool :=
  match match_ pt s with Some _ => true | None => false end.

Definition found_in (pt : pattern) (s : string) : bool :=
  match search pt s with Some _ => true | None => false end.

End Re.

(** ** Numbers

    Python's [float] and its mixed arithmetic with [int], over [Q]. *)

Module Num.
Import Py.

Definition ltb (a b : Q) : bool := negb (Qle_bool b a).
Definition leb (a b : Q) : bool := Qle_bool a b.
Definition eqb (a b : Q) : bool := Qeq_bool a b.

Definition of_Z (n : Z) : Q := inject_Z n.
Definition of_nat (n : nat) : Q := inject_Z (Z.of_nat n).

(** [a / b] *)
Definition div (a b : Q) : result Q :=
  if eqb b 0 then Raise ZeroDivisionError else Ok (a / b)%Q.

(** *** binary64

    [fl x] is the binary64 number nearest to [x], a tie going to the even
    mantissa, with gradual underflow below [2^-1022].  Overflow to infinity
    is left out: no size, ratio or score of a document comes near
    [2^1024]. *)

(** is [2^e <= a / d]? *)
Definition pow2_le (e a d : Z) : bool :=
  (if 0 <=? e then d * 2 ^ e <=? a else d <=? a * 2 ^ (- e))%Z.

Definition fl (x : Q) : Q :=
  let x := Qred x in
  let n := Qnum x in
  let d := Zpos (Qden x) in
  if (n =? 0)%Z then 0%Q
  else
    let a := Z.abs n in
    let e0 := (Z.log2 a - Z.log2 d)%Z in
    let e := if pow2_le e0 a d then e0 else (e0 - 1)%Z in
    (* the exponent of the last place *)
    let t := Z.max (e - 52) (-1074) in
    let num := if (0 <=? t)%Z then a else (a * 2 ^ (- t))%Z in
    let den := if (0 <=? t)%Z then (d * 2 ^ t)%Z else d in
    let q := (num / den)%Z in
    let r := (num mod den)%Z in
    let m := if (2 * r <? den)%Z then q
             else if (den <? 2 * r)%Z then (q + 1)%Z
             else if Z.even q then q else (q + 1)%Z in
    let s := if (0 <? n)%Z then m else (- m)%Z in
    Qred (if (0 <=? t)%Z then inject_Z (s * 2 ^ t)
          else Qmake s (Z.to_pos (2 ^ (- t)))).

(** the operations of [float] on two numbers *)
Definition fadd (a b : Q) : Q := fl (fl a + fl b).
Definition fsub (a b : Q) : Q := fl (fl a - fl b).
Definition fmul (a b : Q) : Q := fl (fl a * fl b).

Definition fdiv (a b : Q) : result Q :=
  if eqb (fl b) 0 then Raise ZeroDivisionError else Ok (fl (fl a / fl b)).

(** [a / b] on two [int]: the quotient, rounded once *)
Definition idiv (a b : Z) : result Q :=
  if (b =? 0)%Z then Raise ZeroDivisionError
  else Ok (fl (inject_Z a / inject_Z b)).

(** [round(x, 1)]: to the nearest tenth, a tie going to the even one *)
Definition round1 (x : Q) : Q :=
  let y := (10 * x)%Q in
  let n := Qfloor y in
  let r := (y - inject_Z n)%Q in
  let up :=
    if ltb r (1 # 2) then false
    else if ltb (1 # 2) r then true
    else Z.odd n in
  (inject_Z (if up then n + 1 else n) / 10)%Q.

Fixpoint sum (l : list Q) : Q :=
  match l with
  | [] => 0%Q
  | x :: l' => (x + sum l')%Q
  end.

End Num.

(** ** Python containers *)

Module Seq.

(** [max(x :: l, key=key)]: the first element whose key is largest *)
Definition max_by {A K : Type} (ltb : K -> K -> bool) (key : A -> K)
  (x : A) (l : list A) : A :=
  fold_left (fun best y => if ltb (key best) (key y) then y else best) l x.

(** a stable sort: [ltb a b] says that [a] goes strictly before [b] *)
Fixpoint insert {A : Type} (ltb : A -> A -> bool) (x : A) (l : list A) : list A :=
  match l with
  | [] => [x]
  | y :: l' => if ltb y x then y :: insert ltb x l' else x :: l
  end.

Fixpoint sorted {A : Type} (ltb : A -> A -> bool) (l : list A) : list A :=
  match l with
  | [] => []
  | x :: l' => insert ltb x (sorted ltb l')
  end.

(** an insertion-ordered dictionary *)
Fixpoint get {K V : Type} (eqb : K -> K -> bool) (d : list (K * V)) (k : K)
  : option V :=
  match d with
  | [] => None
  | (k', v) :: d' => if eqb k' k then Some v else get eqb d' k
  end.

(** [d[k] = f(d.get(k, dflt))]: a new key goes to the end *)
Fixpoint update {K V : Type} (eqb : K -> K -> bool) (d : list (K * V)) (k : K)
  (dflt : V) (f : V -> V) : list (K * V) :=
  match d with
  | [] => [(k, f dflt)]
  | (k', v) :: d' =>
      if eqb k' k then (k', f v) :: d'
      else (k', v) :: update eqb d' k dflt f
  end.

End Seq.

(** ** The layout source (PyMuPDF)

    What [fitz] hands to the program after a document has been opened. *)

Module Fitz.

(** [(x0, y0, x1, y1)] *)
Definition bbox := (Q * Q * Q * Q)%type.
Definition x0 (b : bbox) : Q := let '(a, _, _, _) := b in a.
Definition y0 (b : bbox) : Q := let '(_, a, _, _) := b in a.
Definition x1 (b : bbox) : Q := let '(_, _, a, _) := b in a.
Definition y1 (b : bbox) : Q := let '(_, _, _, a) := b in a.

Record Span := {
  span_text : string;
  span_size : Q;
  span_font : string;
  span_bbox : bbox
}.

Record Line := {
  line_spans : list Span;
  line_bbox : bbox
}.

(** a block of [page.get_text("dict")]; [block_type] is 0 for text *)
Record Block := {
  block_type : Z;
  block_lines : list Line
}.

(** [w.rect] of a form field *)
Record Widget := {
  widget_width : Q;
  widget_height : Q
}.

(** an entry of [page.get_image_info()]; a key may be missing *)
Record ImageInfo := {
  img_has_bbox : bool;
  img_width : option Q;
  img_height : option Q
}.

Record Page := {
  page_number : Z;
  rect_width : Q;
  rect_height : Q;
  page_widgets : list Widget;
  page_text : string;                  (* [page.get_text()] *)
  page_blocks : list Block;            (* [page.get_text("dict")["blocks"]] *)
  page_image_info : list ImageInfo
}.

(** an entry [[lvl, title, page, ...]] of [document.get_toc()], split after
    the title: [toc_tail] starts with the page number when there is one *)
Record TocEntry := {
  toc_lvl : Z;
  toc_title : string;
  toc_tail : list Z
}.

Record Document := {
  doc_name : string;
  doc_pages : list Page;
  doc_toc : list TocEntry
}.

End Fitz.

(** ** PDFOutlineExtractor.py *)

Module PDFOutlineExtractor.
Import Py.

(** an entry of [font_stats] *)
Record Stat := {
  char_count : Z;
  bold_count : Z
}.

(** the attributes of an extractor that change; the thresholds that
    [__init__] sets once are the constants below *)
Record t := {
  document_title : string;
  is_first_page_cover : bool;
  font_stats : list (Q * Stat);
  page_dimensions : Q * Q
}.

Definition header_footer_threshold : Q := 1 # 10.
Definition min_heading_ratio : Q := 13 # 10.
Definition min_heading_length : nat := 4.
Definition max_heading_length : nat := 100.
Definition form_field_threshold : Q := 15 # 100.
Definition spaced_text_threshold : Q := 1 # 2.
Definition line_merge_tolerance_y : Q := 7.
Definition line_merge_tolerance_x : Q := 20.
Definition indentation_threshold : Q := 25.

(** In the second pattern [\x95] is the bullet and [\xb7] the middle dot of
    the source, in the eleventh [\xa9] is its copyright sign. *)
Definition non_heading_patterns : list Re.pattern := [
  Re.compile_ic "^(figure|table|appendix|note:)\b";
  Re.compile "^[\x95\-*\xb7]\s";
  Re.compile "^\d+[/-]\d+$";
  Re.compile "^[A-Za-z]\d+$";
  Re.compile "^\s*\d+\s*$";
  Re.compile "^[A-Z][A-Za-z]*:$";
  Re.compile "^\w+/\w+:$";
  Re.compile "^\d+\.\s*\w+:$";
  Re.compile_ic "^(s\.?no\.?|sr\.?no\.?)$";
  Re.compile_ic "^(name|date|address|phone|email|id|sex|gender|age|signature|city|state|zip|country|total|amount|item|quantity|description|relation|relationship|value|unit|price|type|status|comments|notes|remarks|subtotal|tax|grand total)$";
  Re.compile "^\s*\xa9\s*\d{4}\s*";
  Re.compile_ic "^\s*all rights reserved\s*$";
  Re.compile_ic "^\s*confidential\s*$";
  Re.compile_ic "^\s*document\s+id:\s*";
  Re.compile_ic "^\s*page\s+\d+\s+of\s+\d+\s*$";
  Re.compile_ic "^\s*disclaimer\s*$";
  Re.compile_ic "^\s*copyright\s*$";
  Re.compile_ic "^\s*prepared\s+by:";
  Re.compile_ic "^\s*for\s+internal\s+use\s+only\s*$";
  Re.compile_ic "^\s*version\s+\d+(\.\d+)*(\s+\w+)?$";
  Re.compile_ic "^\s*revision\s+history\s*$"
].

Definition spaced_text_pattern : Re.pattern := Re.compile "\w\s{3,}\w".

Definition __init__ (document_title : string) (is_first_page_cover : bool) : t :=
  {| document_title := document_title;
     is_first_page_cover := is_first_page_cover;
     font_stats := [];
     page_dimensions := (0%Q, 0%Q) |}.

Definition _is_bold_font (font_name : string) : bool :=
  if negb (truthy font_name) then false
  else
    let font_lower := lower font_name in
    existsb (fun keyword => contains keyword font_lower)
            ["bold"; "black"; "heavy"; "demi"; "bld"; "700"; "800"; "900"].

Definition form_labels : list string :=
  ["name:"; "date:"; "signature:"; "address:"; "phone:"; "email:";
   "id number:"; "ssn:"; "account:"].

Definition _is_form_page (self : t) (page : Fitz.Page) : result bool :=
  let widgets := Fitz.page_widgets page in
  by_widgets <-
    match widgets with
    | [] => Ok false
    | _ =>
        let form_area :=
          Num.sum (map (fun w => (Fitz.widget_width w * Fitz.widget_height w)%Q)
                       widgets) in
        let page_area := (fst (page_dimensions self) * snd (page_dimensions self))%Q in
        ratio <- Num.div form_area page_area ;;
        Ok (Num.ltb form_field_threshold ratio)
    end ;;
  if (by_widgets : bool) then Ok true
  else
    let text := Fitz.page_text page in
    let form_indications :=
      count text ":_____" + count text ": ___"
      + count text (String ":" (String "010" EmptyString)) in
    let form_indications :=
      form_indications
      + list_sum (map (fun label => count (lower text) label) form_labels) in
    let form_indications :=
      if contains "|   |" text || contains "|___|" text
         || contains (repeat_str "___ " 3) text
      then form_indications + 3 else form_indications in
    Ok (3 <=? form_indications).

Definition _is_header_footer (self : t) (line_bbox : Fitz.bbox) : result bool :=
  y_pos_ratio <- Num.div (Fitz.y0 line_bbox) (snd (page_dimensions self)) ;;
  if Num.ltb y_pos_ratio header_footer_threshold
     || Num.ltb (1 - header_footer_threshold)%Q y_pos_ratio
  then Ok true
  else
    let x_center := (fst (page_dimensions self) / 2)%Q in
    let line_center := ((Fitz.x0 line_bbox + Fitz.x1 line_bbox) / 2)%Q in
    if Num.ltb (Qabs (line_center - x_center)) 20 then Ok true
    else Ok false.

Definition _is_spaced_text (text : string) : bool :=
  if Re.found_in spaced_text_pattern text then
    let space_count := Z.of_nat (count_c (Ascii.eqb " ") text) in
    let total_chars := Z.of_nat (len text) in
    let non_space_chars := (total_chars - space_count)%Z in
    if (0 <? non_space_chars)%Z then
      (* the divisor is positive here *)
      let space_ratio := (Num.of_Z space_count / Num.of_Z non_space_chars)%Q in
      Num.ltb spaced_text_threshold space_ratio
    else false
  else false.

(** a block of merged lines, as [_get_clean_text_blocks] builds it *)
Record TextBlock := {
  b_text : string;
  b_size : Q;
  b_is_bold : bool;
  b_bbox : Fitz.bbox;
  b_origin_x : Q;
  b_origin_y : Q
}.

Definition numbering := Re.compile "^\d+(\.\d+)*$".
Definition numbering_prefix := Re.compile "^\d+(\.\d+)*\s*".

Definition _is_heading_candidate (block : TextBlock) (body_size : Q) : bool :=
  let text := strip (b_text block) in
  let cleaned_text_for_comparison :=
    strip (Re.sub (Re.compile "^[\x95\-\*\s]+|[\x95\-\*\s]+$") "" text) in
  let cleaned_text_for_comparison :=
    strip (Re.sub (Re.compile "[^a-zA-Z0-9\s]") "" cleaned_text_for_comparison) in
  if negb (truthy text) then false
  else if negb (truthy cleaned_text_for_comparison) then false
  else
    let word_count := List.length (split cleaned_text_for_comparison) in
    if (word_count =? 1)
       && negb (Re.matches numbering cleaned_text_for_comparison)
       && (len cleaned_text_for_comparison <? min_heading_length)
    then false
    else if negb (word_count =? 1) && (word_count <? 1) then false
    else if max_heading_length <? len text then false
    else if existsb (fun pattern => Re.matches pattern text) non_heading_patterns
    then false
    else if endswith text ":" then false
    else if contains "|" text then false
    else if (word_count <=? 2) && isupper text
            && negb (Re.matches numbering_prefix text)
    then false
    else if _is_spaced_text text then false
    else if Num.eqb body_size 0 then false
    else
      (* [body_size] is not zero here *)
      let size_ratio := (b_size block / body_size)%Q in
      let is_bold_enough :=
        b_is_bold block && Num.ltb (body_size * (105 # 100))%Q (b_size block) in
      if negb (Num.leb min_heading_ratio size_ratio || is_bold_enough) then false
      else
        let looks_like_sentence :=
          match text with
          | String c _ => isupper_c c
          | EmptyString => false
          end
          && (3 <? word_count)
          && Re.found_in (Re.compile "[\.\?\!]$") text in
        let is_strong_heading_pattern :=
          isupper text
          || Re.matches (Re.compile "^(?:\d+(\.\d+)*|[A-Z])\s*") text in
        if looks_like_sentence && negb is_strong_heading_pattern
           && negb is_bold_enough
           && Num.ltb size_ratio (min_heading_ratio * (12 # 10))%Q
        then false
        else if Re.matches (Re.compile "^(?:\d+(\.\d+)*\s+|[A-Z]\.\s+)") text
        then true
        else if isupper text && (1 <? word_count) then true
        else true.

Definition stat_of (self : t) (s : Q) : Stat :=
  match Seq.get Num.eqb (font_stats self) s with
  | Some st => st
  | None => {| char_count := 0; bold_count := 0 |}
  end.

(** the key of both [max] calls of [_determine_body_text_size] *)
Definition non_bold_volume (self : t) (s : Q) : Z :=
  (char_count (stat_of self s) - bold_count (stat_of self s))%Z.

Definition _determine_body_text_size (self : t) : Q :=
  match font_stats self with
  | [] => 11
  | _ =>
      let sizes := map fst (font_stats self) in
      let body_candidates :=
        filter (fun size => Num.leb 8 size && Num.leb size 14) sizes in
      match body_candidates with
      | [] =>
          match sizes with
          | s :: rest => Seq.max_by Z.ltb (non_bold_volume self) s rest
          | [] => 11
          end
      | s :: rest => Seq.max_by Z.ltb (non_bold_volume self) s rest
      end
  end%Q.

Record HeadingStyle := {
  h_size : Q;
  h_is_bold : bool;
  h_score : Q;
  h_char_count : Z
}.

(** the order of the key [(-score, -size, -char_count)]; a score is a
    binary64 number already *)
Definition style_before (a b : HeadingStyle) : bool :=
  Num.ltb (h_score b) (h_score a)
  || (Num.eqb (h_score a) (h_score b)
      && (Num.ltb (Num.fl (h_size b)) (Num.fl (h_size a))
          || (Num.eqb (Num.fl (h_size a)) (Num.fl (h_size b))
              && (h_char_count b <? h_char_count a)%Z))).

Fixpoint heading_candidates (body_size : Q) (items : list (Q * Stat))
  : result (list HeadingStyle) :=
  match items with
  | [] => Ok []
  | (size, stats) :: items' =>
      if Num.leb (Num.fl size) (Num.fmul body_size (95 # 100))
      then heading_candidates body_size items'
      else
        size_ratio <- Num.fdiv size body_size ;;
        bold_share <- Num.idiv (bold_count stats)
                               (Z.max 1 (char_count stats)) ;;
        let is_bold_likely := Num.ltb (Num.fl (6 # 10)) bold_share in
        if Num.leb (Num.fl min_heading_ratio) size_ratio || is_bold_likely
        then
          let score :=
            Num.fadd (Num.fmul size_ratio 50)
                     (if is_bold_likely then 40 else 0) in
          more <- heading_candidates body_size items' ;;
          Ok ({| h_size := size; h_is_bold := is_bold_likely;
                 h_score := score; h_char_count := char_count stats |} :: more)
        else heading_candidates body_size items'
  end.

Fixpoint distinct_styles (sorted_candidates : list HeadingStyle)
  (acc : list HeadingStyle) (seen_sizes : list Q) : list HeadingStyle :=
  match sorted_candidates with
  | [] => acc
  | style :: more =>
      if existsb (fun s_size =>
                    Num.ltb (Qabs (Num.fsub (h_size style) s_size)) (1 # 2))
                 seen_sizes
      then distinct_styles more acc seen_sizes
      else
        let acc' := (acc ++ [style])%list in
        if 3 <=? List.length acc' then acc'
        else distinct_styles more acc' (seen_sizes ++ [h_size style])%list
  end.

Definition _identify_heading_styles (self : t) (body_size : Q)
  : result (list HeadingStyle) :=
  cands <- heading_candidates body_size (font_stats self) ;;
  Ok (distinct_styles (Seq.sorted style_before cands) [] []).

(** what the scan remembers of the heading it accepted last *)
Record PrevHeading := {
  p_level : string;
  p_size : Q;
  p_origin_x : Q;
  p_origin_y : Q;
  p_bbox : Fitz.bbox
}.

(** [int(level[1])] *)
Definition level_num (level : string) : result Z :=
  match level with
  | String _ (String c _) => int_c c
  | _ => Raise IndexError
  end.

(** [f"H{n}"] *)
Definition level_str (n : Z) : string := "H" ++ str_of_Z n.

(** index and value of the first style that has the block's size and weight *)
Fixpoint matching_style (block : TextBlock) (i : Z) (styles : list HeadingStyle)
  : option Z :=
  match styles with
  | [] => None
  | style :: more =>
      if Num.ltb (Qabs (b_size block - h_size style)) (1 # 2)
         && Bool.eqb (b_is_bold block) (h_is_bold style)
      then Some i
      else matching_style block (i + 1)%Z more
  end.

Definition prefix_pattern := Re.compile "^(\d+(\.\d+)*|[A-Z])\s*".

Definition _determine_heading_level (self : t) (block : TextBlock)
  (heading_styles : list HeadingStyle) (prev_heading : option PrevHeading)
  : result string :=
  let current_text := strip (b_text block) in
  let current_level_num := 3%Z in
  let current_level_num :=
    match Re.match_ prefix_pattern current_text with
    | Some match_prefix =>
        match Re.group current_text match_prefix 1 with
        | Some prefix =>
            let dot_count := count prefix "." in
            if (dot_count =? 0) && isdigit prefix then 1%Z
            else if dot_count =? 1 then 2%Z
            else if dot_count =? 2 then 3%Z
            else current_level_num
        | None => current_level_num
        end
    | None => current_level_num
    end in
  let current_level_num :=
    match heading_styles with
    | [] => current_level_num
    | first_style :: _ =>
        let current_level_num :=
          match matching_style block 0 heading_styles with
          | Some i =>
              if (i + 1 <? current_level_num)%Z then (i + 1)%Z
              else current_level_num
          | None => current_level_num
          end in
        let h1_style_size := h_size first_style in
        if Num.ltb 0 h1_style_size then
          (* the divisor is positive here *)
          let size_ratio_to_h1 := (b_size block / h1_style_size)%Q in
          if Num.ltb (9 # 10) size_ratio_to_h1 && (1 <? current_level_num)%Z
          then 1%Z
          else if Num.ltb (7 # 10) size_ratio_to_h1 && (2 <? current_level_num)%Z
          then 2%Z
          else current_level_num
        else current_level_num
    end in
  current_level_num <-
    match prev_heading with
    | None => Ok current_level_num
    | Some prev =>
        prev_level_num <- level_num (p_level prev) ;;
        let current_level_num :=
          if (prev_level_num + 1 <? current_level_num)%Z
          then (prev_level_num + 1)%Z else current_level_num in
        let current_level_num :=
          if Num.ltb (p_origin_x prev + indentation_threshold)%Q (b_origin_x block)
             && (current_level_num <=? prev_level_num)%Z
          then (prev_level_num + 1)%Z else current_level_num in
        let typical_left_margin_x := (fst (page_dimensions self) * (1 # 10))%Q in
        let is_strongly_left_aligned :=
          Num.ltb (Qabs (b_origin_x block - typical_left_margin_x)) 30 in
        let current_level_num :=
          if Num.ltb 0 (p_size prev)
             && Num.ltb (p_size prev * (15 # 10))%Q (b_size block)
             && is_strongly_left_aligned
             && (1 <? current_level_num)%Z
          then 1%Z else current_level_num in
        (* the context always carries the four coordinates of the box *)
        let vertical_gap := (b_origin_y block - Fitz.y1 (p_bbox prev))%Q in
        let current_level_num :=
          if Num.ltb (b_size block * (25 # 10))%Q vertical_gap
             && is_strongly_left_aligned
             && (1 <? current_level_num)%Z
          then 1%Z else current_level_num in
        let current_level_num :=
          if Num.ltb (b_size block) (p_size prev * (9 # 10))%Q
             && (current_level_num <=? prev_level_num)%Z
          then (prev_level_num + 1)%Z else current_level_num in
        Ok current_level_num
    end ;;
  Ok (level_str (Z.min current_level_num 3)).

(** *** The hierarchy refiner

    An outline entry is a dictionary that [_refine_hierarchy] changes in
    place, so the candidates are references into a store of entries: a
    list may hold the same entry more than once. *)

Record Entry := {
  e_level : string;
  e_text : string;
  e_page : Z
}.

Definition store := nat -> Entry.

Definition set_level (h : store) (r : nat) (level : string) : store :=
  fun r' =>
    if r' =? r
    then {| e_level := level; e_text := e_text (h r); e_page := e_page (h r) |}
    else h r'.

Definition common_short_words_to_exclude : list string := [
  "s.no"; "name"; "date"; "id"; "no"; "description"; "quantity"; "total";
  "relationship"; "relation"; "price"; "unit"; "value"; "type"; "status";
  "comments"; "notes"; "remarks"; "subtotal"; "tax"; "grand total"; "item";
  "code"; "ref"; "part"; "model"; "serial"; "data"; "key"; "number"
].

(** the first loop: an entry equal to the one kept last is dropped *)
Fixpoint drop_repeats (h : store) (last_entry : option nat)
  (outline_candidates : list nat) : list nat :=
  match outline_candidates with
  | [] => []
  | entry :: more =>
      if match last_entry with
         | Some l =>
             String.eqb (e_text (h entry)) (e_text (h l))
             && String.eqb (e_level (h entry)) (e_level (h l))
             && (e_page (h entry) =? e_page (h l))%Z
         | None => false
         end
      then drop_repeats h last_entry more
      else entry :: drop_repeats h (Some entry) more
  end.

(** is the entry a bare table or form label? *)
Definition is_field_label (text : string) : bool :=
  let cleaned_text_lower :=
    strip (Re.sub (Re.compile "[^a-z0-9\s]") "" (lower text)) in
  (List.length (split cleaned_text_lower) =? 1)
  && existsb (String.eqb cleaned_text_lower) common_short_words_to_exclude
  && negb (Re.matches numbering_prefix text).

(** the second loop, over [refined_outline[1:]] *)
Fixpoint clamp_levels (h : store) (final_cleaned_outline : list nat)
  (rest : list nat) : result (list nat * store) :=
  match rest with
  | [] => Ok (final_cleaned_outline, h)
  | current_entry :: more =>
      let prev_entry := List.last final_cleaned_outline current_entry in
      curr_level_num <- level_num (e_level (h current_entry)) ;;
      prev_level_num <- level_num (e_level (h prev_entry)) ;;
      let h :=
        if (prev_level_num + 1 <? curr_level_num)%Z
        then set_level h current_entry (level_str (prev_level_num + 1))
        else h in
      if is_field_label (e_text (h current_entry))
      then clamp_levels h final_cleaned_outline more
      else clamp_levels h (final_cleaned_outline ++ [current_entry])%list more
  end.

Definition _refine_hierarchy (h : store) (outline_candidates : list nat)
  : result (list nat * store) :=
  match outline_candidates with
  | [] => Ok ([], h)
  | _ =>
      let refined_outline := drop_repeats h None outline_candidates in
      match refined_outline with
      | [] => Ok ([], h)
      | first :: more => clamp_levels h [first] more
      end
  end.

(** the entries a list of references stands for *)
Definition entries (h : store) (refs : list nat) : list Entry := map h refs.

(** the refiner on candidates that are all distinct dictionaries, as
    [_extract_headings_from_content] builds them *)
Definition blank_entry : Entry := {| e_level := ""; e_text := ""; e_page := 0 |}.

Definition fresh_store (l : list Entry) : store := fun r => nth r l blank_entry.

Definition refine_fresh (l : list Entry) : result (list Entry) :=
  out <- _refine_hierarchy (fresh_store l) (seq 0 (List.length l)) ;;
  Ok (entries (snd out) (fst out)).


(** *** Lines, blocks and the scan of the pages *)

(** the text lines of a page: the lines of its text blocks that have spans *)
Definition text_lines (page : Fitz.Page) : list Fitz.Line :=
  filter (fun line => match Fitz.line_spans line with [] => false | _ => true end)
         (flat_map Fitz.block_lines
                   (filter (fun block => (Fitz.block_type block =? 0)%Z)
                           (Fitz.page_blocks page))).

(** [counter[k] += n] *)
Definition counter_add {K : Type} (eqb : K -> K -> bool) (c : list (K * Z))
  (k : K) (n : Z) : list (K * Z) :=
  Seq.update eqb c k 0%Z (fun v => (v + n)%Z).

(** [counter.most_common(1)[0][0] if counter else dflt] *)
Definition most_common {K : Type} (c : list (K * Z)) (dflt : K) : K :=
  match c with
  | [] => dflt
  | x :: more => fst (Seq.max_by Z.ltb snd x more)
  end.

(** the state of the loop over the spans of one line *)
Definition line_summary (spans : list Fitz.Span)
  : string * list (Q * Z) * list (bool * Z) :=
  fold_left
    (fun '(line_text, size_counter, bold_counter) span =>
       let span_text := Fitz.span_text span in
       if negb (truthy (strip span_text))
       then (line_text, size_counter, bold_counter)
       else
         let size := Num.round1 (Fitz.span_size span) in
         (line_text ++ span_text,
          counter_add Num.eqb size_counter size (Z.of_nat (len span_text)),
          counter_add Bool.eqb bold_counter
                      (_is_bold_font (Fitz.span_font span))
                      (Z.of_nat (len span_text))))
    spans (EmptyString, [], []).

Definition set_bottom (b : Fitz.bbox) (y : Q) : Fitz.bbox :=
  (Fitz.x0 b, Fitz.y0 b, Fitz.x1 b, y).

Fixpoint merge_lines (self : t) (lines : list Fitz.Line)
  (current_merged_block : option TextBlock) (blocks : list TextBlock)
  : result (list TextBlock) :=
  match lines with
  | [] =>
      match current_merged_block with
      | Some cur => Ok (blocks ++ [cur])%list
      | None => Ok blocks
      end
  | line :: more =>
      hf <- _is_header_footer self (Fitz.line_bbox line) ;;
      if (hf : bool) then merge_lines self more current_merged_block blocks
      else
        let '(line_text, size_counter, bold_counter) :=
          line_summary (Fitz.line_spans line) in
        let line_text := strip line_text in
        if negb (truthy line_text)
        then merge_lines self more current_merged_block blocks
        else
          let line_info :=
            {| b_text := line_text;
               b_size := most_common size_counter 0%Q;
               b_is_bold := most_common bold_counter false;
               b_bbox := Fitz.line_bbox line;
               b_origin_x := Fitz.x0 (Fitz.line_bbox line);
               b_origin_y := Fitz.y0 (Fitz.line_bbox line) |} in
          match current_merged_block with
          | Some cur =>
              if Num.ltb (Qabs (b_origin_y line_info - Fitz.y1 (b_bbox cur)))
                         line_merge_tolerance_y
                 && Num.ltb (Qabs (b_size line_info - b_size cur)) (1 # 2)
                 && Bool.eqb (b_is_bold line_info) (b_is_bold cur)
                 && Num.ltb (Qabs (b_origin_x line_info - b_origin_x cur))
                            line_merge_tolerance_x
              then
                merge_lines self more
                  (Some {| b_text := b_text cur ++ " " ++ b_text line_info;
                           b_size := b_size cur;
                           b_is_bold := b_is_bold cur;
                           b_bbox := set_bottom (b_bbox cur)
                                                (Fitz.y1 (b_bbox line_info));
                           b_origin_x := b_origin_x cur;
                           b_origin_y := b_origin_y line_info |})
                  blocks
              else merge_lines self more (Some line_info) (blocks ++ [cur])%list
          | None => merge_lines self more (Some line_info) blocks
          end
  end.

Definition _get_clean_text_blocks (self : t) (page : Fitz.Page)
  : result (list TextBlock) :=
  merge_lines self (text_lines page) None [].

Definition with_font_stats (self : t) (fs : list (Q * Stat)) : t :=
  {| document_title := document_title self;
     is_first_page_cover := is_first_page_cover self;
     font_stats := fs;
     page_dimensions := page_dimensions self |}.

Definition with_page_dimensions (self : t) (d : Q * Q) : t :=
  {| document_title := document_title self;
     is_first_page_cover := is_first_page_cover self;
     font_stats := font_stats self;
     page_dimensions := d |}.

Definition with_document_title (self : t) (title : string) : t :=
  {| document_title := title;
     is_first_page_cover := is_first_page_cover self;
     font_stats := font_stats self;
     page_dimensions := page_dimensions self |}.

(** the innermost loop of [_analyze_document_styles] *)
Definition count_span (fs : list (Q * Stat)) (span : Fitz.Span) : list (Q * Stat) :=
  let font_size := Num.round1 (Fitz.span_size span) in
  let is_bold := _is_bold_font (Fitz.span_font span) in
  let text := strip (Fitz.span_text span) in
  if negb (truthy text) then fs
  else
    let n := Z.of_nat (len text) in
    Seq.update Num.eqb fs font_size {| char_count := 0; bold_count := 0 |}
      (fun st => {| char_count := char_count st + n;
                    bold_count := if is_bold then bold_count st + n
                                  else bold_count st |})%Z.

(** The methods that change the extractor return its new state next to
    their outcome, also when they raise. *)
Fixpoint count_lines (self : t) (lines : list Fitz.Line) : result unit * t :=
  match lines with
  | [] => (Ok tt, self)
  | line :: more =>
      match _is_header_footer self (Fitz.line_bbox line) with
      | Raise e => (Raise e, self)
      | Ok true => count_lines self more
      | Ok false =>
          count_lines
            (with_font_stats self
               (fold_left count_span (Fitz.line_spans line) (font_stats self)))
            more
      end
  end.

Fixpoint count_pages (self : t) (pages : list Fitz.Page) : result unit * t :=
  match pages with
  | [] => (Ok tt, self)
  | page :: more =>
      match _is_form_page self page with
      | Raise e => (Raise e, self)
      | Ok true => count_pages self more
      | Ok false =>
          match count_lines self (text_lines page) with
          | (Ok _, self') => count_pages self' more
          | (Raise e, self') => (Raise e, self')
          end
      end
  end.

Definition start_page_idx (self : t) : nat :=
  if is_first_page_cover self then 1 else 0.

Definition _analyze_document_styles (self : t) (doc : Fitz.Document)
  : result unit * t :=
  count_pages self (firstn 20 (skipn (start_page_idx self) (Fitz.doc_pages doc))).

(** the loop over the blocks of one page *)
Fixpoint scan_blocks (self : t) (body_size : Q)
  (heading_styles : list HeadingStyle) (page_num_0_indexed : Z)
  (blocks : list TextBlock) (prev_heading_context : option PrevHeading)
  (outline_candidates : list Entry)
  : result (list Entry * option PrevHeading) :=
  match blocks with
  | [] => Ok (outline_candidates, prev_heading_context)
  | block :: more =>
      if _is_heading_candidate block body_size then
        level <- _determine_heading_level self block heading_styles
                   prev_heading_context ;;
        scan_blocks self body_size heading_styles page_num_0_indexed more
          (Some {| p_level := level;
                   p_size := b_size block;
                   p_origin_x := b_origin_x block;
                   p_origin_y := b_origin_y block;
                   p_bbox := b_bbox block |})
          (outline_candidates
             ++ [{| e_level := level; e_text := b_text block;
                    e_page := page_num_0_indexed |}])%list
      else
        scan_blocks self body_size heading_styles page_num_0_indexed more
          prev_heading_context outline_candidates
  end.

Fixpoint scan_pages (self : t) (body_size : Q)
  (heading_styles : list HeadingStyle) (page_num_0_indexed : Z)
  (pages : list Fitz.Page) (prev_heading_context : option PrevHeading)
  (outline_candidates : list Entry) : result (list Entry) :=
  match pages with
  | [] => Ok outline_candidates
  | page :: more =>
      form <- _is_form_page self page ;;
      if (form : bool)
      then scan_pages self body_size heading_styles (page_num_0_indexed + 1)
             more prev_heading_context outline_candidates
      else
        text_blocks_on_page <- _get_clean_text_blocks self page ;;
        r <- scan_blocks self body_size heading_styles page_num_0_indexed
               text_blocks_on_page prev_heading_context outline_candidates ;;
        scan_pages self body_size heading_styles (page_num_0_indexed + 1)
          more (snd r) (fst r)
  end.

Definition _extract_headings_from_content (self : t) (doc : Fitz.Document)
  : result (list Entry) :=
  match font_stats self with
  | [] => Ok []
  | _ =>
      let body_size := _determine_body_text_size self in
      heading_styles <- _identify_heading_styles self body_size ;;
      match heading_styles with
      | [] => Ok []
      | _ =>
          scan_pages self body_size heading_styles
            (Z.of_nat (start_page_idx self))
            (skipn (start_page_idx self) (Fitz.doc_pages doc)) None []
      end
  end.


(** *** The title found by the extractor itself *)

Record TitleCandidate := {
  c_text : string;
  c_size : Q;
  c_is_bold : bool;
  c_y_top : Q;
  c_y_bottom : Q;
  c_x_left : Q
}.

Fixpoint title_candidates_of (self : t) (lines : list Fitz.Line)
  : result (list TitleCandidate) :=
  match lines with
  | [] => Ok []
  | line :: more =>
      hf <- _is_header_footer self (Fitz.line_bbox line) ;;
      if (hf : bool) then title_candidates_of self more
      else
        let line_text :=
          strip (join "" (map Fitz.span_text (Fitz.line_spans line))) in
        if negb (truthy line_text) then title_candidates_of self more
        else
          let dominant_size :=
            match map Fitz.span_size (Fitz.line_spans line) with
            | s :: sizes => Seq.max_by Num.ltb (fun x => x) s sizes
            | [] => 0%Q
            end in
          let dominant_bold :=
            existsb (fun span => _is_bold_font (Fitz.span_font span))
                    (Fitz.line_spans line) in
          y_pos_ratio <- Num.div (Fitz.y0 (Fitz.line_bbox line))
                                 (snd (page_dimensions self)) ;;
          rest <- title_candidates_of self more ;;
          if Num.ltb y_pos_ratio (4 # 10)
          then Ok ({| c_text := line_text;
                      c_size := dominant_size;
                      c_is_bold := dominant_bold;
                      c_y_top := Fitz.y0 (Fitz.line_bbox line);
                      c_y_bottom := Fitz.y1 (Fitz.line_bbox line);
                      c_x_left := Fitz.x0 (Fitz.line_bbox line) |} :: rest)
          else Ok rest
  end.

(** the order of [sort(key=(size, -y_top, is_bold), reverse=True)] *)
Definition title_before (a b : TitleCandidate) : bool :=
  Num.ltb (c_size b) (c_size a)
  || (Num.eqb (c_size a) (c_size b)
      && (Num.ltb (c_y_top a) (c_y_top b)
          || (Num.eqb (c_y_top a) (c_y_top b)
              && (c_is_bold a && negb (c_is_bold b))))).

(** position of the first candidate that can be the main title *)
Fixpoint main_title_index (top_size : Q) (i : nat) (cands : list TitleCandidate)
  : option nat :=
  match cands with
  | [] => None
  | cand :: more =>
      if Num.leb (top_size * (85 # 100))%Q (c_size cand)
         && negb (Re.matches numbering (strip (c_text cand)))
         && negb (Re.matches (Re.compile "^[A-Z]$") (strip (c_text cand)))
         && (1 <? List.length (split (c_text cand)))
      then Some i
      else main_title_index top_size (S i) more
  end.

Record LastPart := {
  lp_y_bottom : Q;
  lp_x_left : Q;
  lp_size : Q
}.

Fixpoint merge_title_parts (self : t) (parts : list TitleCandidate)
  (last_part_info : LastPart) (final_title_parts : list string)
  : result (list string) :=
  match parts with
  | [] => Ok final_title_parts
  | next_part :: more =>
      if Num.ltb (Qabs (c_y_top next_part - lp_y_bottom last_part_info))
                 ((15 # 10) * c_size next_part)%Q
         && Num.ltb (Qabs (c_size next_part - lp_size last_part_info)) 2
         && Num.ltb (Qabs (c_x_left next_part - lp_x_left last_part_info)) 20
      then
        y_ratio <- Num.div (c_y_top next_part) (snd (page_dimensions self)) ;;
        if Num.ltb y_ratio (1 # 2) then
          let words := List.length (split (c_text next_part)) in
          if (match c_text next_part with
              | String c _ => islower_c c
              | EmptyString => false
              end && (7 <? words))
             || ((words <? 3) && negb (isupper (c_text next_part))
                 && negb (Re.matches numbering_prefix (c_text next_part)))
          then Ok final_title_parts
          else
            merge_title_parts self more
              {| lp_y_bottom := c_y_bottom next_part;
                 lp_x_left := c_x_left next_part;
                 lp_size := c_size next_part |}
              (final_title_parts ++ [c_text next_part])%list
        else Ok final_title_parts
      else Ok final_title_parts
  end.

Definition _extract_document_title (self : t) (doc : Fitz.Document)
  : result string :=
  match nth_error (Fitz.doc_pages doc) (start_page_idx self) with
  | None => Ok EmptyString
  | Some page =>
      title_candidates <- title_candidates_of self (text_lines page) ;;
      let title_candidates := Seq.sorted title_before title_candidates in
      match title_candidates with
      | [] => Ok EmptyString
      | top :: _ =>
          let start_idx_for_merge :=
            match main_title_index (c_size top) 0 title_candidates with
            | Some i => i
            | None => 0
            end in
          let potential_main_title := nth start_idx_for_merge title_candidates top in
          parts <- merge_title_parts self
                     (skipn (S start_idx_for_merge) title_candidates)
                     {| lp_y_bottom := c_y_bottom potential_main_title;
                        lp_x_left := c_x_left potential_main_title;
                        lp_size := c_size potential_main_title |}
                     [c_text potential_main_title] ;;
          Ok (join " " parts)
      end
  end.

(** *** The entry point *)

(** [extract_outline] returns the refined list when it succeeds and a
    dictionary with a title and an empty outline when it falls back *)
Inductive outline_result :=
| OutlineList (outline : list Entry)
| OutlineDict (title : string) (outline : list Entry).

Definition fallback (self : t) (pdf_path : string) : outline_result :=
  OutlineDict
    (if truthy (document_title self) then document_title self
     else file_stem pdf_path)
    [].

Section Open.

(** [fitz.open]: the document, or the exception of an unreadable file *)
Variable fitz_open : string -> result Fitz.Document.

(** the suite of the [try] statement *)
Definition extract_outline_try (self : t) (pdf_path : string)
  : result outline_result * t :=
  match fitz_open pdf_path with
  | Raise e => (Raise e, self)
  | Ok doc =>
      match Fitz.doc_pages doc with
      | [] => (Ok (fallback self pdf_path), self)
      | first_page :: _ =>
          let self :=
            with_page_dimensions self
              (Fitz.rect_width first_page, Fitz.rect_height first_page) in
          match _analyze_document_styles self doc with
          | (Raise e, self) => (Raise e, self)
          | (Ok _, self) =>
              let titled :=
                if negb (truthy (document_title self)) then
                  match _extract_document_title self doc with
                  | Raise e => (Raise e, self)
                  | Ok extracted_title =>
                      (Ok tt,
                       with_document_title self
                         (if truthy extracted_title then extracted_title
                          else file_stem pdf_path))
                  end
                else (Ok tt, self) in
              match titled with
              | (Raise e, self) => (Raise e, self)
              | (Ok _, self) =>
                  match _extract_headings_from_content self doc with
                  | Raise e => (Raise e, self)
                  | Ok outline_candidates =>
                      match refine_fresh outline_candidates with
                      | Raise e => (Raise e, self)
                      | Ok refined_outline => (Ok (OutlineList refined_outline), self)
                      end
                  end
              end
          end
      end
  end.

(** [except Exception] turns every failure of the suite into the fallback;
    closing the document in [finally] has no effect on the outcome *)
Definition extract_outline (self : t) (pdf_path : string)
  : result outline_result * t :=
  match extract_outline_try self pdf_path with
  | (Ok r, self) => (Ok r, self)
  | (Raise _, self) => (Ok (fallback self pdf_path), self)
  end.

End Open.


End PDFOutlineExtractor.

(** ** The word source (pdfplumber) *)

Module Plumber.
Import Py.

(** a word of [page.extract_words(extra_attrs=["size", "fontname"])]; the
    two extra attributes may be missing *)
Record Word := {
  word_text : string;
  word_size : option Q;
  word_fontname : option string
}.

Record Page := {
  extract_text : result (option string);
  extract_words : result (list Word)
}.

Record PDF := {
  pages : list Page
}.

End Plumber.

(** ** TitleFinder.py *)

Module TitleFinder.
Import Py.

Record t := {
  title : string;
  title_page : Z;
  title_font_size : Q;
  title_font_name : string
}.

Definition __init__ : t :=
  {| title := ""; title_page := 1; title_font_size := 0; title_font_name := "" |}.

(** the first page, counted from 1, whose text is not blank; a page whose
    text cannot be read is passed over *)
Fixpoint _find_first_content_page (page_num : Z) (pages : list Plumber.Page)
  : option Plumber.Page * Z :=
  match pages with
  | [] => (None, 1%Z)
  | page :: more =>
      match Plumber.extract_text page with
      | Ok (Some text) =>
          if truthy text && truthy (strip text) then (Some page, page_num)
          else _find_first_content_page (page_num + 1) more
      | _ => _find_first_content_page (page_num + 1) more
      end
  end.

(** a word with the defaults of [w.get] filled in *)
Record SafeWord := {
  sw_text : string;
  sw_size : Q;
  sw_fontname : string
}.

Definition _safe_extract_words (page : Plumber.Page) : list SafeWord :=
  match Plumber.extract_words page with
  | Ok words =>
      map (fun w =>
             {| sw_text := Plumber.word_text w;
                sw_size := match Plumber.word_size w with
                           | Some s => s
                           | None => 0%Q
                           end;
                sw_fontname := match Plumber.word_fontname w with
                               | Some f => f
                               | None => "unknown"
                               end |})
          words
  | Raise _ => []
  end.

Definition _deduplicate_title (text : string) : string :=
  Re.sub (Re.compile "(.)\1{2,}") "\1" text.

(** the loop over the words: the words kept, their size and their font *)
Definition dominant_words (words : list SafeWord) : list string * Q * string :=
  fold_left
    (fun '(current_title_words, current_font_size, current_font_name) word =>
       let font_size := sw_size word in
       let font_name := sw_fontname word in
       let text := sw_text word in
       if (len (strip text) <=? 2) || isdigit text
       then (current_title_words, current_font_size, current_font_name)
       else if Num.ltb current_font_size font_size
       then ([text], font_size, font_name)
       else if Num.eqb font_size current_font_size
               && String.eqb font_name current_font_name
       then ((current_title_words ++ [text])%list, current_font_size,
             current_font_name)
       else (current_title_words, current_font_size, current_font_name))
    words ([], 0%Q, EmptyString).

Section Open.

(** [pdfplumber.open] *)
Variable pdfplumber_open : string -> result Plumber.PDF.

(** the dictionary [{"title": ..., "page": ...}] and the finder afterwards *)
Definition find_title (self : t) (pdf_path : string)
  : result (string * Z) * t :=
  match pdfplumber_open pdf_path with
  | Raise e => (Raise e, self)
  | Ok pdf =>
      let '(first_content_page, page_num) :=
        _find_first_content_page 1 (Plumber.pages pdf) in
      let self :=
        {| title := title self; title_page := page_num;
           title_font_size := title_font_size self;
           title_font_name := title_font_name self |} in
      let self :=
        match first_content_page with
        | Some page =>
            let words := _safe_extract_words page in
            let '(current_title_words, current_font_size, current_font_name) :=
              dominant_words words in
            let raw_title := strip (join " " current_title_words) in
            {| title := _deduplicate_title raw_title;
               title_page := title_page self;
               title_font_size := current_font_size;
               title_font_name := current_font_name |}
        | None => self
        end in
      (Ok (if truthy (title self) then title self
           else file_stem pdf_path,
           title_page self),
       self)
  end.

End Open.

End TitleFinder.

(** ** cover_page.py *)

Module cover_page.
Import Py.

(** the keyword parameters of the classifier *)
Record Heuristics := {
  max_body_text_lines : nat;
  min_image_area_ratio : Q;
  min_prominent_font_ratio : Q;
  min_prominent_elements : nat;
  max_prominent_elements : nat;
  title_centering_threshold : Q;
  title_vertical_pos_threshold : Q
}.

Definition defaults : Heuristics :=
  {| max_body_text_lines := 8;
     min_image_area_ratio := 2 # 100;
     min_prominent_font_ratio := 12 # 10;
     min_prominent_elements := 1;
     max_prominent_elements := 15;
     title_centering_threshold := 30 # 100;
     title_vertical_pos_threshold := 1 # 2 |}.

(** the lines of the text blocks of a page, with or without spans *)
Definition lines_of (page : Fitz.Page) : list Fitz.Line :=
  flat_map Fitz.block_lines
           (filter (fun b => (Fitz.block_type b =? 0)%Z) (Fitz.page_blocks page)).

Definition line_text_of (line : Fitz.Line) : string :=
  strip (join " " (map Fitz.span_text (Fitz.line_spans line))).

(** [' '.join(text.split())] *)
Definition normalize (text : string) : string := join " " (split text).

Definition image_area (images : list Fitz.ImageInfo) : Q :=
  fold_left
    (fun total img =>
       match Fitz.img_width img, Fitz.img_height img with
       | Some w, Some h =>
           if Fitz.img_has_bbox img && Num.ltb 0 w && Num.ltb 0 h
           then (total + w * h)%Q else total
       | _, _ => total
       end)
    images 0%Q.

(** the dictionary [unique_lines]: the largest font of every distinct line *)
Definition unique_lines_of (lines : list Fitz.Line) : list (string * Q) :=
  fold_left
    (fun unique_lines line =>
       let line_text := line_text_of line in
       if truthy line_text then
         match map Fitz.span_size (Fitz.line_spans line) with
         | s :: sizes =>
             let max_line_font_size := Seq.max_by Num.ltb (fun x => x) s sizes in
             Seq.update String.eqb unique_lines (normalize line_text) 0%Q
               (fun old => if Num.ltb old max_line_font_size
                           then max_line_font_size else old)
         | [] => unique_lines
         end
       else unique_lines)
    lines [].

(** the loop that counts the distinct prominent texts *)
Definition prominent_texts (threshold : Q) (spans : list Fitz.Span) : list string :=
  fold_left
    (fun processed_prominent_lines span =>
       let normalized_text := normalize (strip (Fitz.span_text span)) in
       if negb (truthy normalized_text) then processed_prominent_lines
       else if Num.ltb threshold (Fitz.span_size span)
               && negb (existsb (String.eqb normalized_text)
                                processed_prominent_lines)
       then (processed_prominent_lines ++ [normalized_text])%list
       else processed_prominent_lines)
    (Seq.sorted (fun a b => Num.ltb (Fitz.span_size b) (Fitz.span_size a)) spans)
    [].

(** the suite of the [try] statement of the classifier *)
Definition analyze (page : Fitz.Page) (document : Fitz.Document)
  (hp : Heuristics) : result bool :=
  let toc := Fitz.doc_toc document in
  let by_toc :=
    match toc with
    | [] => false
    | first :: _ =>
        let first_toc_page :=
          match Fitz.toc_tail first with
          | p :: _ => p
          | [] => (-1)%Z
          end in
        if (first_toc_page =? Fitz.page_number page + 1)%Z
           && (Fitz.page_number page =? 0)%Z
        then false
        else (1 <? first_toc_page)%Z && (Fitz.page_number page =? 0)%Z
    end in
  if by_toc then Ok true
  else
    let spans := flat_map Fitz.line_spans (lines_of page) in
    let page_area := (Fitz.rect_width page * Fitz.rect_height page)%Q in
    let total_image_area := image_area (Fitz.page_image_info page) in
    let has_significant_image :=
      Num.ltb (min_image_area_ratio hp)
              (if Num.ltb 0 page_area then (total_image_area / page_area)%Q
               else 0%Q) in
    match spans with
    | [] => Ok has_significant_image
    | first_span :: more_spans =>
        let all_font_sizes := map Fitz.span_size spans in
        avg_font_size <- Num.div (Num.sum all_font_sizes)
                                 (Num.of_nat (List.length all_font_sizes)) ;;
        let max_font_size :=
          Seq.max_by Num.ltb (fun x => x) (Fitz.span_size first_span)
                     (map Fitz.span_size more_spans) in
        let has_a_large_font :=
          Num.ltb (avg_font_size * min_prominent_font_ratio hp)%Q max_font_size in
        let body_text_lines_count :=
          List.length
            (filter (fun '(line_text, line_font_size) =>
                       Num.leb line_font_size (avg_font_size * (12 # 10))%Q
                       && (4 <? List.length (split line_text))
                       && Num.ltb line_font_size (max_font_size * (8 # 10))%Q)
                    (unique_lines_of (lines_of page))) in
        if max_body_text_lines hp <? body_text_lines_count then Ok false
        else
          let prominent_text_elements_count :=
            List.length
              (prominent_texts (avg_font_size * min_prominent_font_ratio hp)%Q
                               spans) in
          if negb ((min_prominent_elements hp <=? prominent_text_elements_count)
                   && (prominent_text_elements_count <=? max_prominent_elements hp))
          then Ok false
          else
            let main_title_span :=
              Seq.max_by Num.ltb Fitz.span_size first_span more_spans in
            let main_title_bbox := Fitz.span_bbox main_title_span in
            let page_width := Fitz.rect_width page in
            let page_height := Fitz.rect_height page in
            let center_x_title :=
              ((Fitz.x0 main_title_bbox + Fitz.x1 main_title_bbox) / 2)%Q in
            let center_x_page := (page_width / 2)%Q in
            deviation <- Num.div (Qabs (center_x_title - center_x_page))
                                 page_width ;;
            let is_main_title_centered :=
              Num.ltb deviation (title_centering_threshold hp) in
            vertical_pos_ratio <- Num.div (Fitz.y0 main_title_bbox) page_height ;;
            let is_main_title_high_enough :=
              Num.ltb vertical_pos_ratio (title_vertical_pos_threshold hp) in
            let is_very_sparse_overall :=
              (List.length spans <? 10) && (body_text_lines_count =? 0) in
            let is_likely_cover :=
              (body_text_lines_count <=? max_body_text_lines hp)
              && has_a_large_font
              && is_main_title_centered
              && is_main_title_high_enough
              && (min_prominent_elements hp <=? prominent_text_elements_count)
              && (prominent_text_elements_count <=? max_prominent_elements hp) in
            let is_fallback_cover :=
              is_very_sparse_overall && has_significant_image in
            Ok (is_likely_cover || is_fallback_cover)
    end.

(** any exception inside the classifier makes the page a content page *)
Definition _analyze_page_for_cover_characteristics (page : Fitz.Page)
  (document : Fitz.Document) (hp : Heuristics) : bool :=
  match analyze page document hp with
  | Ok b => b
  | Raise _ => false
  end.

Section Open.

Variable fitz_open : string -> result Fitz.Document.

Definition is_cover_page (pdf_path : string) (page_number : nat)
  (hp : Heuristics) : bool :=
  match fitz_open pdf_path with
  | Raise _ => false
  | Ok document =>
      match nth_error (Fitz.doc_pages document) page_number with
      | None => false
      | Some page => _analyze_page_for_cover_characteristics page document hp
      end
  end.

End Open.

End cover_page.

(** ** main.py *)

Module main.
Import Py.

(** the dictionary that [process_pdf] writes *)
Record Result := {
  r_title : string;
  r_outline : PDFOutlineExtractor.outline_result
}.

(** the files: the bytes of every path that exists, and which paths can be
    written *)
Record Files := {
  contents : string -> option string;
  writable : string -> bool
}.

Definition write (fs : Files) (path : string) (data : string) : Files :=
  {| contents := fun p => if String.eqb p path then Some data else contents fs p;
     writable := writable fs |}.

Section Libraries.

(** the two readers, as functions of the bytes of a file, and [json.dump]
    with the options of the source *)
Variable fitz_load : string -> result Fitz.Document.
Variable pdfplumber_load : string -> result Plumber.PDF.
Variable json_dump : Result -> string.

Definition open_with {A} (load : string -> result A) (fs : Files) (path : string)
  : result A :=
  match contents fs path with
  | Some bytes => load bytes
  | None => Raise FileDataError
  end.

(** the dictionary [result] of [process_pdf] *)
Definition process_pdf_result (fs : Files) (input_path : string)
  : result Result :=
  let title_finder := TitleFinder.__init__ in
  let title :=
    match TitleFinder.find_title (open_with pdfplumber_load fs) title_finder
                                 input_path with
    | (Ok title_info, _) => fst title_info
    | (Raise _, _) => file_stem input_path
    end in
  let is_first_page_cover :=
    cover_page.is_cover_page (open_with fitz_load fs) input_path 0
                             cover_page.defaults in
  let extractor := PDFOutlineExtractor.__init__ title is_first_page_cover in
  match PDFOutlineExtractor.extract_outline (open_with fitz_load fs) extractor
                                            input_path with
  | (Ok outline, _) => Ok {| r_title := title; r_outline := outline |}
  | (Raise e, _) => Raise e
  end.

(** [process_pdf]: the files afterwards; a record that cannot be written is
    reported and dropped *)
Definition process_pdf (fs : Files) (input_path output_path : string)
  : result Files :=
  result <- process_pdf_result fs input_path ;;
  if writable fs output_path
  then Ok (write fs output_path (json_dump result))
  else Ok fs.

End Libraries.

End main.


(** * Properties *)

Unset Implicit Arguments.
Import Py.

(** ** Vocabulary of the statements *)

Section Vocabulary.
Import PDFOutlineExtractor.

(** the three depths of the data model *)
Definition valid_level (level : string) : Prop :=
  level = "H1" \/ level = "H2" \/ level = "H3".

(** the depth a store gives to a reference; 0 when the level cannot be read *)
Definition depth (h : store) (r : nat) : Z :=
  match level_num (e_level (h r)) with
  | Ok n => n
  | Raise _ => 0%Z
  end.

(** no step down the list goes more than one level deeper *)
Fixpoint nesting_ok (depths : list Z) : Prop :=
  match depths with
  | a :: (b :: _) as more => (b - a <= 1)%Z /\ nesting_ok more
  | _ => True
  end.

Definition entry_A : Entry := {| e_level := "H1"; e_text := "A"; e_page := 0 |}.
Definition entry_B : Entry := {| e_level := "H3"; e_text := "B"; e_page := 0 |}.
Definition entry_B_clamped : Entry :=
  {| e_level := "H2"; e_text := "B"; e_page := 0 |}.

(** a size lies in the band of plausible body sizes *)
Definition in_body_band (size : Q) : Prop := (8 <= size /\ size <= 14)%Q.

(** statistics without a size in the band: all of the 100 characters at
    20pt are bold, none of the 50 characters at 16pt is *)
Definition stats_outside_band : t :=
  {| document_title := "";
     is_first_page_cover := false;
     font_stats := [(20%Q, {| char_count := 100; bold_count := 100 |});
                    (16%Q, {| char_count := 50; bold_count := 0 |})];
     page_dimensions := (0%Q, 0%Q) |}.

Definition block_of (text : string) (size : Q) : TextBlock :=
  {| b_text := text; b_size := size; b_is_bold := false;
     b_bbox := (72, 100, 300, 120)%Q; b_origin_x := 72%Q; b_origin_y := 100%Q |}.

(** the number of spaces of a text and the number of its other characters *)
Definition spaces (text : string) : Z :=
  Z.of_nat (count_c (Ascii.eqb " ") text).

Definition non_spaces (text : string) : Z :=
  (Z.of_nat (len text) - spaces text)%Z.

(** spaces over non-space characters exceed one half *)
Definition spacing_exceeds (text : string) : Prop :=
  (0 < non_spaces text)%Z /\
  (1 # 2 < inject_Z (spaces text) / inject_Z (non_spaces text))%Q.

(** a word character, three or more white-space characters and a word
    character follow each other somewhere in the text *)
Definition has_wide_gap (text : string) : Prop :=
  Re.found_in spaced_text_pattern text = true.

(** the first page of a document, holding one line of text set in 36pt *)
Definition single_line_36pt (page : Fitz.Page) : Prop :=
  Fitz.page_number page = 0%Z /\
  exists line,
    cover_page.lines_of page = [line] /\
    Fitz.line_spans line <> [] /\
    Forall (fun span => (Fitz.span_size span == 36)%Q) (Fitz.line_spans line).

(** the document has a table of contents whose first entry points to
    page [p] *)
Definition toc_starts_at (document : Fitz.Document) (p : Z) : Prop :=
  exists first others more,
    Fitz.doc_toc document = first :: others /\ Fitz.toc_tail first = p :: more.

(** a page of 600 by 800 points with the line "My Title", 36pt, centred *)
Definition title_span : Fitz.Span :=
  {| Fitz.span_text := "My Title"; Fitz.span_size := 36;
     Fitz.span_font := "Helvetica"; Fitz.span_bbox := (200, 100, 400, 140)%Q |}.

Definition title_page : Fitz.Page :=
  {| Fitz.page_number := 0;
     Fitz.rect_width := 600;
     Fitz.rect_height := 800;
     Fitz.page_widgets := [];
     Fitz.page_text := "My Title";
     Fitz.page_blocks :=
       [{| Fitz.block_type := 0;
           Fitz.block_lines :=
             [{| Fitz.line_spans := [title_span];
                 Fitz.line_bbox := (200, 100, 400, 140)%Q |}] |}];
     Fitz.page_image_info := [] |}.

Definition document_with_toc (p : Z) : Fitz.Document :=
  {| Fitz.doc_name := "report.pdf";
     Fitz.doc_pages := [title_page];
     Fitz.doc_toc :=
       [{| Fitz.toc_lvl := 1; Fitz.toc_title := "Introduction";
           Fitz.toc_tail := [p] |}] |}.

(** the layout source cannot open or parse the file *)
Definition unreadable (fitz_open : string -> result Fitz.Document)
  (pdf_path : string) : Prop :=
  exists e, fitz_open pdf_path = Raise e.

(** the layout source opens the file and finds no page in it *)
Definition zero_pages (fitz_open : string -> result Fitz.Document)
  (pdf_path : string) : Prop :=
  exists doc, fitz_open pdf_path = Ok doc /\ Fitz.doc_pages doc = [].

(** the word source finds no page either, or cannot read the file *)
Definition no_words (pdfplumber_open : string -> result Plumber.PDF)
  (pdf_path : string) : Prop :=
  (exists e, pdfplumber_open pdf_path = Raise e) \/
  (exists pdf, pdfplumber_open pdf_path = Ok pdf /\ Plumber.pages pdf = []).

(** a file system with one file, and readers that find no page in it *)
Definition empty_pdf_files : main.Files :=
  {| main.contents :=
       fun p => if String.eqb p "input/empty.pdf" then Some "%PDF-1.4" else None;
     main.writable := fun _ => true |}.

Definition load_no_pages (bytes : string) : result Fitz.Document :=
  Ok {| Fitz.doc_name := "empty.pdf"; Fitz.doc_pages := []; Fitz.doc_toc := [] |}.

Definition load_no_words (bytes : string) : result Plumber.PDF :=
  Ok {| Plumber.pages := [] |}.

(** a stand-in for [json.dump] in the examples: the title alone *)
Definition dump_title (r : main.Result) : string := main.r_title r.

(** the character that [.] does not match *)
Definition newline : ascii := "010".

(** [s] without the characters [c] it starts with *)
Fixpoint drop_run (c : ascii) (s : string) : string :=
  match s with
  | String x s' => if Ascii.eqb x c then drop_run c s' else s
  | EmptyString => EmptyString
  end.

(** when [s] starts with three times the same character, other than the
    newline: that character and what follows the whole run of it *)
Definition run_head (s : string) : option (ascii * string) :=
  match s with
  | String c (String c1 (String c2 rest)) =>
      if negb (Ascii.eqb c newline) && Ascii.eqb c c1 && Ascii.eqb c c2
      then Some (c, drop_run c rest) else None
  | _ => None
  end.

(** somewhere in [s] a character other than the newline stands three times
    in a row *)
Fixpoint has_run (s : string) : bool :=
  match run_head s with
  | Some _ => true
  | None =>
      match s with
      | String _ s' => has_run s'
      | EmptyString => false
      end
  end.

(** [s] holds the character [c] three times in a row *)
Definition triple_in (c : ascii) (s : string) : Prop :=
  exists pre post, s = pre ++ String c (String c (String c post)).

Definition dedup_pattern : Re.pattern := Re.compile "(.)\1{2,}".

(** the scan of [_deduplicate_title] from the middle of a title *)
Definition sub_dedup (fuel : nat) (p : option ascii) (s : string) : string :=
  Re.sub_from fuel dedup_pattern "\1" p s.

Definition three_newlines : string :=
  String newline (String newline (String newline EmptyString)).

(** [s] is [l] with some members left out, in the same order *)
Fixpoint subseq {A : Type} (s l : list A) : Prop :=
  match s, l with
  | [], _ => True
  | _ :: _, [] => False
  | x :: s', y :: l' => (x = y /\ subseq s' l') \/ subseq s l'
  end.

(** the store that the refiner leaves *)
Definition refined_store (h : store) (outline_candidates : list nat) : store :=
  match _refine_hierarchy h outline_candidates with
  | Ok (_, h') => h'
  | Raise _ => h
  end.

(** the references that the refiner returns *)
Definition refined_refs (h : store) (outline_candidates : list nat) : list nat :=
  match _refine_hierarchy h outline_candidates with
  | Ok (out, _) => out
  | Raise _ => []
  end.

(** a store whose second entry is a bare table label two levels down *)
Definition store_with_label : store :=
  fresh_store [entry_A;
               {| e_level := "H3"; e_text := "Total"; e_page := 0 |};
               entry_B].

(** the depth of an entry; 0 when its level cannot be read *)
Definition entry_depth (e : Entry) : Z :=
  match level_num (e_level e) with
  | Ok n => n
  | Raise _ => 0%Z
  end.

(** every entry has one of the three depths, and no entry is more than one
    level deeper than the entry before it *)
Definition well_nested (outline : list Entry) : Prop :=
  Forall (fun e => valid_level (e_level e)) outline /\
  nesting_ok (map entry_depth outline).

(** a page of 600 by 800 points with numbered headings in bold, body text
    and a table label; [line_at] sets a line of one span at height [y] *)
Definition line_at (text : string) (size : Q) (font : string) (y : Q)
  : Fitz.Line :=
  {| Fitz.line_spans :=
       [{| Fitz.span_text := text; Fitz.span_size := size;
           Fitz.span_font := font;
           Fitz.span_bbox := (72, y, 400, y + size)%Q |}];
     Fitz.line_bbox := (72, y, 400, y + size)%Q |}.

Definition sample_page : Fitz.Page :=
  {| Fitz.page_number := 0;
     Fitz.rect_width := 600;
     Fitz.rect_height := 800;
     Fitz.page_widgets := [];
     Fitz.page_text := "";
     Fitz.page_blocks :=
       [{| Fitz.block_type := 0;
           Fitz.block_lines :=
             [line_at "1. Introduction" 16 "Helvetica-Bold" 100;
              line_at "This report describes the method in detail and at length."
                      10 "Helvetica" 130;
              line_at "It goes on for a second line of ordinary body text here."
                      10 "Helvetica" 141;
              line_at "1.1 Scope" 13 "Helvetica-Bold" 170;
              line_at "The scope of the work is set out in this paragraph."
                      10 "Helvetica" 200;
              line_at "Total" 13 "Helvetica-Bold" 230;
              line_at "1.1.1 Details" 13 "Helvetica-Bold" 260] |}];
     Fitz.page_image_info := [] |}.

Definition sample_document : Fitz.Document :=
  {| Fitz.doc_name := "report.pdf";
     Fitz.doc_pages := [sample_page];
     Fitz.doc_toc := [] |}.

Definition open_sample (path : string) : result Fitz.Document :=
  Ok sample_document.

(** the extractor of the sample after its statistics have been taken *)
Definition sample_extractor : t :=
  snd (extract_outline open_sample (__init__ "Report" false) "report.pdf").

(** the outline of the sample *)
Definition sample_outline : list Entry :=
  match fst (extract_outline open_sample (__init__ "Report" false)
                             "report.pdf") with
  | Ok (OutlineList outline) => outline
  | _ => []
  end.

(** the scan keeps the candidates well nested: the context it carries is
    the candidate it appended last *)
Definition scan_invariant (prev : option PrevHeading) (cands : list Entry)
  : Prop :=
  Forall (fun e => valid_level (e_level e)) cands /\
  nesting_ok (map entry_depth cands) /\
  match prev with
  | None => cands = []
  | Some p =>
      cands <> [] /\ p_level p = e_level (List.last cands blank_entry)
  end.

(** the heading styles of the sample at its body size of 10pt *)
Definition sample_styles : list HeadingStyle :=
  match _identify_heading_styles sample_extractor 10 with
  | Ok styles => styles
  | Raise _ => []
  end.

(** the share of bold characters of a size, as the program computes it *)
Definition bold_share (stats : Stat) : Q :=
  Num.fl (inject_Z (bold_count stats) / inject_Z (Z.max 1 (char_count stats))).

(** a heading style drawn from the statistics [items] at a body size: the
    size is one of the sampled sizes, with its number of characters; the
    style is bold exactly when more than 0.6 of these characters are; the
    size is more than 0.95 times the body size; the ratio of the two is at
    least 1.3, or the style is bold; and the score is 50 times the ratio,
    plus 40 for a bold style.  All of it in binary64. *)
Definition style_of (items : list (Q * Stat)) (body_size : Q)
  (st : HeadingStyle) : Prop :=
  exists stats ratio,
    In (h_size st, stats) items /\
    h_char_count st = char_count stats /\
    (h_is_bold st = true <-> (Num.fl (6 # 10) < bold_share stats)%Q) /\
    (Num.fmul body_size (95 # 100) < Num.fl (h_size st))%Q /\
    Num.fdiv (h_size st) body_size = Ok ratio /\
    ((Num.fl (13 # 10) <= ratio)%Q \/ h_is_bold st = true) /\
    h_score st = Num.fadd (Num.fmul ratio 50) (if h_is_bold st then 40 else 0).

(** every size of the statistics has at least one character, and no more
    bold characters than characters *)
Definition stats_ok (fs : list (Q * Stat)) : Prop :=
  Forall (fun kv => (1 <= char_count (snd kv))%Z /\
                    (0 <= bold_count (snd kv) <= char_count (snd kv))%Z) fs.

(** no size has two entries *)
Definition keys_distinct (fs : list (Q * Stat)) : Prop :=
  ForallOrdPairs (fun a b => Num.eqb (fst a) (fst b) = false) fs.

(** a page without form fields whose text has three field labels, below a
    line in 24pt bold *)
Definition labelled_page : Fitz.Page :=
  {| Fitz.page_number := 0;
     Fitz.rect_width := 600;
     Fitz.rect_height := 800;
     Fitz.page_widgets := [];
     Fitz.page_text := "APPLICATION Name: Date: Signature:";
     Fitz.page_blocks :=
       [{| Fitz.block_type := 0;
           Fitz.block_lines :=
             [line_at "APPLICATION" 24 "Helvetica-Bold" 100;
              line_at "Name: Date: Signature:" 10 "Helvetica" 140] |}];
     Fitz.page_image_info := [] |}.

Definition labelled_document : Fitz.Document :=
  {| Fitz.doc_name := "form.pdf";
     Fitz.doc_pages := [labelled_page];
     Fitz.doc_toc := [] |}.

Definition open_labelled (path : string) : result Fitz.Document :=
  Ok labelled_document.

(** what a method that only counts leaves of the extractor *)
Definition counted (self self' : t) : Prop :=
  document_title self' = document_title self /\
  is_first_page_cover self' = is_first_page_cover self /\
  page_dimensions self' = page_dimensions self /\
  (stats_ok (font_stats self) -> keys_distinct (font_stats self) ->
   stats_ok (font_stats self') /\ keys_distinct (font_stats self')).

(** the text of a line as the assembler reads it: the spans that are not
    blank, put together and stripped *)
Definition assembled_text (line : Fitz.Line) : string :=
  strip (fst (fst (line_summary (Fitz.line_spans line)))).

(** the assembler keeps a line: it is neither header nor footer, and its
    text is not blank *)
Definition kept_line (self : t) (line : Fitz.Line) : bool :=
  match _is_header_footer self (Fitz.line_bbox line) with
  | Ok false => truthy (assembled_text line)
  | _ => false
  end.

(** the texts of the blocks assembled so far and of the block in the making *)
Definition texts_so_far (blocks : list TextBlock)
  (current : option TextBlock) : list string :=
  (map b_text blocks
   ++ match current with Some cur => [b_text cur] | None => [] end)%list.

(** the blocks of the sample page *)
Definition sample_blocks : list TextBlock :=
  match _get_clean_text_blocks sample_extractor sample_page with
  | Ok blocks => blocks
  | Raise _ => []
  end.

(** a word that the loop of [find_title] takes into account: more than two
    characters once stripped, and not a number *)
Definition usable_word (w : TitleFinder.SafeWord) : bool :=
  negb (Nat.leb (len (strip (TitleFinder.sw_text w))) 2
        || isdigit (TitleFinder.sw_text w)).

(** a usable word of the given size and font *)
Definition in_style (size : Q) (font : string) (w : TitleFinder.SafeWord)
  : bool :=
  usable_word w && Num.eqb (TitleFinder.sw_size w) size
  && String.eqb (TitleFinder.sw_fontname w) font.

(** the words of a title page: a title in two fonts of one size, a year in
    larger digits and a line of small print *)
Definition sample_words : list TitleFinder.SafeWord :=
  [ {| TitleFinder.sw_text := "Annual"; TitleFinder.sw_size := 24%Q;
       TitleFinder.sw_fontname := "Helvetica-Bold" |};
    {| TitleFinder.sw_text := "Report"; TitleFinder.sw_size := 24%Q;
       TitleFinder.sw_fontname := "Helvetica-Bold" |};
    {| TitleFinder.sw_text := "2024"; TitleFinder.sw_size := 30%Q;
       TitleFinder.sw_fontname := "Helvetica-Bold" |};
    {| TitleFinder.sw_text := "of"; TitleFinder.sw_size := 24%Q;
       TitleFinder.sw_fontname := "Helvetica-Bold" |};
    {| TitleFinder.sw_text := "Finance"; TitleFinder.sw_size := 24%Q;
       TitleFinder.sw_fontname := "Times-Roman" |};
    {| TitleFinder.sw_text := "Department"; TitleFinder.sw_size := 24%Q;
       TitleFinder.sw_fontname := "Helvetica-Bold" |};
    {| TitleFinder.sw_text := "confidential"; TitleFinder.sw_size := 9%Q;
       TitleFinder.sw_fontname := "Times-Roman" |} ].

(** a page has content: its text can be read and is not blank *)
Definition has_content (page : Plumber.Page) : bool :=
  match Plumber.extract_text page with
  | Ok (Some text) => truthy (strip text)
  | _ => false
  end.

(** the spans that the cover classifier collects from a page *)
Definition page_spans (page : Fitz.Page) : list Fitz.Span :=
  flat_map Fitz.line_spans (cover_page.lines_of page).

(** the page has text, all of it set in one size [c] *)
Definition uniform_text (page : Fitz.Page) (c : Q) : Prop :=
  page_spans page <> [] /\
  (0 <= c)%Q /\
  Forall (fun span => (Fitz.span_size span == c)%Q) (page_spans page).

(** the table of contents does not settle the matter: there is none, or it
    starts at page 1, or the page is not the first one *)
Definition no_toc_shortcut (page : Fitz.Page) (document : Fitz.Document)
  : Prop :=
  Fitz.doc_toc document = [] \/
  toc_starts_at document 1 \/
  Fitz.page_number page <> 0%Z.

(** a first page of three lines of 11pt text, in a document without a table
    of contents *)
Definition plain_page : Fitz.Page :=
  {| Fitz.page_number := 0;
     Fitz.rect_width := 600;
     Fitz.rect_height := 800;
     Fitz.page_widgets := [];
     Fitz.page_text := "";
     Fitz.page_blocks :=
       [{| Fitz.block_type := 0;
           Fitz.block_lines :=
             [line_at "Minutes of the meeting" 11 "Helvetica" 100;
              line_at "Present were all members of the board." 11 "Helvetica" 120;
              line_at "The chair opened the meeting at nine." 11 "Helvetica" 140]
        |}];
     Fitz.page_image_info := [] |}.

Definition plain_document : Fitz.Document :=
  {| Fitz.doc_name := "minutes.pdf";
     Fitz.doc_pages := [plain_page];
     Fitz.doc_toc := [] |}.

(** a line that the extractor takes for a header or a footer: it starts in
    the top or in the bottom tenth of the page, or its middle is less than 20
    points from the middle of the page *)
Definition passed_over (self : t) (line : Fitz.Line) : Prop :=
  let box := Fitz.line_bbox line in
  let width := fst (page_dimensions self) in
  let height := snd (page_dimensions self) in
  (Fitz.y0 box / height < 1 # 10)%Q \/
  (9 # 10 < Fitz.y0 box / height)%Q \/
  (Qabs ((Fitz.x0 box + Fitz.x1 box) / 2 - width / 2) < 20)%Q.

(** an extractor that knows the size of the pages of [document_with_toc] *)
Definition title_extractor : t :=
  with_page_dimensions (__init__ "" false) (600%Q, 800%Q).

(** the text of a line as the search for a title reads it *)
Definition title_line_text (line : Fitz.Line) : string :=
  strip (join "" (map Fitz.span_text (Fitz.line_spans line))).

(** a line that can be part of the title: it has text, it starts below the
    top tenth and above four tenths of the page height, and its middle is at
    least 20 points from the middle of the page *)
Definition title_band (self : t) (line : Fitz.Line) : Prop :=
  let box := Fitz.line_bbox line in
  let width := fst (page_dimensions self) in
  let height := snd (page_dimensions self) in
  title_line_text line <> "" /\
  (1 # 10 <= Fitz.y0 box / height)%Q /\
  (Fitz.y0 box / height < 4 # 10)%Q /\
  (20 <= Qabs ((Fitz.x0 box + Fitz.x1 box) / 2 - width / 2))%Q.

(** the lines of the page on which the title is looked for *)
Definition title_page_lines (self : t) (doc : Fitz.Document)
  : list Fitz.Line :=
  match nth_error (Fitz.doc_pages doc) (start_page_idx self) with
  | Some page => text_lines page
  | None => []
  end.

(** the title that the extractor finds in the sample *)
Definition sample_title : string :=
  match _extract_document_title sample_extractor sample_document with
  | Ok title => title
  | Raise _ => ""
  end.

(** a layout reader that finds the sample document in every file *)
Definition load_sample (bytes : string) : result Fitz.Document :=
  Ok sample_document.

(** the entry names a block of the page: the page is no form, and one of
    its blocks has the text of the entry and is accepted as a heading *)
Definition heading_on (self : t) (page : Fitz.Page) (e : Entry) : Prop :=
  _is_form_page self page = Ok false /\
  exists blocks block,
    _get_clean_text_blocks self page = Ok blocks /\
    In block blocks /\
    e_text e = b_text block /\
    _is_heading_candidate block (_determine_body_text_size self) = true.

(** the entry names a heading of the page of [doc] whose number it carries,
    and that page is not a cover that was left out *)
Definition entry_of (self : t) (doc : Fitz.Document) (e : Entry) : Prop :=
  (Z.of_nat (start_page_idx self) <= e_page e)%Z /\
  exists page,
    nth_error (Fitz.doc_pages doc) (Z.to_nat (e_page e)) = Some page /\
    heading_on self page e.

(** a file system with one report in it *)
Definition report_files : main.Files :=
  {| main.contents :=
       fun p => if String.eqb p "input/report.pdf" then Some "%PDF-1.7" else None;
     main.writable := fun _ => true |}.

End Vocabulary.

(** ** Checks of the embedding

    The patterns of the source are read without error, and the string
    functions and the matcher give the values of CPython on inputs that
    exercise their corners. *)

Section Checks.
Import PDFOutlineExtractor.

Lemma patterns_read :
  Forall (fun pt => Re.pat_re pt <> Re.Void)
         (non_heading_patterns
          ++ [spaced_text_pattern; numbering; numbering_prefix; prefix_pattern;
              dedup_pattern;
              Re.compile "^[\-\*\s]+|[\-\*\s]+$";
              Re.compile "[^a-zA-Z0-9\s]";
              Re.compile "[^a-z0-9\s]";
              Re.compile "[\.\?\!]$";
              Re.compile "^(?:\d+(\.\d+)*|[A-Z])\s*";
              Re.compile "^(?:\d+(\.\d+)*\s+|[A-Z]\.\s+)";
              Re.compile "^[A-Z]$"]).
Proof. repeat (constructor; [vm_compute; discriminate|]). constructor. Qed.

Example strip_split :
  strip "  a b  " = "a b" /\ split " ab  cd e " = ["ab"; "cd"; "e"].
Proof. split; reflexivity. Qed.

Example isupper_ignores_uncased :
  isupper "1. AB" = true /\ isupper "ab" = false /\ isupper "12" = false.
Proof. repeat split; reflexivity. Qed.

Example file_stems :
  map file_stem ["input/My File.PDF"; "a/.bashrc"; "report.final.pdf";
                 "dir.v2/notes"]
  = ["My File"; ".bashrc"; "report.final"; "notes"].
Proof. reflexivity. Qed.

Example count_does_not_overlap :
  count "a:_____b: ___c:_____" ":_____" = 2 /\ count "aaaa" "aa" = 2.
Proof. split; reflexivity. Qed.

Example numbering_backtracks :
  Re.matches numbering "1.2.3" = true /\ Re.matches numbering "1.2." = false.
Proof. split; vm_compute; reflexivity. Qed.

(** [$] also matches before a newline that ends the text *)
Example dollar_before_last_newline :
  Re.matches (Re.compile "^\s*\d+\s*$") (String "1" (String newline "")) = true /\
  Re.found_in (Re.compile "[\.\?\!]$") (String "?" (String newline "")) = true /\
  Re.matches (Re.compile "^\s*\d+\s*$") (String "1" (String newline "x")) = false.
Proof. repeat split; vm_compute; reflexivity. Qed.

(** [\b] needs a word character on exactly one side *)
Example word_boundary :
  map (Re.matches (Re.compile_ic "^(figure|table|appendix|note:)\b"))
      ["Figure 1"; "figures"; "NOTE: x"; "note:x"]
  = [true; false; false; true].
Proof. vm_compute. reflexivity. Qed.

Example first_group :
  map (fun t => match Re.match_ prefix_pattern t with
                | Some f => Re.group t f 1
                | None => None
                end)
      ["1.2 Scope"; "Annex"; "1. Introduction"; "scope"]
  = [Some "1.2"; Some "A"; Some "1"; None].
Proof. vm_compute. reflexivity. Qed.

Example substitutions :
  Re.sub (Re.compile "^[\-\*\s]+|[\-\*\s]+$") "" "-- ab - c --" = "ab - c" /\
  Re.sub (Re.compile "[^a-zA-Z0-9\s]") "" "1. Intro-duction!" = "1 Introduction".
Proof. split; vm_compute; reflexivity. Qed.

Example optional_group :
  map (Re.matches (Re.compile_ic "^\s*version\s+\d+(\.\d+)*(\s+\w+)?$"))
      ["Version 1.2.3 beta"; "Version 1.2.3 beta x"; "VERSION 2"]
  = [true; false; true].
Proof. vm_compute. reflexivity. Qed.

Example deduplicated_titles :
  TitleFinder._deduplicate_title "PPPrrrooopppooosssaaalll" = "Proposal" /\
  TitleFinder._deduplicate_title "Annual   Report 2000" = "Annual Report 20".
Proof. split; vm_compute; reflexivity. Qed.

Example clamped_label_is_dropped :
  refine_fresh [entry_A; entry_A;
                {| e_level := "H3"; e_text := "Total"; e_page := 0 |};
                {| e_level := "H3"; e_text := "1. Total"; e_page := 0 |}]
  = Ok [entry_A; {| e_level := "H2"; e_text := "1. Total"; e_page := 0 |}].
Proof. vm_compute. reflexivity. Qed.

End Checks.

(** ** The hierarchy refiner *)

Section Refiner.
Import PDFOutlineExtractor.

Lemma valid_level_num level :
  valid_level level ->
  exists n, level_num level = Ok n /\ (1 <= n <= 3)%Z.
Proof.
  intros [-> | [-> | ->]]; cbn; eexists; split; try reflexivity; lia.
Qed.

Lemma valid_depth h r :
  valid_level (e_level (h r)) ->
  level_num (e_level (h r)) = Ok (depth h r) /\ (1 <= depth h r <= 3)%Z.
Proof.
  intros V. unfold depth.
  destruct (valid_level_num _ V) as (n & -> & Hn). auto.
Qed.

Lemma drop_repeats_incl h last cands r :
  In r (drop_repeats h last cands) -> In r cands.
Proof.
  revert last. induction cands as [|c cands IH]; intros last; cbn; [tauto|].
  destruct (match last with Some _ => _ | None => false end).
  - intros H. right. eapply IH, H.
  - intros [H | H]; [now left | right; eapply IH, H].
Qed.

Lemma nesting_ok_snoc depths d x :
  nesting_ok depths ->
  (x - List.last depths d <= 1)%Z ->
  depths <> [] ->
  nesting_ok (depths ++ [x]).
Proof.
  induction depths as [|a l IH]; intros N L NE; [congruence|].
  destruct l as [|b l].
  - cbn in *. split; [lia | exact I].
  - destruct N as [Hab N]. cbn [app]. split; [exact Hab|].
    apply IH; [exact N | exact L | discriminate].
Qed.

Lemma last_map {A B} (f : A -> B) l d :
  List.last (map f l) (f d) = f (List.last l d).
Proof.
  induction l as [|a l IH]; [reflexivity|].
  destruct l; [reflexivity | exact IH].
Qed.

Lemma last_in {A} (l : list A) d : l <> [] -> In (List.last l d) l.
Proof.
  induction l as [|a l IH]; [congruence|]. intros _.
  destruct l as [|b l]; [now left|]. right. apply IH. discriminate.
Qed.

Lemma depth_set_same h r :
  depth (set_level h r "H2") r = 2%Z.
Proof. unfold depth, set_level. now rewrite Nat.eqb_refl. Qed.

Lemma depth_set_other h r r' level :
  r' <> r -> depth (set_level h r level) r' = depth h r'.
Proof.
  intros NE. unfold depth, set_level.
  destruct (Nat.eqb_spec r' r); [contradiction | reflexivity].
Qed.

Lemma level_set_cases h r r' level :
  e_level (set_level h r level r') = level \/
  e_level (set_level h r level r') = e_level (h r').
Proof. unfold set_level. destruct (r' =? r); cbn; auto. Qed.

(** lowering an entry from depth 3 to depth 2 keeps a list well nested,
    wherever the entry occurs in it *)
Lemma nesting_ok_lower h cur refs :
  (forall r, In r refs -> (1 <= depth h r <= 3)%Z) ->
  depth h cur = 3%Z ->
  nesting_ok (map (depth h) refs) ->
  nesting_ok (map (depth (set_level h cur "H2")) refs).
Proof.
  intros B C.
  assert (D : forall r, In r refs ->
              (depth (set_level h cur "H2") r <= depth h r)%Z /\
              (depth (set_level h cur "H2") r = depth h r \/
               depth (set_level h cur "H2") r = 2%Z)).
  { intros r Hr. destruct (Nat.eq_dec r cur) as [-> | NE].
    - rewrite depth_set_same. lia.
    - rewrite depth_set_other by exact NE. lia. }
  revert B D. induction refs as [|a l IH]; intros B D N; [exact I|].
  destruct l as [|b l]; [exact I|].
  destruct N as [Hab N]. split.
  - pose proof (D a (or_introl eq_refl)) as Da.
    pose proof (D b (or_intror (or_introl eq_refl))) as Db.
    pose proof (B b (or_intror (or_introl eq_refl))) as Bb.
    lia.
  - apply IH; [| |exact N]; intros r Hr; [apply B | apply D]; now right.
Qed.

Lemma clamp_levels_nesting rest : forall h final,
  final <> [] ->
  (forall r, In r (final ++ rest) -> valid_level (e_level (h r))) ->
  nesting_ok (map (depth h) final) ->
  exists out h',
    clamp_levels h final rest = Ok (out, h') /\
    (forall r, In r out -> valid_level (e_level (h' r))) /\
    nesting_ok (map (depth h') out).
Proof.
  induction rest as [|cur more IH]; intros h final NE V N.
  - exists final, h. cbn. repeat split; [|exact N].
    intros r Hr. apply V. rewrite app_nil_r. exact Hr.
  - cbn [clamp_levels].
    set (prev := List.last final cur).
    assert (Pin : In prev final) by (apply last_in; exact NE).
    destruct (valid_depth h cur) as [Ec Bc].
    { apply V. apply in_or_app. right. now left. }
    destruct (valid_depth h prev) as [Ep Bp].
    { apply V. apply in_or_app. now left. }
    rewrite Ec, Ep. cbn [bind].
    assert (B : forall r, In r final -> (1 <= depth h r <= 3)%Z).
    { intros r Hr. apply valid_depth, V, in_or_app. now left. }
    destruct (Z.ltb_spec (depth h prev + 1) (depth h cur)) as [Lt | Ge].
    + (* the entry is two levels below the last one kept *)
      assert (Hc : depth h cur = 3%Z) by lia.
      assert (Hp : depth h prev = 1%Z) by lia.
      rewrite Hp. change (level_str (1 + 1)) with "H2".
      assert (V' : forall r, In r ((final ++ [cur]) ++ more) ->
                     valid_level (e_level (set_level h cur "H2" r))).
      { intros r Hr.
        destruct (level_set_cases h cur r "H2") as [-> | ->].
        - right. now left.
        - apply V. rewrite <- app_assoc in Hr. exact Hr. }
      assert (N' : nesting_ok (map (depth (set_level h cur "H2")) final))
        by (apply nesting_ok_lower; assumption).
      destruct (is_field_label _).
      * apply IH; [exact NE | | exact N'].
        intros r Hr. apply V'. apply in_app_or in Hr as [Hr | Hr];
          apply in_or_app; [left; apply in_or_app; now left | now right].
      * apply IH; [now destruct final | exact V' |].
        rewrite map_app. cbn [map].
        apply nesting_ok_snoc with (d := depth (set_level h cur "H2") cur).
        -- exact N'.
        -- rewrite last_map. fold prev.
           rewrite depth_set_same, depth_set_other; [lia|].
           intros ->. lia.
        -- destruct final; [congruence | discriminate].
    + destruct (is_field_label _).
      * apply IH; [exact NE | | exact N].
        intros r Hr. apply V. apply in_app_or in Hr as [Hr | Hr];
          apply in_or_app; [now left | right; now right].
      * apply IH; [now destruct final | |].
        -- intros r Hr. apply V. rewrite <- app_assoc in Hr. exact Hr.
        -- rewrite map_app. cbn [map].
           apply nesting_ok_snoc with (d := depth h cur).
           ++ exact N.
           ++ rewrite last_map. fold prev. lia.
           ++ destruct final; [congruence | discriminate].
Qed.

Lemma refine_hierarchy_chain (h : store) (outline_candidates : list nat) :
  (forall r, In r outline_candidates -> valid_level (e_level (h r))) ->
  exists out h',
    _refine_hierarchy h outline_candidates = Ok (out, h') /\
    (forall r, In r out -> valid_level (e_level (h' r))) /\
    nesting_ok (map (depth h') out).
Proof.
  intros V. unfold _refine_hierarchy.
  destruct outline_candidates as [|c cands].
  - exists [], h. cbn. repeat split. intros r [].
  - remember (drop_repeats h None (c :: cands)) as refined eqn:E.
    destruct refined as [|first more].
    + exists [], h. cbn. repeat split. intros r [].
    + apply clamp_levels_nesting; [discriminate | | exact I].
      intros r Hr. apply V. apply drop_repeats_incl with (h := h) (last := None).
      rewrite <- E. exact Hr.
Qed.

(** consecutive members of a well-nested list *)
Lemma nesting_ok_nth h refs :
  (forall r, In r refs -> valid_level (e_level (h r))) ->
  nesting_ok (map (depth h) refs) ->
  forall i a b,
    nth_error (entries h refs) i = Some a ->
    nth_error (entries h refs) (S i) = Some b ->
    exists da db,
      level_num (e_level a) = Ok da /\ level_num (e_level b) = Ok db /\
      (1 <= da <= 3)%Z /\ (1 <= db <= 3)%Z /\ (db - da <= 1)%Z.
Proof.
  unfold entries.
  induction refs as [|x refs IH]; intros V N i a b Ha Hb.
  - destruct i; discriminate.
  - destruct refs as [|y refs];
      [destruct i; cbn in Hb; [discriminate | destruct i; discriminate]|].
    destruct i as [|i].
    + cbn in Ha, Hb. injection Ha as <-. injection Hb as <-.
      destruct (valid_depth h x) as [Ex Bx]; [apply V; now left|].
      destruct (valid_depth h y) as [Ey By]; [apply V; right; now left|].
      exists (depth h x), (depth h y). destruct N as [Hxy _].
      repeat split; try assumption; lia.
    + apply (IH (fun r Hr => V r (or_intror Hr)) (proj2 N) i a b); assumption.
Qed.

(** C1. For every list of outline entries with depths H1, H2 or H3, also
    one that holds an entry more than once, [_refine_hierarchy] returns a
    list, and any two consecutive entries of it, read in the store it
    leaves, have valid depths of which the later exceeds the earlier by at
    most one. *)
Theorem refine_hierarchy_nesting (h : store) (outline_candidates : list nat) :
  (forall r, In r outline_candidates -> valid_level (e_level (h r))) ->
  exists out h',
    _refine_hierarchy h outline_candidates = Ok (out, h') /\
    forall i a b,
      nth_error (entries h' out) i = Some a ->
      nth_error (entries h' out) (S i) = Some b ->
      exists da db,
        level_num (e_level a) = Ok da /\ level_num (e_level b) = Ok db /\
        (1 <= da <= 3)%Z /\ (1 <= db <= 3)%Z /\ (db - da <= 1)%Z.
Proof.
  intros V.
  destruct (refine_hierarchy_chain h outline_candidates V)
    as (out & h' & E & V' & N).
  exists out, h'. split; [exact E|]. now apply nesting_ok_nth.
Qed.

End Refiner.

Section RefinerExamples.
Import PDFOutlineExtractor.

(** a list that holds the first entry twice, as one object *)
Lemma refine_hierarchy_nesting_witness :
  exists out h',
    _refine_hierarchy (fresh_store [entry_A; entry_B]) [0; 1; 0] = Ok (out, h') /\
    forall i a b,
      nth_error (entries h' out) i = Some a ->
      nth_error (entries h' out) (S i) = Some b ->
      exists da db,
        level_num (e_level a) = Ok da /\ level_num (e_level b) = Ok db /\
        (1 <= da <= 3)%Z /\ (1 <= db <= 3)%Z /\ (db - da <= 1)%Z.
Proof.
  apply (refine_hierarchy_nesting (fresh_store [entry_A; entry_B]) [0; 1; 0]).
  intros r [<- | [<- | [<- | []]]]; unfold valid_level; cbn; auto.
Defined.

(** The duplicate of the example is not next to its original, and the
    first loop only compares an entry with the one kept last. *)
Lemma refine_example_keeps_duplicate :
  refine_fresh [entry_A; entry_B; entry_A] <> Ok [entry_A; entry_B_clamped].
Proof. vm_compute. discriminate. Qed.

(** C2, amended. On [(H1,"A",0), (H3,"B",0), (H1,"A",0)] the refiner
    returns [(H1,"A",0), (H2,"B",0), (H1,"A",0)]: the H3 entry is clamped to
    H2 and the second (H1,"A",0), which does not follow the first directly,
    is kept. *)
Theorem refine_example :
  refine_fresh [entry_A; entry_B; entry_A]
  = Ok [entry_A; entry_B_clamped; entry_A].
Proof. vm_compute. reflexivity. Qed.

End RefinerExamples.

(** ** The levels that reach the refiner *)

Section Levels.
Import PDFOutlineExtractor.

Lemma level_str_valid n : (1 <= n)%Z -> valid_level (level_str (Z.min n 3)).
Proof.
  intros L.
  assert (C : Z.min n 3 = 1%Z \/ Z.min n 3 = 2%Z \/ Z.min n 3 = 3%Z) by lia.
  destruct C as [-> | [-> | ->]]; unfold valid_level; cbn; auto.
Qed.

Lemma if_at_least_one (c : bool) (a b : Z) :
  (1 <= a)%Z -> (1 <= b)%Z -> (1 <= if c then a else b)%Z.
Proof. now destruct c. Qed.

Lemma matching_style_index block styles : forall i0 i,
  matching_style block i0 styles = Some i -> (i0 <= i)%Z.
Proof.
  induction styles as [|st styles IH]; intros i0 i; cbn; [discriminate|].
  destruct (_ && _).
  - intros [= <-]. lia.
  - intros H. apply IH in H. lia.
Qed.

(** [_determine_heading_level] returns, and what it returns is H1, H2 or
    H3, when the heading before has such a level *)
Lemma determine_level_valid self block styles prev :
  (forall p, prev = Some p -> valid_level (p_level p)) ->
  exists level,
    _determine_heading_level self block styles prev = Ok level /\
    valid_level level.
Proof.
  intros V. unfold _determine_heading_level. cbv zeta.
  match goal with
  | |- context [match Re.match_ prefix_pattern ?t with
                | Some mp => @?f mp
                | None => ?d
                end] =>
      set (n0 := match Re.match_ prefix_pattern t with
                 | Some mp => f mp
                 | None => d
                 end)
  end.
  assert (B0 : (1 <= n0)%Z).
  { subst n0. destruct (Re.match_ prefix_pattern _) as [mp|]; [|lia].
    destruct (Re.group _ mp 1); [|lia].
    repeat apply if_at_least_one; lia. }
  clearbody n0.
  match goal with
  | |- context [match prev with
                | Some p => _
                | None => Ok ?X
                end] => set (n1 := X)
  end.
  assert (B1 : (1 <= n1)%Z).
  { subst n1. destruct styles as [|first_style more]; [exact B0|].
    assert (M : (1 <= match matching_style block 0 (first_style :: more) with
                      | Some i => if (i + 1 <? n0)%Z then (i + 1)%Z else n0
                      | None => n0
                      end)%Z).
    { destruct (matching_style block 0 (first_style :: more)) as [i|] eqn:E;
        [|exact B0].
      apply matching_style_index in E. apply if_at_least_one; lia. }
    repeat apply if_at_least_one; try lia; exact M. }
  clearbody n1.
  destruct prev as [p|].
  - destruct (valid_level_num _ (V p eq_refl)) as (pl & -> & Bp).
    cbn [bind]. eexists. split; [reflexivity|].
    apply level_str_valid. repeat apply if_at_least_one; lia.
  - cbn [bind]. eexists. split; [reflexivity|]. now apply level_str_valid.
Qed.

Lemma scan_blocks_valid self body_size styles page_num blocks :
  forall prev cands,
    (forall p, prev = Some p -> valid_level (p_level p)) ->
    Forall (fun e => valid_level (e_level e)) cands ->
    exists out prev',
      scan_blocks self body_size styles page_num blocks prev cands
      = Ok (out, prev') /\
      (forall p, prev' = Some p -> valid_level (p_level p)) /\
      Forall (fun e => valid_level (e_level e)) out.
Proof.
  induction blocks as [|block more IH]; intros prev cands Vp Vc.
  - exists cands, prev. cbn. auto.
  - cbn [scan_blocks].
    destruct (_is_heading_candidate block body_size); [|now apply IH].
    destruct (determine_level_valid self block styles prev Vp)
      as (level & -> & Vl).
    cbn [bind]. apply IH.
    + intros p [= <-]. exact Vl.
    + apply Forall_app. split; [exact Vc|]. constructor; [exact Vl | constructor].
Qed.

Lemma scan_pages_valid self body_size styles pages :
  forall page_num prev cands out,
    (forall p, prev = Some p -> valid_level (p_level p)) ->
    Forall (fun e => valid_level (e_level e)) cands ->
    scan_pages self body_size styles page_num pages prev cands = Ok out ->
    Forall (fun e => valid_level (e_level e)) out.
Proof.
  induction pages as [|page more IH]; intros page_num prev cands out Vp Vc.
  - cbn. now intros [= <-].
  - cbn [scan_pages].
    destruct (_is_form_page self page) as [[|]|e]; cbn [bind];
      [now apply IH | | discriminate].
    destruct (_get_clean_text_blocks self page) as [blocks|e]; cbn [bind];
      [|discriminate].
    destruct (scan_blocks_valid self body_size styles page_num blocks prev cands
                                Vp Vc) as (o & prev' & -> & Vp' & Vo).
    cbn [bind fst snd]. now apply IH.
Qed.

Lemma extract_headings_valid self doc cands :
  _extract_headings_from_content self doc = Ok cands ->
  Forall (fun e => valid_level (e_level e)) cands.
Proof.
  unfold _extract_headings_from_content.
  destruct (font_stats self); [now intros [= <-]|].
  destruct (_identify_heading_styles _ _) as [[|st styles]|e]; cbn [bind];
    [now intros [= <-] | | discriminate].
  apply scan_pages_valid; [discriminate | constructor].
Qed.

End Levels.

Section Outline.
Import PDFOutlineExtractor.

Lemma refine_fresh_nesting (l : list Entry) :
  Forall (fun e => valid_level (e_level e)) l ->
  exists out, refine_fresh l = Ok out /\ well_nested out.
Proof.
  intros V. unfold refine_fresh.
  destruct (refine_hierarchy_chain (fresh_store l) (seq 0 (List.length l)))
    as (out & h' & -> & V' & N).
  { intros r Hr. apply in_seq in Hr. unfold fresh_store.
    rewrite Forall_forall in V. apply V, nth_In. lia. }
  cbn [bind fst snd]. eexists. split; [reflexivity|].
  unfold well_nested, entries. split.
  - apply Forall_forall. intros e In. apply in_map_iff in In as (r & <- & Hr).
    now apply V'.
  - rewrite map_map. exact N.
Qed.

(** the outline that [extract_outline_try] computes is well nested, and the
    entry point returns it or falls back *)
Lemma extract_outline_cases
  (fitz_open : string -> result Fitz.Document) (self : t) (pdf_path : string) :
  exists r self',
    extract_outline fitz_open self pdf_path = (Ok r, self') /\
    match r with
    | OutlineList outline => well_nested outline
    | OutlineDict title outline =>
        outline = [] /\
        title = (if truthy (document_title self') then document_title self'
                 else file_stem pdf_path)
    end.
Proof.
  unfold extract_outline, extract_outline_try, fallback.
  destruct (fitz_open pdf_path) as [doc|e]; [|now do 2 eexists].
  destruct (Fitz.doc_pages doc) as [|first_page pages]; [now do 2 eexists|].
  destruct (_analyze_document_styles _ doc) as [[[]|e] self1];
    [|now do 2 eexists].
  destruct (if negb (truthy (document_title self1)) then _ else _)
    as [[[]|e] self2]; [|now do 2 eexists].
  destruct (_extract_headings_from_content self2 doc) as [cands|e] eqn:E;
    [|now do 2 eexists].
  apply extract_headings_valid in E.
  destruct (refine_fresh_nesting cands E) as (out & -> & N).
  do 2 eexists. split; [reflexivity | exact N].
Qed.

(** X1. The outline of a document is well nested.  Whenever
    [extract_outline] returns a list, every entry of it has level H1, H2 or
    H3 and no entry is more than one level deeper than the entry before it:
    the levels that [_determine_heading_level] assigns are the ones the
    refiner expects. *)
Theorem extract_outline_nesting
  (fitz_open : string -> result Fitz.Document) (self : t)
  (pdf_path : string) (outline : list Entry) :
  fst (extract_outline fitz_open self pdf_path) = Ok (OutlineList outline) ->
  well_nested outline.
Proof.
  destruct (extract_outline_cases fitz_open self pdf_path)
    as (r & self' & E & N).
  rewrite E. cbn [fst]. intros [= ->]. exact N.
Qed.

Lemma extract_outline_nesting_witness : well_nested sample_outline.
Proof.
  apply (extract_outline_nesting open_sample (__init__ "Report" false)
                                 "report.pdf" sample_outline).
  vm_compute. reflexivity.
Defined.

End Outline.

(** ** The body size *)

Section BodySize.
Import PDFOutlineExtractor.

Lemma max_by_fold {A} (key : A -> Z) l : forall x,
  let r := Seq.max_by Z.ltb key x l in
  In r (x :: l) /\ (key x <= key r)%Z /\
  forall y, In y l -> (key y <= key r)%Z.
Proof.
  induction l as [|a l IH]; intros x; cbn.
  - repeat split; [now left | lia | intros y []].
  - unfold Seq.max_by in *. cbn [fold_left].
    destruct (Z.ltb_spec (key x) (key a)) as [Lt | Ge].
    + destruct (IH a) as (I & Ha & Hl). repeat split.
      * right. exact I.
      * lia.
      * intros y [<- | Hy]; [exact Ha | now apply Hl].
    + destruct (IH x) as (I & Hx & Hl). repeat split.
      * destruct I as [I | I]; [now left | right; now right].
      * exact Hx.
      * intros y [<- | Hy]; [lia | now apply Hl].
Qed.

Lemma max_by_spec {A} (key : A -> Z) x l :
  In (Seq.max_by Z.ltb key x l) (x :: l) /\
  forall y, In y (x :: l) -> (key y <= key (Seq.max_by Z.ltb key x l))%Z.
Proof.
  destruct (max_by_fold key l x) as (I & Hx & Hl).
  split; [exact I|]. intros y [<- | Hy]; [exact Hx | now apply Hl].
Qed.

Lemma band_filter size :
  (Num.leb 8 size && Num.leb size 14 = true) <-> in_body_band size.
Proof.
  unfold in_body_band, Num.leb.
  rewrite andb_true_iff, !Qle_bool_iff. tauto.
Qed.

(** With no size in the band the code does not look at the character
    counts alone: it still subtracts the bold ones. *)
Lemma body_size_fallback_not_largest_volume :
  (forall s, In s (map fst (font_stats stats_outside_band)) -> ~ in_body_band s) /\
  _determine_body_text_size stats_outside_band = 16%Q /\
  (char_count (stat_of stats_outside_band 16) <
   char_count (stat_of stats_outside_band 20))%Z.
Proof.
  split; [|split; [reflexivity | reflexivity]].
  intros s [<- | [<- | []]] [_ H]; now apply H.
Qed.

(** C7, amended. Without statistics the body size is 11; when a sampled size
    lies in [8,14] it is a sampled size of that band whose character count
    minus bold count is the highest of the band; otherwise it is a sampled
    size whose character count minus bold count is the highest of all. *)
Theorem body_text_size_spec (self : t) :
  (font_stats self = [] -> _determine_body_text_size self = 11%Q) /\
  ((exists s, In s (map fst (font_stats self)) /\ in_body_band s) ->
   In (_determine_body_text_size self) (map fst (font_stats self)) /\
   in_body_band (_determine_body_text_size self) /\
   forall s, In s (map fst (font_stats self)) -> in_body_band s ->
     (non_bold_volume self s
      <= non_bold_volume self (_determine_body_text_size self))%Z) /\
  (font_stats self <> [] ->
   (forall s, In s (map fst (font_stats self)) -> ~ in_body_band s) ->
   In (_determine_body_text_size self) (map fst (font_stats self)) /\
   forall s, In s (map fst (font_stats self)) ->
     (non_bold_volume self s
      <= non_bold_volume self (_determine_body_text_size self))%Z).
Proof.
  unfold _determine_body_text_size.
  destruct (font_stats self) as [|kv stats] eqn:E.
  - repeat split; try congruence; destruct H as (s & [] & _).
  - set (sizes := map fst (kv :: stats)).
    set (band := filter (fun size => Num.leb 8 size && Num.leb size 14) sizes).
    assert (Hband : forall s, In s band <-> In s sizes /\ in_body_band s).
    { intros s. unfold band. rewrite filter_In, band_filter. tauto. }
    split; [discriminate|]. split.
    + intros (s0 & I0 & B0).
      destruct band as [|b band'] eqn:Eb.
      { exfalso. apply (proj2 (Hband s0)). auto. }
      destruct (max_by_spec (non_bold_volume self) b band') as [I M].
      apply Hband in I. destruct I as [I B].
      repeat split; try assumption; try apply B.
      intros s Hs Bs. apply M, Hband. auto.
    + intros _ Out.
      destruct band as [|b band'] eqn:Eb.
      * unfold sizes. cbn [map].
        destruct (max_by_spec (non_bold_volume self) (fst kv) (map fst stats))
          as [I M].
        split; assumption.
      * exfalso. destruct (proj1 (Hband b) (or_introl eq_refl)) as [I B].
        exact (Out b I B).
Qed.

Lemma body_text_size_spec_witness :
  In (_determine_body_text_size stats_outside_band)
     (map fst (font_stats stats_outside_band)) /\
  forall s, In s (map fst (font_stats stats_outside_band)) ->
    (non_bold_volume stats_outside_band s
     <= non_bold_volume stats_outside_band
          (_determine_body_text_size stats_outside_band))%Z.
Proof.
  apply (proj2 (proj2 (body_text_size_spec stats_outside_band))).
  - discriminate.
  - intros s [<- | [<- | []]] [_ H]; now apply H.
Defined.

End BodySize.

(** ** The heading classifier *)

Section Classifier.
Import PDFOutlineExtractor.

(** replace a test that does not depend on the variables by its value *)
Ltac decide_test :=
  match goal with
  | |- context [if ?c then _ else _] =>
      let v := eval vm_compute in c in
      match v with
      | true => replace c with true by (vm_compute; reflexivity)
      | false => replace c with false by (vm_compute; reflexivity)
      end; cbv iota
  end.

Lemma eqb_zero_false (b : Q) : (0 < b)%Q -> Num.eqb b 0 = false.
Proof.
  intros P. unfold Num.eqb. destruct (Qeq_bool b 0) eqn:E; [|reflexivity].
  apply Qeq_bool_eq in E. rewrite E in P. now apply Qlt_irrefl in P.
Qed.

Lemma ratio_of_scaled (b size c : Q) :
  (0 < b)%Q -> (size == c * b)%Q -> (size / b == c)%Q.
Proof.
  intros P E. rewrite E. field. intros Z. rewrite Z in P.
  now apply Qlt_irrefl in P.
Qed.

Lemma numbered_accepted (block : TextBlock) (b : Q) :
  (0 < b)%Q ->
  b_text block = "1. Introduction" ->
  (b_size block == (14 # 10) * b)%Q ->
  _is_heading_candidate block b = true.
Proof.
  intros P T S. unfold _is_heading_candidate. rewrite T. cbv zeta.
  repeat decide_test.
  rewrite (eqb_zero_false _ P).
  assert (R : Num.leb min_heading_ratio (b_size block / b) = true).
  { unfold Num.leb. apply Qle_bool_iff.
    rewrite (ratio_of_scaled _ _ _ P S). discriminate. }
  rewrite R. cbn [orb negb].
  repeat decide_test. reflexivity.
Qed.

Lemma numbered_level (self : t) (block : TextBlock)
  (heading_styles : list HeadingStyle) :
  b_text block = "1. Introduction" ->
  _determine_heading_level self block heading_styles None = Ok "H1".
Proof.
  intros T. unfold _determine_heading_level. rewrite T. cbv zeta.
  replace (match Re.match_ prefix_pattern (strip "1. Introduction") with
           | Some match_prefix => _
           | None => 3%Z
           end) with 1%Z by (vm_compute; reflexivity).
  assert (L : match heading_styles with
              | [] => 1%Z
              | first_style :: _ =>
                  if Num.ltb 0 (h_size first_style)
                  then
                    if Num.ltb (9 # 10) (b_size block / h_size first_style)
                       && (1 <? match matching_style block 0 heading_styles with
                                | Some i => if (i + 1 <? 1)%Z then (i + 1)%Z else 1%Z
                                | None => 1%Z
                                end)%Z
                    then 1%Z
                    else
                      if Num.ltb (7 # 10) (b_size block / h_size first_style)
                         && (2 <? match matching_style block 0 heading_styles with
                                  | Some i => if (i + 1 <? 1)%Z then (i + 1)%Z else 1%Z
                                  | None => 1%Z
                                  end)%Z
                      then 2%Z
                      else match matching_style block 0 heading_styles with
                           | Some i => if (i + 1 <? 1)%Z then (i + 1)%Z else 1%Z
                           | None => 1%Z
                           end
                  else match matching_style block 0 heading_styles with
                       | Some i => if (i + 1 <? 1)%Z then (i + 1)%Z else 1%Z
                       | None => 1%Z
                       end
              end = 1%Z).
  { destruct heading_styles as [|first_style more]; [reflexivity|].
    assert (M : match matching_style block 0 (first_style :: more) with
                | Some i => if (i + 1 <? 1)%Z then (i + 1)%Z else 1%Z
                | None => 1%Z
                end = 1%Z).
    { destruct (matching_style block 0 (first_style :: more)) as [i|] eqn:E;
        [|reflexivity].
      apply matching_style_index in E.
      destruct (Z.ltb_spec (i + 1) 1); [lia | reflexivity]. }
    rewrite M. cbn [Z.ltb Z.compare Pos.compare Pos.compare_cont].
    rewrite !andb_false_r. now destruct (Num.ltb 0 (h_size first_style)). }
  rewrite L. reflexivity.
Qed.

Lemma total_rejected (block : TextBlock) (body_size : Q) :
  b_text block = "total" ->
  _is_heading_candidate block body_size = false.
Proof.
  intros T. unfold _is_heading_candidate. rewrite T. cbv zeta.
  repeat decide_test. reflexivity.
Qed.

(** C5. At a body size [b > 0] a block with the text "1. Introduction",
    size 1.4 b and not bold is a heading candidate, and whatever the
    heading styles are it gets level H1 when no heading precedes it; a block
    with the text "total" at size [b] is no candidate, wherever it is. *)
Theorem classifier_examples (b : Q) (numbered total : TextBlock) :
  (0 < b)%Q ->
  b_text numbered = "1. Introduction" ->
  (b_size numbered == (14 # 10) * b)%Q ->
  b_is_bold numbered = false ->
  b_text total = "total" ->
  b_size total = b ->
  _is_heading_candidate numbered b = true /\
  (forall self heading_styles,
     _determine_heading_level self numbered heading_styles None = Ok "H1") /\
  _is_heading_candidate total b = false.
Proof.
  intros P T S _ T' _. split; [|split].
  - now apply numbered_accepted.
  - intros self styles. now apply numbered_level.
  - now apply total_rejected.
Qed.

Lemma classifier_examples_witness :
  _is_heading_candidate (block_of "1. Introduction" 14) 10 = true /\
  (forall self heading_styles,
     _determine_heading_level self (block_of "1. Introduction" 14)
                              heading_styles None = Ok "H1") /\
  _is_heading_candidate (block_of "total" 10) 10 = false.
Proof.
  apply (classifier_examples 10%Q (block_of "1. Introduction" 14)
                             (block_of "total" 10)); reflexivity.
Defined.

Lemma ltb_of_lt (a b : Q) : (a < b)%Q -> Num.ltb a b = true.
Proof.
  intros L. unfold Num.ltb. destruct (Qle_bool b a) eqn:E; [|reflexivity].
  apply Qle_bool_iff in E. exfalso. exact (Qlt_not_le _ _ L E).
Qed.

Lemma spaced_text_of_ratio (text : string) :
  has_wide_gap text -> spacing_exceeds text -> _is_spaced_text text = true.
Proof.
  intros G [N R]. unfold _is_spaced_text. rewrite G.
  fold (spaces text). fold (non_spaces text).
  destruct (Z.ltb_spec 0 (non_spaces text)) as [_ | F]; [|lia].
  now apply ltb_of_lt.
Qed.

(** Single spaces between short words give a ratio above one half as well,
    and such a block is accepted: the ratio is only looked at when the text
    has a gap of three white-space characters. *)
Lemma narrow_spacing_accepted :
  spacing_exceeds "A b c d" /\
  _is_heading_candidate (block_of "A b c d" 20) 10 = true.
Proof. split; [split; reflexivity | vm_compute; reflexivity]. Qed.

(** C6, amended. A block whose text, stripped of surrounding white space,
    has somewhere a word character, three or more white-space characters and
    a word character in a row, and in which the spaces are more than half as
    many as the other characters, is no heading candidate, whatever its
    size; so "T H I S   I S   A   T I T L E" is rejected at every size. *)
Theorem spaced_text_rejected :
  (forall (block : TextBlock) (body_size : Q),
     has_wide_gap (strip (b_text block)) ->
     spacing_exceeds (strip (b_text block)) ->
     _is_heading_candidate block body_size = false) /\
  (forall (block : TextBlock) (body_size : Q),
     b_text block = "T H I S   I S   A   T I T L E" ->
     _is_heading_candidate block body_size = false).
Proof.
  assert (General : forall block body_size,
             has_wide_gap (strip (b_text block)) ->
             spacing_exceeds (strip (b_text block)) ->
             _is_heading_candidate block body_size = false).
  { intros block body_size G R.
    pose proof (spaced_text_of_ratio _ G R) as Sp.
    unfold _is_heading_candidate. cbv zeta.
    repeat match goal with
           | |- (if _is_spaced_text _ then false else _) = false =>
               rewrite Sp; reflexivity
           | |- (if ?c then false else _) = false =>
               destruct c; [reflexivity|]
           end. }
  split; [exact General|].
  intros block body_size T. apply General; rewrite T.
  - vm_compute. reflexivity.
  - split; reflexivity.
Qed.

Lemma spaced_text_rejected_witness :
  _is_heading_candidate (block_of "T H I S   I S   A   T I T L E" 20) 10 = false.
Proof.
  apply (proj1 spaced_text_rejected
               (block_of "T H I S   I S   A   T I T L E" 20) 10%Q).
  - vm_compute. reflexivity.
  - split; reflexivity.
Defined.

End Classifier.

(** ** The cover classifier *)

Section Cover.
Import cover_page.

Lemma ltb_false_of_le (a b : Q) : (b <= a)%Q -> Num.ltb a b = false.
Proof.
  intros L. unfold Num.ltb. apply Qle_bool_iff in L. now rewrite L.
Qed.

Lemma sum_of_equal (c : Q) (l : list Q) :
  Forall (fun x => (x == c)%Q) l ->
  (Num.sum l == c * Num.of_nat (List.length l))%Q.
Proof.
  induction 1 as [|x l Hx _ IH].
  - cbn. unfold Num.of_nat. cbn. ring.
  - cbn [Num.sum List.length]. rewrite IH, Hx. unfold Num.of_nat.
    rewrite Nat2Z.inj_succ, <- Z.add_1_r, inject_Z_plus. ring.
Qed.

Lemma of_nat_succ_pos (n : nat) : (0 < Num.of_nat (S n))%Q.
Proof.
  unfold Num.of_nat. change 0%Q with (inject_Z 0).
  rewrite <- Zlt_Qlt. lia.
Qed.

Lemma average_of_equal (c : Q) (l : list Q) :
  l <> [] ->
  Forall (fun x => (x == c)%Q) l ->
  exists avg,
    Num.div (Num.sum l) (Num.of_nat (List.length l)) = Ok avg /\ (avg == c)%Q.
Proof.
  intros NE F. destruct l as [|x l]; [congruence|].
  pose proof (of_nat_succ_pos (List.length l)) as P.
  unfold Num.div. cbn [List.length]. rewrite (eqb_zero_false _ P).
  eexists. split; [reflexivity|].
  rewrite (sum_of_equal _ _ F). cbn [List.length]. field.
  intros Z. rewrite Z in P. now apply Qlt_irrefl in P.
Qed.

Lemma insert_in {A} (ltb : A -> A -> bool) x y l :
  In y (Seq.insert ltb x l) -> y = x \/ In y l.
Proof.
  induction l as [|a l IH]; cbn.
  - intros [<- | []]. now left.
  - destruct (ltb a x); cbn.
    + intros [<- | H]; [right; now left|].
      destruct (IH H); [now left | right; now right].
    + intros [<- | H]; [now left | now right].
Qed.

Lemma sorted_in {A} (ltb : A -> A -> bool) y l :
  In y (Seq.sorted ltb l) -> In y l.
Proof.
  induction l as [|a l IH]; cbn; [tauto|].
  intros H. apply insert_in in H as [-> | H]; [now left | right; now apply IH].
Qed.

Lemma no_prominent_texts (threshold : Q) (spans : list Fitz.Span) :
  (forall span, In span spans ->
     Num.ltb threshold (Fitz.span_size span) = false) ->
  prominent_texts threshold spans = [].
Proof.
  intros H. unfold prominent_texts.
  assert (S : forall span,
             In span (Seq.sorted
                        (fun a b => Num.ltb (Fitz.span_size b) (Fitz.span_size a))
                        spans) ->
             Num.ltb threshold (Fitz.span_size span) = false).
  { intros span I. apply H. eapply sorted_in, I. }
  revert S. generalize (Seq.sorted
                          (fun a b => Num.ltb (Fitz.span_size b) (Fitz.span_size a))
                          spans).
  intros l. induction l as [|a l IH]; intros S; [reflexivity|].
  cbn [fold_left]. rewrite (S a (or_introl eq_refl)). cbn [andb].
  destruct (negb _); apply IH; intros span I; apply S; now right.
Qed.

Lemma one_line_body_count (f : string * Q -> bool) (line : Fitz.Line) :
  List.length (filter f (unique_lines_of [line])) <= 1.
Proof.
  unfold unique_lines_of. cbn [fold_left].
  destruct (truthy _); [|cbn; lia].
  destruct (map Fitz.span_size (Fitz.line_spans line)); [cbn; lia|].
  cbn [Seq.update filter]. destruct (f _); cbn; lia.
Qed.

Lemma toc_short_circuit (page : Fitz.Page) (document : Fitz.Document)
  (hp : Heuristics) :
  Fitz.page_number page = 0%Z ->
  toc_starts_at document 2 ->
  _analyze_page_for_cover_characteristics page document hp = true.
Proof.
  intros N (first & others & more & T & F).
  unfold _analyze_page_for_cover_characteristics, analyze.
  rewrite T, F, N. reflexivity.
Qed.

Lemma single_line_is_content (page : Fitz.Page) (document : Fitz.Document) :
  single_line_36pt page ->
  toc_starts_at document 1 ->
  _analyze_page_for_cover_characteristics page document defaults = false.
Proof.
  intros (N & line & L & NE & F) (first & others & more & T & E).
  unfold _analyze_page_for_cover_characteristics, analyze.
  rewrite T, E, N, L. cbn [Z.add Z.eqb Pos.eqb andb flat_map].
  rewrite app_nil_r.
  destruct (Fitz.line_spans line) as [|first_span more_spans] eqn:Sp;
    [congruence|].
  set (spans := first_span :: more_spans) in *.
  assert (Fs : Forall (fun x => (x == 36)%Q) (map Fitz.span_size spans)).
  { apply Forall_map. exact F. }
  destruct (average_of_equal 36%Q (map Fitz.span_size spans))
    as (avg & Ea & Havg); [discriminate | exact Fs |].
  rewrite Ea. cbn [bind].
  pose proof (one_line_body_count
                (fun '(line_text, line_font_size) =>
                   Num.leb line_font_size (avg * (12 # 10))
                   && (4 <? List.length (split line_text))
                   && Num.ltb line_font_size
                        (Seq.max_by Num.ltb (fun x => x)
                           (Fitz.span_size first_span)
                           (map Fitz.span_size more_spans) * (8 # 10)))
                line) as C.
  destruct (Nat.ltb_spec (max_body_text_lines defaults)
              (List.length
                 (filter
                    (fun '(line_text, line_font_size) =>
                       Num.leb line_font_size (avg * (12 # 10))
                       && (4 <? List.length (split line_text))
                       && Num.ltb line_font_size
                            (Seq.max_by Num.ltb (fun x => x)
                               (Fitz.span_size first_span)
                               (map Fitz.span_size more_spans) * (8 # 10)))
                    (unique_lines_of [line])))) as [Lt | _]; [reflexivity|].
  rewrite no_prominent_texts; [reflexivity|].
  intros span I. apply ltb_false_of_le.
  rewrite Forall_forall in F. rewrite (F span I), Havg. discriminate.
Qed.

(** C8. On the first page of a document the classifier answers "cover" as
    soon as the table of contents exists and its first entry points to page
    2, whatever the page looks like; a first page with a single line of 36pt
    text, and a table of contents whose first entry points to page 1, is a
    content page. *)
Theorem cover_by_toc (page : Fitz.Page) (document : Fitz.Document) :
  single_line_36pt page ->
  (toc_starts_at document 2 ->
   forall hp, _analyze_page_for_cover_characteristics page document hp = true) /\
  (toc_starts_at document 1 ->
   _analyze_page_for_cover_characteristics page document defaults = false).
Proof.
  intros G. split.
  - intros T hp. apply toc_short_circuit; [apply G | exact T].
  - intros T. now apply single_line_is_content.
Qed.

Lemma title_page_single_line : single_line_36pt title_page.
Proof.
  split; [reflexivity|]. eexists. split; [reflexivity|].
  split; [discriminate|]. constructor; [reflexivity | constructor].
Defined.

Lemma cover_by_toc_witness :
  _analyze_page_for_cover_characteristics title_page (document_with_toc 2)
                                          defaults = true /\
  _analyze_page_for_cover_characteristics title_page (document_with_toc 1)
                                          defaults = false.
Proof.
  destruct (cover_by_toc title_page (document_with_toc 2)
                         title_page_single_line)
    as [Cover _].
  destruct (cover_by_toc title_page (document_with_toc 1)
                         title_page_single_line)
    as [_ Content].
  split.
  - apply Cover. do 3 eexists. split; reflexivity.
  - apply Content. do 3 eexists. split; reflexivity.
Defined.

End Cover.

(** ** Failures and empty documents *)

Section Fallback.
Import PDFOutlineExtractor.

(** C4. When the layout source cannot open the file, and when the document
    it opens has no page, [extract_outline] of an extractor without a title
    returns, and does not raise: its value is the dictionary with the file
    name, stripped of directory and extension, as title and an empty
    outline.  The extractor is left as it was. *)
Theorem extract_outline_fallback
  (fitz_open : string -> result Fitz.Document) (self : t) (pdf_path : string) :
  document_title self = "" ->
  unreadable fitz_open pdf_path \/ zero_pages fitz_open pdf_path ->
  extract_outline fitz_open self pdf_path
  = (Ok (OutlineDict (file_stem pdf_path) []), self).
Proof.
  intros T [(e & E) | (doc & E & P)];
    unfold extract_outline, extract_outline_try, fallback;
    rewrite E, ?P, T; reflexivity.
Qed.

Lemma extract_outline_fallback_witness :
  extract_outline (main.open_with load_no_pages empty_pdf_files)
                  (__init__ "" false) "input/empty.pdf"
  = (Ok (OutlineDict "empty" []), __init__ "" false) /\
  extract_outline (main.open_with load_no_pages empty_pdf_files)
                  (__init__ "" false) "input/missing.pdf"
  = (Ok (OutlineDict "missing" []), __init__ "" false).
Proof.
  split.
  - apply (extract_outline_fallback
             (main.open_with load_no_pages empty_pdf_files)
             (__init__ "" false) "input/empty.pdf"); [reflexivity|].
    right. eexists. split; reflexivity.
  - apply (extract_outline_fallback
             (main.open_with load_no_pages empty_pdf_files)
             (__init__ "" false) "input/missing.pdf"); [reflexivity|].
    left. eexists. reflexivity.
Defined.

End Fallback.

(** ** The pipeline *)

Section Pipeline.
Import main.

Variable fitz_load : string -> result Fitz.Document.
Variable pdfplumber_load : string -> result Plumber.PDF.
Variable json_dump : Result -> string.

(** C3, as the code has it. For a document without pages the record of
    [process_pdf] has the file name as title, but its outline is not the
    empty list: it is the whole fallback dictionary of [extract_outline],
    which has a title and an empty outline of its own. *)
Theorem zero_pages_record (fs : Files) (input_path : string) :
  zero_pages (open_with fitz_load fs) input_path ->
  no_words (open_with pdfplumber_load fs) input_path ->
  process_pdf_result fitz_load pdfplumber_load fs input_path
  = Ok {| r_title := file_stem input_path;
          r_outline :=
            PDFOutlineExtractor.OutlineDict (file_stem input_path) [] |}.
Proof.
  intros (doc & E & P) W.
  unfold process_pdf_result.
  assert (Title :
            match TitleFinder.find_title (open_with pdfplumber_load fs)
                    TitleFinder.__init__ input_path with
            | (Ok title_info, _) => fst title_info
            | (Raise _, _) => file_stem input_path
            end = file_stem input_path).
  { unfold TitleFinder.find_title.
    destruct W as [(e & ->) | (pdf & -> & ->)]; reflexivity. }
  rewrite Title.
  unfold cover_page.is_cover_page,
         PDFOutlineExtractor.extract_outline,
         PDFOutlineExtractor.extract_outline_try,
         PDFOutlineExtractor.fallback.
  rewrite E, P. cbn.
  now destruct (truthy (file_stem input_path)).
Qed.

End Pipeline.

Section PipelineExamples.
Import main.

Lemma zero_pages_record_witness :
  process_pdf_result load_no_pages load_no_words empty_pdf_files
                     "input/empty.pdf"
  = Ok {| r_title := "empty";
          r_outline := PDFOutlineExtractor.OutlineDict "empty" [] |}.
Proof.
  apply (zero_pages_record load_no_pages load_no_words empty_pdf_files
                           "input/empty.pdf").
  - eexists. split; reflexivity.
  - right. eexists. split; reflexivity.
Defined.

End PipelineExamples.

(** ** The clean-up of the title *)

Section Title.
Import TitleFinder.

Lemma len_cons c s : len (String c s) = S (len s).
Proof. reflexivity. Qed.

(** the greedy loop over a back-reference to one character eats the whole
    run of that character *)
Lemma star_run
  (step : option ascii -> string -> Re.caps ->
          (option ascii -> string -> Re.caps -> option Re.found) ->
          option Re.found) c g :
  (forall p s k,
     step p s g k = match s with
                    | String x s' => if Ascii.eqb c x then k (Some x) s' g else None
                    | EmptyString => None
                    end) ->
  forall n s,
    len s <= n ->
    Re.star step Re.finish n (Some c) s g = Re.finish (Some c) (drop_run c s) g.
Proof.
  intros Hstep. induction n as [|n IH]; intros s L.
  - destruct s; [reflexivity | rewrite len_cons in L; lia].
  - cbn [Re.star]. rewrite Hstep.
    destruct s as [|x s]; [reflexivity|].
    cbn [drop_run]. rewrite Ascii.eqb_sym.
    destruct (Ascii.eqb_spec x c) as [-> | NE]; [|reflexivity].
    assert (Lt : (len s <? len (String c s)) = true)
      by (apply Nat.ltb_lt; rewrite len_cons; lia).
    rewrite len_cons in L. rewrite Lt, IH by lia. reflexivity.
Qed.

Lemma len_drop_run c s : len (drop_run c s) <= len s.
Proof.
  induction s as [|x s IH]; [cbn; lia|]. cbn [drop_run].
  destruct (Ascii.eqb x c); rewrite ?len_cons; lia.
Qed.

Lemma head_drop_run c s : Re.head (drop_run c s) <> Some c.
Proof.
  induction s as [|x s IH]; cbn; [discriminate|].
  destruct (Ascii.eqb_spec x c) as [-> | NE]; [exact IH|].
  cbn. congruence.
Qed.

Lemma run_head_some s c r :
  run_head s = Some (c, r) ->
  c <> newline /\
  exists rest, s = String c (String c (String c rest)) /\ r = drop_run c rest.
Proof.
  destruct s as [|a [|a1 [|a2 rest]]]; try discriminate. cbn [run_head].
  destruct (Ascii.eqb_spec a newline) as [-> | NE]; [discriminate|].
  destruct (Ascii.eqb_spec a a1) as [<- | ?]; [|discriminate].
  destruct (Ascii.eqb_spec a a2) as [<- | ?]; [|discriminate].
  cbn. intros [= <- <-]. split; [exact NE | now exists rest].
Qed.

Lemma run_head_triple c rest :
  c <> newline ->
  run_head (String c (String c (String c rest))) = Some (c, drop_run c rest).
Proof.
  intros NE. cbn [run_head]. rewrite Ascii.eqb_refl.
  destruct (Ascii.eqb_spec c newline); [contradiction | reflexivity].
Qed.

(** where the pattern of [_deduplicate_title] matches, and what it leaves *)
Lemma match_at_dedup p s :
  Re.match_at dedup_pattern p s
  = match run_head s with
    | Some (c, r) => Re.finish (Some c) r [(1, String c "")]
    | None => None
    end.
Proof.
  unfold Re.match_at.
  change dedup_pattern with
    {| Re.pat_re :=
         Re.Cat (Re.Group 1 Re.AnyChar)
           (Re.Cat (Re.Cat (Re.Backref 1) (Re.Cat (Re.Backref 1) Re.Eps))
              (Re.Star (Re.Backref 1)));
       Re.pat_ic := false |}.
  cbn [Re.pat_re Re.pat_ic Re.m].
  destruct s as [|c s]; [reflexivity|].
  unfold run_head, newline.
  destruct (Ascii.eqb c "010"); [now destruct s as [|? [|? ?]]|].
  replace (len (String c s) - len s) with 1 by (rewrite len_cons; lia).
  cbn [take Re.cap Nat.eqb Re.eat negb andb].
  destruct s as [|c1 s]; [reflexivity|].
  cbn [Re.lit_eq].
  destruct (Ascii.eqb_spec c c1) as [<- | NE]; [|now destruct s].
  cbn [Re.eat andb].
  destruct s as [|c2 s]; [reflexivity|].
  cbn [Re.lit_eq].
  destruct (Ascii.eqb_spec c c2) as [<- | NE]; [|reflexivity].
  cbn [Re.eat].
  apply star_run; [|lia].
  intros p' s' k. cbn [Re.cap Nat.eqb Re.eat].
  destruct s' as [|x s']; [reflexivity|].
  cbn [Re.eat Re.lit_eq]. now destruct (Ascii.eqb c x).
Qed.

(** one round of the scan *)
Lemma sub_dedup_step fuel p s :
  sub_dedup (S fuel) p s
  = match s with
    | EmptyString => EmptyString
    | String c s' =>
        match run_head s with
        | Some (_, r) => String c (sub_dedup fuel (Some c) r)
        | None => String c (sub_dedup fuel (Some c) s')
        end
    end.
Proof.
  unfold sub_dedup. cbn [Re.sub_from]. rewrite match_at_dedup.
  destruct s as [|c s]; [reflexivity|].
  destruct (run_head (String c s)) as [[c' r]|] eqn:E; [|reflexivity].
  apply run_head_some in E as (_ & rest & [= <- ->] & ->).
  unfold Re.finish. cbn [Re.f_rest Re.f_caps Re.f_prev].
  assert (Lt : (len (drop_run c rest) <? len (String c (String c (String c rest))))
               = true).
  { apply Nat.ltb_lt. pose proof (len_drop_run c rest). rewrite !len_cons. lia. }
  rewrite Lt. reflexivity.
Qed.

Lemma sub_dedup_head fuel p s :
  len s < fuel -> Re.head (sub_dedup fuel p s) = Re.head s.
Proof.
  destruct fuel as [|fuel]; [lia|]. intros _. rewrite sub_dedup_step.
  destruct s as [|c s]; [reflexivity|].
  now destruct (run_head (String c s)) as [[? ?]|].
Qed.

Lemma run_head_cons_none c s :
  Re.head s <> Some c -> run_head (String c s) = None.
Proof.
  destruct s as [|a [|b s]]; try reflexivity. cbn [Re.head run_head].
  intros NE. destruct (Ascii.eqb_spec c a) as [-> | ?]; [congruence|].
  now rewrite andb_false_r.
Qed.

(** the scan leaves no run behind *)
Lemma sub_dedup_no_run fuel : forall p s,
  len s < fuel -> has_run (sub_dedup fuel p s) = false.
Proof.
  induction fuel as [|fuel IH]; intros p s L; [lia|].
  rewrite sub_dedup_step.
  destruct s as [|c s]; [reflexivity|]. rewrite len_cons in L.
  destruct (run_head (String c s)) as [[c' r]|] eqn:E.
  - apply run_head_some in E as (_ & rest & [= <- ->] & ->).
    pose proof (len_drop_run c rest) as Lr. rewrite !len_cons in L.
    cbn [has_run]. rewrite run_head_cons_none.
    + apply IH. lia.
    + rewrite sub_dedup_head by lia. apply head_drop_run.
  - cbn [has_run].
    destruct (run_head (String c (sub_dedup fuel (Some c) s)))
      as [[c' r]|] eqn:E'; [|apply IH; lia].
    exfalso.
    apply run_head_some in E' as (NE & rest & [= <- E2] & _).
    (* the scan of [s] starts with two [c]: so does [s], and a third one
       would have been a run *)
    assert (H1 : Re.head s = Some c).
    { rewrite <- (sub_dedup_head fuel (Some c) s) by lia. now rewrite E2. }
    destruct s as [|a s]; [discriminate|]. cbn in H1. injection H1 as ->.
    rewrite len_cons in L.
    destruct fuel as [|fuel']; [lia|].
    rewrite sub_dedup_step in E2.
    destruct (run_head (String c s)) as [[c' r']|] eqn:E3.
    + apply run_head_some in E3 as (_ & rest' & [= <- ->] & ->).
      injection E2 as E2.
      pose proof (len_drop_run c rest') as Lr. rewrite !len_cons in L.
      apply (head_drop_run c rest').
      rewrite <- (sub_dedup_head fuel' (Some c) (drop_run c rest')) by lia.
      now rewrite E2.
    + injection E2 as E2.
      assert (H2 : Re.head s = Some c).
      { rewrite <- (sub_dedup_head fuel' (Some c) s) by lia. now rewrite E2. }
      destruct s as [|b s]; [discriminate|]. cbn in H2. injection H2 as ->.
      rewrite run_head_triple in E by exact NE. discriminate.
Qed.

(** a title without a run is left as it is *)
Lemma sub_dedup_fixed fuel : forall p s,
  len s < fuel -> has_run s = false -> sub_dedup fuel p s = s.
Proof.
  induction fuel as [|fuel IH]; intros p s L R; [lia|].
  rewrite sub_dedup_step.
  destruct s as [|c s]; [reflexivity|]. rewrite len_cons in L.
  cbn [has_run] in R.
  destruct (run_head (String c s)) as [[c' r]|]; [discriminate|].
  rewrite IH; [reflexivity | lia | exact R].
Qed.

Lemma has_run_of_triple c s :
  c <> newline -> triple_in c s -> has_run s = true.
Proof.
  intros NE (pre & post & ->).
  induction pre as [|a pre IH].
  - cbn [append has_run]. now rewrite run_head_triple.
  - change (String a pre ++ String c (String c (String c post)))
      with (String a (pre ++ String c (String c (String c post)))).
    cbn [has_run]. rewrite IH. now destruct (run_head _).
Qed.

Lemma deduplicate_title_scan text :
  _deduplicate_title text = sub_dedup (S (len text)) None text.
Proof. reflexivity. Qed.

(** A run of newlines is not collapsed: [.] does not match a newline. *)
Lemma deduplicate_title_keeps_newlines :
  triple_in newline (_deduplicate_title three_newlines).
Proof. exists "", "". vm_compute. reflexivity. Qed.

(** C10, amended. [_deduplicate_title] is idempotent, and in its output no
    character other than the newline stands three times in a row. *)
Theorem deduplicate_title_idempotent (text : string) :
  _deduplicate_title (_deduplicate_title text) = _deduplicate_title text /\
  forall c, triple_in c (_deduplicate_title text) -> c = newline.
Proof.
  assert (R : has_run (_deduplicate_title text) = false).
  { rewrite deduplicate_title_scan. apply sub_dedup_no_run. lia. }
  split.
  - rewrite (deduplicate_title_scan (_deduplicate_title text)).
    apply sub_dedup_fixed; [lia | exact R].
  - intros c T.
    destruct (Ascii.eqb_spec c newline) as [E | NE]; [exact E|].
    rewrite (has_run_of_triple _ _ NE T) in R. discriminate.
Qed.

End Title.

(** * Further properties

    ** What the refiner leaves alone *)

Section RefinerFrame.
Import PDFOutlineExtractor.

Lemma subseq_nil {A} (l : list A) : subseq [] l.
Proof. destruct l; exact I. Qed.

Lemma subseq_refl {A} (l : list A) : subseq l l.
Proof. induction l as [|a l IH]; [exact I | left; auto]. Qed.

Lemma subseq_skip {A} (s l : list A) (y : A) : subseq s l -> subseq s (y :: l).
Proof. destruct s; [intros; exact I | intros H; right; exact H]. Qed.

Lemma subseq_trans {A} (l : list A) : forall s t,
  subseq s t -> subseq t l -> subseq s l.
Proof.
  induction l as [|y l IH]; intros s t St Tl.
  - destruct t as [|b t]; [|contradiction].
    destruct s; [exact I | contradiction].
  - destruct s as [|x s]; [exact I|].
    destruct t as [|b t]; [contradiction|].
    destruct Tl as [[<- Tl] | Tl].
    + destruct St as [[<- St] | St].
      * left. split; [reflexivity | eapply IH; eassumption].
      * right. eapply IH; eassumption.
    + right. apply (IH (x :: s) (b :: t)); assumption.
Qed.

Lemma drop_repeats_subseq h cands : forall last,
  subseq (drop_repeats h last cands) cands.
Proof.
  induction cands as [|c cands IH]; intros last; cbn [drop_repeats]; [exact I|].
  destruct (match last with Some _ => _ | None => false end).
  - apply subseq_skip, IH.
  - left. split; [reflexivity | apply IH].
Qed.

Lemma int_c_digit c n : int_c c = Ok n -> (0 <= n <= 9)%Z.
Proof.
  unfold int_c, isdecimal_c, between.
  destruct ((48 <=? ord c)%N && (ord c <=? 57)%N) eqn:E; [|discriminate].
  apply andb_true_iff in E as [L U].
  apply N.leb_le in L. apply N.leb_le in U. intros [= <-]. lia.
Qed.

Lemma level_num_digit level n : level_num level = Ok n -> (0 <= n <= 9)%Z.
Proof.
  destruct level as [|a [|c rest]]; try discriminate. apply int_c_digit.
Qed.

Lemma level_num_level_str k :
  (0 <= k <= 9)%Z -> level_num (level_str k) = Ok k.
Proof.
  intros B.
  assert (C : (k = 0 \/ k = 1 \/ k = 2 \/ k = 3 \/ k = 4 \/ k = 5 \/ k = 6
               \/ k = 7 \/ k = 8 \/ k = 9)%Z) by lia.
  repeat (destruct C as [-> | C]; [reflexivity|]). subst k. reflexivity.
Qed.

(** what a run of the second loop does to the store and to its list *)
Lemma clamp_levels_frame rest : forall h final out h',
  clamp_levels h final rest = Ok (out, h') ->
  (exists kept,
     out = (final ++ kept)%list /\ subseq kept rest /\
     forall r, In r kept -> is_field_label (e_text (h r)) = false) /\
  (forall r, e_text (h' r) = e_text (h r) /\ e_page (h' r) = e_page (h r)) /\
  (forall r, ~ In r rest -> h' r = h r) /\
  (forall r a, level_num (e_level (h r)) = Ok a ->
     exists b, level_num (e_level (h' r)) = Ok b /\ (b <= a)%Z).
Proof.
  induction rest as [|cur more IH]; intros h final out h'.
  - cbn. intros [= <- <-]. split; [|split; [|split]]; auto.
    + exists []. rewrite app_nil_r. repeat split. intros r [].
    + intros r a E. exists a. split; [exact E | lia].
  - cbn [clamp_levels].
    destruct (level_num (e_level (h cur))) as [c|e] eqn:Ec; [|discriminate].
    destruct (level_num (e_level (h (List.last final cur)))) as [p|e] eqn:Ep;
      [|discriminate].
    cbn [bind].
    set (h1 := if (p + 1 <? c)%Z
               then set_level h cur (level_str (p + 1)) else h).
    assert (T1 : forall r, e_text (h1 r) = e_text (h r)
                           /\ e_page (h1 r) = e_page (h r)).
    { intros r. subst h1. destruct (p + 1 <? c)%Z; [|auto].
      unfold set_level. destruct (Nat.eqb_spec r cur) as [-> | _]; auto. }
    assert (F1 : forall r, r <> cur -> h1 r = h r).
    { intros r NE. subst h1. destruct (p + 1 <? c)%Z; [|reflexivity].
      unfold set_level. destruct (Nat.eqb_spec r cur); [contradiction | reflexivity]. }
    assert (L1 : forall r a, level_num (e_level (h r)) = Ok a ->
                   exists b, level_num (e_level (h1 r)) = Ok b /\ (b <= a)%Z).
    { intros r a E. subst h1.
      destruct (Z.ltb_spec (p + 1) c) as [Lt | _]; [|exists a; split; [exact E | lia]].
      unfold set_level. destruct (Nat.eqb_spec r cur) as [-> | _];
        [|exists a; split; [exact E | lia]].
      cbn [e_level]. rewrite Ec in E. injection E as <-.
      pose proof (level_num_digit _ _ Ec). pose proof (level_num_digit _ _ Ep).
      exists (p + 1)%Z. split; [apply level_num_level_str; lia | lia]. }
    clearbody h1.
    destruct (is_field_label (e_text (h1 cur))) eqn:Lb; intros Run;
      apply IH in Run as ((kept & -> & Sk & Nk) & T & F & L).
    + split; [|split; [|split]].
      * exists kept. repeat split; [apply subseq_skip, Sk|].
        intros r Hr. rewrite <- (proj1 (T1 r)). now apply Nk.
      * intros r. rewrite (proj1 (T r)), (proj2 (T r)). apply T1.
      * intros r NI. rewrite F, F1; [reflexivity | |];
          intro; apply NI; [left; congruence | now right].
      * intros r a E. destruct (L1 r a E) as (b & Eb & Lb1).
        destruct (L r b Eb) as (b' & Eb' & Lb2). exists b'. split; [exact Eb' | lia].
    + split; [|split; [|split]].
      * exists (cur :: kept). rewrite <- app_assoc. repeat split.
        -- left. split; [reflexivity | exact Sk].
        -- intros r [E | Hr]; rewrite <- (proj1 (T1 r));
             [subst r; exact Lb | now apply Nk].
      * intros r. rewrite (proj1 (T r)), (proj2 (T r)). apply T1.
      * intros r NI. rewrite F, F1; [reflexivity | |];
          intro; apply NI; [left; congruence | now right].
      * intros r a E. destruct (L1 r a E) as (b & Eb & Lb1).
        destruct (L r b Eb) as (b' & Eb' & Lb2). exists b'. split; [exact Eb' | lia].
Qed.

(** the two loops together *)
Lemma refine_hierarchy_frame h cands out h' :
  _refine_hierarchy h cands = Ok (out, h') ->
  subseq out cands /\
  (forall c more, cands = c :: more ->
     exists kept, out = c :: kept /\
       forall r, In r kept -> is_field_label (e_text (h r)) = false) /\
  (forall r, e_text (h' r) = e_text (h r) /\ e_page (h' r) = e_page (h r)) /\
  (forall r, ~ In r cands -> h' r = h r) /\
  (forall r a, level_num (e_level (h r)) = Ok a ->
     exists b, level_num (e_level (h' r)) = Ok b /\ (b <= a)%Z).
Proof.
  unfold _refine_hierarchy.
  destruct cands as [|c cands].
  - intros [= <- <-]. split; [exact I|]. split; [discriminate|].
    split; [auto|]. split; [auto|].
    intros r a E. exists a. split; [exact E | lia].
  - pose proof (drop_repeats_subseq h (c :: cands) None) as S.
    change (drop_repeats h None (c :: cands))
      with (c :: drop_repeats h (Some c) cands) in *.
    intros Run.
    apply clamp_levels_frame in Run as ((kept & -> & Sk & Nk) & T & F & L).
    split; [|split; [|split; [exact T|split; [|exact L]]]].
    + left. split; [reflexivity|].
      apply (subseq_trans _ _ _ Sk). apply drop_repeats_subseq.
    + intros c' more [= <- <-]. exists kept. split; [reflexivity | exact Nk].
    + intros r NI. apply F. intros Hr. apply NI. right.
      eapply drop_repeats_incl, Hr.
Qed.

(** X2. The refiner only removes entries.  What it returns is the list of
    candidates with some members left out, in the same order, and the first
    candidate always stays at the head. *)
Theorem refine_returns_subsequence (h h' : store) (cands out : list nat) :
  _refine_hierarchy h cands = Ok (out, h') ->
  subseq out cands /\
  forall c more, cands = c :: more -> exists kept, out = c :: kept.
Proof.
  intros Run. apply refine_hierarchy_frame in Run as (S & H & _).
  split; [exact S|]. intros c more E.
  destruct (H c more E) as (kept & -> & _). now exists kept.
Qed.

Lemma refine_returns_subsequence_witness :
  subseq (refined_refs store_with_label [0; 1; 2]) [0; 1; 2] /\
  forall c more, [0; 1; 2] = c :: more ->
    exists kept, refined_refs store_with_label [0; 1; 2] = c :: kept.
Proof.
  apply (refine_returns_subsequence store_with_label
           (refined_store store_with_label [0; 1; 2]) [0; 1; 2]
           (refined_refs store_with_label [0; 1; 2])).
  vm_compute. reflexivity.
Defined.

(** X3. The refiner changes nothing but levels, and those only downwards.
    The text and the page of every entry stay, an entry that is not among
    the candidates is untouched, and a level that could be read before can
    be read afterwards and is not deeper. *)
Theorem refine_keeps_text_and_page (h h' : store) (cands out : list nat) :
  _refine_hierarchy h cands = Ok (out, h') ->
  (forall r, e_text (h' r) = e_text (h r) /\ e_page (h' r) = e_page (h r)) /\
  (forall r, ~ In r cands -> h' r = h r) /\
  (forall r a, level_num (e_level (h r)) = Ok a ->
     exists b, level_num (e_level (h' r)) = Ok b /\ (b <= a)%Z).
Proof.
  intros Run. apply refine_hierarchy_frame in Run as (_ & _ & T & F & L). auto.
Qed.

Lemma refine_keeps_text_and_page_witness :
  (forall r, e_text (refined_store store_with_label [0; 1; 2] r)
             = e_text (store_with_label r) /\
             e_page (refined_store store_with_label [0; 1; 2] r)
             = e_page (store_with_label r)) /\
  (forall r, ~ In r [0; 1; 2] ->
     refined_store store_with_label [0; 1; 2] r = store_with_label r) /\
  (forall r a, level_num (e_level (store_with_label r)) = Ok a ->
     exists b,
       level_num (e_level (refined_store store_with_label [0; 1; 2] r)) = Ok b /\
       (b <= a)%Z).
Proof.
  apply (refine_keeps_text_and_page store_with_label
           (refined_store store_with_label [0; 1; 2]) [0; 1; 2]
           (refined_refs store_with_label [0; 1; 2])).
  vm_compute. reflexivity.
Defined.

(** X4. Behind the first entry no bare field label survives.  Every entry
    that the refiner returns after the first is not a single word of the
    list of table and form labels, unless it carries a number in front. *)
Theorem refine_drops_field_labels (h h' : store) (cands out : list nat) :
  _refine_hierarchy h cands = Ok (out, h') ->
  forall r, In r (List.tl out) -> is_field_label (e_text (h' r)) = false.
Proof.
  destruct cands as [|c more].
  - cbn. intros [= <- <-] r [].
  - intros Run r Hr.
    apply refine_hierarchy_frame in Run as (_ & H & T & _).
    destruct (H c more eq_refl) as (kept & -> & Nk).
    rewrite (proj1 (T r)). now apply Nk.
Qed.

Lemma refine_drops_field_labels_witness :
  Forall (fun r =>
            is_field_label (e_text (refined_store store_with_label [0; 1; 2] r))
            = false)
         (List.tl (refined_refs store_with_label [0; 1; 2])).
Proof.
  apply Forall_forall.
  apply (refine_drops_field_labels store_with_label
           (refined_store store_with_label [0; 1; 2]) [0; 1; 2]
           (refined_refs store_with_label [0; 1; 2])).
  vm_compute. reflexivity.
Defined.

End RefinerFrame.

(** ** The level of a heading *)

Section LevelBounds.
Import PDFOutlineExtractor.

Lemma if_between (c : bool) (lo hi a b : Z) :
  (lo <= a <= hi)%Z -> (lo <= b <= hi)%Z ->
  (lo <= (if c then a else b) <= hi)%Z.
Proof. now destruct c. Qed.

Lemma level_str_min n :
  (1 <= n)%Z ->
  level_num (level_str (Z.min n 3)) = Ok (Z.min n 3) /\
  valid_level (level_str (Z.min n 3)).
Proof.
  intros L. split; [apply level_num_level_str; lia | now apply level_str_valid].
Qed.

(** name the level after the prefix and the level after the styles *)
Ltac name_levels n0 n1 :=
  unfold _determine_heading_level; cbv zeta;
  match goal with
  | |- context [match Re.match_ prefix_pattern ?t with
                | Some mp => @?f mp
                | None => ?d
                end] =>
      set (n0 := match Re.match_ prefix_pattern t with
                 | Some mp => f mp
                 | None => d
                 end)
  end;
  assert (1 <= n0 <= 3)%Z
    by (subst n0; destruct (Re.match_ prefix_pattern _) as [mp|]; [|lia];
        destruct (Re.group _ mp 1); [|lia];
        repeat apply if_between; lia);
  clearbody n0;
  first
    [ match goal with
      | |- context [match ?prev with
                    | Some p => _
                    | None => Ok ?X
                    end] => set (n1 := X)
      end
    | match goal with
      | |- context [bind (Ok ?X) _] => set (n1 := X)
      end ].

Lemma determine_level_bounds self block styles prev :
  (forall p, prev = Some p -> valid_level (p_level p)) ->
  exists level n,
    _determine_heading_level self block styles prev = Ok level /\
    valid_level level /\
    level_num level = Ok n /\
    forall p pn, prev = Some p -> level_num (p_level p) = Ok pn ->
      (n <= pn + 1)%Z.
Proof.
  intros V. name_levels n0 n1.
  assert (B1 : (1 <= n1)%Z).
  { subst n1. destruct styles as [|first_style more]; [lia|].
    assert (M : (1 <= match matching_style block 0 (first_style :: more) with
                      | Some i => if (i + 1 <? n0)%Z then (i + 1)%Z else n0
                      | None => n0
                      end)%Z).
    { destruct (matching_style block 0 (first_style :: more)) as [i|] eqn:E;
        [|lia].
      apply matching_style_index in E. apply if_at_least_one; lia. }
    repeat apply if_at_least_one; try lia; exact M. }
  clearbody n1.
  destruct prev as [p|].
  - destruct (valid_level_num _ (V p eq_refl)) as (pl & Ep & Bp).
    rewrite Ep. cbn [bind].
    set (n2 := if (pl + 1 <? n1)%Z then (pl + 1)%Z else n1).
    assert (B2 : (1 <= n2 <= pl + 1)%Z)
      by (subst n2; destruct (Z.ltb_spec (pl + 1) n1); lia).
    clearbody n2.
    match goal with
    | |- context [level_str (Z.min ?X 3)] => set (n := X)
    end.
    assert (B : (1 <= n <= pl + 1)%Z)
      by (subst n; repeat apply if_between; lia).
    clearbody n.
    destruct (level_str_min n (proj1 B)) as [En Vn].
    exists (level_str (Z.min n 3)), (Z.min n 3).
    repeat split; try assumption.
    intros p' pn [= <-]. rewrite Ep. intros [= <-]. lia.
  - cbn [bind]. destruct (level_str_min n1 B1) as [En Vn].
    exists (level_str (Z.min n1 3)), (Z.min n1 3).
    repeat split; try assumption. discriminate.
Qed.

(** X5. The level of a heading.  When the heading before it, if there is
    one, has level H1, H2 or H3, [_determine_heading_level] does not raise;
    it returns H1, H2 or H3, and never a level more than one below the
    level of the heading before. *)
Theorem heading_level_in_range (self : t) (block : TextBlock)
  (styles : list HeadingStyle) (prev : option PrevHeading) :
  (forall p, prev = Some p -> valid_level (p_level p)) ->
  exists level n,
    _determine_heading_level self block styles prev = Ok level /\
    valid_level level /\
    level_num level = Ok n /\
    forall p pn, prev = Some p -> level_num (p_level p) = Ok pn ->
      (n <= pn + 1)%Z.
Proof. apply determine_level_bounds. Qed.

Lemma heading_level_in_range_witness :
  exists level n,
    _determine_heading_level sample_extractor (block_of "Details" 13) []
      (Some {| p_level := "H1"; p_size := 16; p_origin_x := 72;
               p_origin_y := 100; p_bbox := (72, 100, 400, 116)%Q |})
    = Ok level /\
    valid_level level /\
    level_num level = Ok n /\
    forall p pn,
      Some {| p_level := "H1"; p_size := 16; p_origin_x := 72;
              p_origin_y := 100; p_bbox := (72, 100, 400, 116)%Q |} = Some p ->
      level_num (p_level p) = Ok pn -> (n <= pn + 1)%Z.
Proof.
  apply (heading_level_in_range sample_extractor (block_of "Details" 13) []).
  intros p [= <-]. left. reflexivity.
Defined.

Lemma scan_blocks_nested self body_size styles page_num blocks :
  forall prev cands,
    scan_invariant prev cands ->
    exists out prev',
      scan_blocks self body_size styles page_num blocks prev cands
      = Ok (out, prev') /\
      scan_invariant prev' out.
Proof.
  induction blocks as [|block more IH]; intros prev cands Inv.
  - exists cands, prev. cbn. auto.
  - cbn [scan_blocks].
    destruct (_is_heading_candidate block body_size); [|now apply IH].
    destruct Inv as (V & N & L).
    assert (Vp : forall p, prev = Some p -> valid_level (p_level p)).
    { intros p ->. destruct L as [NE ->].
      rewrite Forall_forall in V. apply V.
      destruct cands; [congruence|]. apply last_in. discriminate. }
    destruct (determine_level_bounds self block styles prev Vp)
      as (level & n & -> & Vl & En & Bn).
    cbn [bind]. apply IH. split; [|split].
    + apply Forall_app. split; [exact V|]. constructor; [exact Vl | constructor].
    + rewrite map_app. cbn [map].
      destruct prev as [p|].
      * destruct L as [NE Lp].
        apply nesting_ok_snoc with (d := entry_depth blank_entry).
        -- exact N.
        -- rewrite last_map. unfold entry_depth at 1 2. cbn [e_level].
           rewrite En, <- Lp.
           destruct (valid_level_num _ (Vp p eq_refl)) as (pn & Ep & _).
           rewrite Ep. specialize (Bn p pn eq_refl Ep). lia.
        -- destruct cands; [congruence | discriminate].
      * subst cands. exact I.
    + split; [now destruct cands|].
      rewrite last_last. reflexivity.
Qed.

Lemma scan_pages_nested self body_size styles pages :
  forall page_num prev cands out,
    scan_invariant prev cands ->
    scan_pages self body_size styles page_num pages prev cands = Ok out ->
    exists prev', scan_invariant prev' out.
Proof.
  induction pages as [|page more IH]; intros page_num prev cands out Inv.
  - cbn. intros [= <-]. now exists prev.
  - cbn [scan_pages].
    destruct (_is_form_page self page) as [[|]|e]; cbn [bind];
      [now apply IH | | discriminate].
    destruct (_get_clean_text_blocks self page) as [blocks|e]; cbn [bind];
      [|discriminate].
    destruct (scan_blocks_nested self body_size styles page_num blocks prev cands
                                 Inv) as (o & prev' & -> & Inv').
    cbn [bind fst snd]. now apply IH.
Qed.

(** X6. The candidates are well nested before they are refined.  Every
    heading that the scan of the pages accepts gets level H1, H2 or H3 and
    is at most one level below the heading accepted just before it. *)
Theorem extract_headings_nested (self : t) (doc : Fitz.Document)
  (cands : list Entry) :
  _extract_headings_from_content self doc = Ok cands ->
  well_nested cands.
Proof.
  unfold _extract_headings_from_content.
  destruct (font_stats self);
    [intros [= <-]; split; constructor|].
  destruct (_identify_heading_styles _ _) as [[|st styles]|e]; cbn [bind];
    [intros [= <-]; split; constructor | | discriminate].
  intros Run. apply scan_pages_nested in Run as (prev' & V & N & _).
  - split; assumption.
  - repeat split; constructor.
Qed.

Lemma extract_headings_nested_witness :
  well_nested
    [{| e_level := "H1"; e_text := "1. Introduction"; e_page := 0 |};
     {| e_level := "H2"; e_text := "1.1 Scope"; e_page := 0 |};
     {| e_level := "H1"; e_text := "1.1.1 Details"; e_page := 0 |}].
Proof.
  apply (extract_headings_nested sample_extractor sample_document).
  vm_compute. reflexivity.
Defined.

(** X7. Without a heading before it, the styles cap the level: a block
    that is more than nine tenths as large as the first heading style, when
    the size of that style is positive, gets H1, and a block that has the
    size and the weight of the style of rank [i], counted from 0, gets a
    level of at most [i + 1]. *)
Theorem first_heading_level (self : t) (block : TextBlock)
  (styles : list HeadingStyle) :
  (forall first others,
     styles = first :: others ->
     (0 < h_size first)%Q ->
     (9 # 10 < b_size block / h_size first)%Q ->
     _determine_heading_level self block styles None = Ok "H1") /\
  (forall i,
     matching_style block 0 styles = Some i ->
     exists level n,
       _determine_heading_level self block styles None = Ok level /\
       level_num level = Ok n /\ (1 <= n <= i + 1)%Z).
Proof.
  split.
  - intros first others -> P R. name_levels n0 n1.
    assert (E1 : n1 = 1%Z).
    { subst n1. rewrite (ltb_of_lt _ _ P), (ltb_of_lt _ _ R). cbn [andb].
      set (M := match matching_style block 0 (first :: others) with
                | Some i => if (i + 1 <? n0)%Z then (i + 1)%Z else n0
                | None => n0
                end).
      assert (BM : (1 <= M)%Z).
      { subst M.
        destruct (matching_style block 0 (first :: others)) as [i|] eqn:E;
          [|lia].
        apply matching_style_index in E. apply if_at_least_one; lia. }
      clearbody M.
      destruct (Z.ltb_spec 1 M); [reflexivity|].
      destruct (Z.ltb_spec 2 M); [lia|]. rewrite andb_false_r. lia. }
    rewrite E1. reflexivity.
  - intros i E. name_levels n0 n1.
    assert (B1 : (1 <= n1 <= i + 1)%Z).
    { subst n1. pose proof (matching_style_index _ _ _ _ E) as Pi.
      rewrite E.
      assert (BM : (1 <= (if (i + 1 <? n0)%Z then (i + 1)%Z else n0)
                    <= i + 1)%Z)
        by (destruct (Z.ltb_spec (i + 1) n0); lia).
      set (M := if (i + 1 <? n0)%Z then (i + 1)%Z else n0) in *.
      clearbody M.
      destruct styles as [|first others]; [discriminate|].
      destruct (Num.ltb 0 (h_size first)); [|exact BM].
      destruct (Num.ltb (9 # 10) (b_size block / h_size first) && (1 <? M)%Z);
        [lia|].
      destruct (Num.ltb (7 # 10) (b_size block / h_size first)); cbn [andb];
        [|exact BM].
      destruct (Z.ltb_spec 2 M); lia. }
    clearbody n1. cbn [bind].
    exists (level_str (Z.min n1 3)), (Z.min n1 3).
    split; [reflexivity|]. split; [apply level_num_level_str; lia | lia].
Qed.

Lemma first_heading_level_witness :
  _determine_heading_level sample_extractor (block_of "Details" 15)
    [{| h_size := 16; h_is_bold := true; h_score := 120; h_char_count := 15 |}]
    None = Ok "H1".
Proof.
  apply (proj1 (first_heading_level sample_extractor (block_of "Details" 15)
                  [{| h_size := 16; h_is_bold := true; h_score := 120;
                      h_char_count := 15 |}])
               {| h_size := 16; h_is_bold := true; h_score := 120;
                  h_char_count := 15 |} []); reflexivity.
Defined.

End LevelBounds.

(** ** Comparisons of numbers *)

Section Comparisons.

Lemma lt_of_ltb (a b : Q) : Num.ltb a b = true -> (a < b)%Q.
Proof.
  unfold Num.ltb. intros H. apply negb_true_iff in H.
  apply Qnot_le_lt. intros L. apply Qle_bool_iff in L. congruence.
Qed.

End Comparisons.

(** ** The heading styles *)

Section Styles.
Import PDFOutlineExtractor.

Lemma lt_of_leb_false (a b : Q) : Num.leb a b = false -> (b < a)%Q.
Proof.
  unfold Num.leb. intros H. apply Qnot_le_lt. intros L.
  apply Qle_bool_iff in L. congruence.
Qed.

Lemma le_of_ltb_false (a b : Q) : Num.ltb a b = false -> (b <= a)%Q.
Proof.
  unfold Num.ltb. intros H. apply negb_false_iff in H. now apply Qle_bool_iff.
Qed.

Lemma div_ok (a b r : Q) : Num.div a b = Ok r -> r = (a / b)%Q.
Proof. unfold Num.div. destruct (Num.eqb b 0); [discriminate | now intros [= <-]]. Qed.

Lemma idiv_share (stats : Stat) :
  Num.idiv (bold_count stats) (Z.max 1 (char_count stats))
  = Ok (bold_share stats).
Proof.
  unfold Num.idiv, bold_share.
  destruct (Z.eqb_spec (Z.max 1 (char_count stats)) 0) as [E | _];
    [lia | reflexivity].
Qed.

Lemma ltb_iff (a b : Q) : Num.ltb a b = true <-> (a < b)%Q.
Proof.
  split; [apply lt_of_ltb | apply ltb_of_lt].
Qed.

(** where a candidate style comes from *)
Lemma heading_candidates_origin body_size items : forall cands,
  heading_candidates body_size items = Ok cands ->
  Forall (style_of items body_size) cands.
Proof.
  induction items as [|[size stats] items IH]; intros cands.
  - cbn. intros [= <-]. constructor.
  - cbn [heading_candidates].
    assert (Up : forall cs,
               heading_candidates body_size items = Ok cs ->
               Forall (style_of ((size, stats) :: items) body_size) cs).
    { intros cs Hcs. apply IH in Hcs. eapply Forall_impl; [|exact Hcs].
      intros st (s0 & r0 & I0 & R). exists s0, r0.
      split; [now right | exact R]. }
    destruct (Num.leb (Num.fl size) (Num.fmul body_size (95 # 100))) eqn:Small;
      [apply Up|].
    destruct (Num.fdiv size body_size) as [ratio|e] eqn:D; [|discriminate].
    cbn [bind]. rewrite idiv_share. cbn [bind].
    destruct (Num.leb (Num.fl min_heading_ratio) ratio
              || Num.ltb (Num.fl (6 # 10)) (bold_share stats)) eqn:G;
      [|apply Up].
    destruct (heading_candidates body_size items) as [more|e] eqn:Rest;
      [|discriminate].
    cbn [bind]. intros [= <-]. constructor; [|now apply Up].
    exists stats, ratio. cbn [h_size h_is_bold h_char_count h_score].
    split; [now left|]. split; [reflexivity|].
    split; [apply ltb_iff|]. split; [now apply lt_of_leb_false|].
    split; [exact D|]. split; [|reflexivity].
    apply orb_true_iff in G as [G | G]; [left | now right].
    now apply Qle_bool_iff.
Qed.

Lemma pairs_snoc {A} (R : A -> A -> Prop) (l : list A) (x : A) :
  ForallOrdPairs R l -> Forall (fun a => R a x) l ->
  ForallOrdPairs R (l ++ [x]).
Proof.
  induction 1 as [|a l Ha _ IH]; intros F.
  - repeat constructor.
  - inversion F as [|? ? Rax F']. subst. cbn. constructor.
    + apply Forall_app. split; [exact Ha | now constructor].
    + now apply IH.
Qed.

(** the loop over the sorted candidates *)
Lemma distinct_styles_spec sorted_candidates : forall acc,
  List.length acc < 3 ->
  ForallOrdPairs
    (fun a b => (1 # 2 <= Qabs (Num.fsub (h_size b) (h_size a)))%Q) acc ->
  let styles := distinct_styles sorted_candidates acc (map h_size acc) in
  List.length styles <= 3 /\
  ForallOrdPairs
    (fun a b => (1 # 2 <= Qabs (Num.fsub (h_size b) (h_size a)))%Q) styles /\
  exists taken, styles = (acc ++ taken)%list /\ subseq taken sorted_candidates.
Proof.
  induction sorted_candidates as [|style more IH]; intros acc L P; cbn zeta.
  - cbn [distinct_styles]. repeat split; [lia | exact P|].
    exists []. now rewrite app_nil_r.
  - cbn [distinct_styles].
    destruct (existsb _ (map h_size acc)) eqn:Seen.
    + destruct (IH acc L P) as (Ln & Pn & taken & E & S).
      repeat split; [exact Ln | exact Pn|].
      exists taken. split; [exact E | now apply subseq_skip].
    + assert (Far : Forall
                      (fun a =>
                         (1 # 2 <= Qabs (Num.fsub (h_size style) (h_size a)))%Q)
                      acc).
      { apply Forall_forall. intros a Ia.
        apply le_of_ltb_false.
        destruct (Num.ltb (Qabs (Num.fsub (h_size style) (h_size a))) (1 # 2))
          eqn:Near; [|reflexivity].
        assert (X : existsb
                      (fun s_size =>
                         Num.ltb (Qabs (Num.fsub (h_size style) s_size)) (1 # 2))
                      (map h_size acc) = true).
        { apply existsb_exists. exists (h_size a). split; [|exact Near].
          now apply in_map. }
        congruence. }
      pose proof (pairs_snoc _ acc style P Far) as P'.
      assert (Len : List.length (acc ++ [style]) = S (List.length acc))
        by (rewrite length_app; cbn; lia).
      destruct (Nat.leb_spec 3 (List.length (acc ++ [style]))) as [Full | Room].
      * repeat split; [lia | exact P'|].
        exists [style]. split; [reflexivity|]. left. split; [reflexivity|].
        apply subseq_nil.
      * replace (map h_size acc ++ [h_size style])%list
          with (map h_size (acc ++ [style])) by (now rewrite map_app).
        destruct (IH (acc ++ [style])%list Room P')
          as (Ln & Pn & taken & E & S).
        repeat split; [exact Ln | exact Pn|].
        exists (style :: taken). rewrite E, <- app_assoc.
        split; [reflexivity|]. left. now split.
Qed.

Lemma subseq_in {A} (l : list A) : forall s x,
  subseq s l -> In x s -> In x l.
Proof.
  induction l as [|y l IH]; intros s x S I.
  - destruct s; [contradiction | contradiction].
  - destruct s as [|a s]; [contradiction|].
    destruct S as [[<- S] | S].
    + destruct I as [<- | I]; [now left | right; eapply IH; eassumption].
    + right. eapply IH; eassumption.
Qed.

Lemma subseq_sorted {A} (R : A -> A -> Prop) (l : list A) : forall s,
  StronglySorted R l -> subseq s l -> StronglySorted R s.
Proof.
  induction l as [|y l IH]; intros s St S.
  - destruct s; [constructor | contradiction].
  - destruct s as [|a s]; [constructor|].
    inversion St as [|? ? St' F]. subst.
    destruct S as [[<- S] | S].
    + constructor; [now apply IH|].
      apply Forall_forall. intros z Iz. rewrite Forall_forall in F.
      apply F. eapply subseq_in; eassumption.
    + now apply IH.
Qed.

(** X9. The heading styles, in the arithmetic of binary64.
    [_identify_heading_styles] returns at most three styles, and the sizes
    of any two of them are half a point or more apart.  Each style is a size
    of the font statistics, with the number of characters sampled in that
    size; it is bold exactly when more than 0.6 of these characters are
    bold; its size is more than 0.95 times the body size; the ratio of its
    size to the body size is at least 1.3 or the style is bold; and its
    score is 50 times that ratio, plus 40 when it is bold. *)
Theorem heading_styles_spec (self : t) (body_size : Q)
  (styles : list HeadingStyle) :
  _identify_heading_styles self body_size = Ok styles ->
  List.length styles <= 3 /\
  ForallOrdPairs
    (fun a b => (1 # 2 <= Qabs (Num.fsub (h_size b) (h_size a)))%Q) styles /\
  Forall (style_of (font_stats self) body_size) styles.
Proof.
  unfold _identify_heading_styles.
  destruct (heading_candidates body_size (font_stats self)) as [cands|e] eqn:C;
    [|discriminate].
  cbn [bind]. intros [= <-].
  apply heading_candidates_origin in C.
  destruct (distinct_styles_spec (Seq.sorted style_before cands) [])
    as (L & P & taken & E & S); [cbn; lia | constructor|].
  cbn [map] in L, P, E. split; [exact L|]. split; [exact P|].
  rewrite E. cbn [app]. apply Forall_forall. intros st I.
  rewrite Forall_forall in C. apply C.
  eapply sorted_in, subseq_in; eassumption.
Qed.

Lemma heading_styles_spec_witness :
  List.length sample_styles <= 3 /\
  ForallOrdPairs
    (fun a b => (1 # 2 <= Qabs (Num.fsub (h_size b) (h_size a)))%Q)
    sample_styles /\
  Forall (style_of (font_stats sample_extractor) 10%Q) sample_styles.
Proof.
  apply (heading_styles_spec sample_extractor 10%Q sample_styles).
  vm_compute. reflexivity.
Defined.

End Styles.

(** ** The font statistics *)

Section Statistics.
Import PDFOutlineExtractor.

Lemma update_values {K V} (eqb : K -> K -> bool) (P : V -> Prop)
  (d : list (K * V)) (k : K) (dflt : V) (f : V -> V) :
  Forall (fun kv => P (snd kv)) d ->
  (forall v, P v -> P (f v)) ->
  P (f dflt) ->
  Forall (fun kv => P (snd kv)) (Seq.update eqb d k dflt f).
Proof.
  intros F Pf Pd. induction F as [|[k' v] d Hv F IH]; cbn [Seq.update].
  - repeat constructor. exact Pd.
  - destruct (eqb k' k); constructor; cbn; auto.
Qed.

(** an update changes no key, or adds the key at the end when no key there
    is equal to it *)
Lemma update_keys {K V} (eqb : K -> K -> bool)
  (d : list (K * V)) (k : K) (dflt : V) (f : V -> V) :
  map fst (Seq.update eqb d k dflt f) = map fst d \/
  (map fst (Seq.update eqb d k dflt f) = (map fst d ++ [k])%list /\
   Forall (fun k' => eqb k' k = false) (map fst d)).
Proof.
  induction d as [|[k' v] d IH]; cbn [Seq.update map].
  - right. split; [reflexivity | constructor].
  - destruct (eqb k' k) eqn:E; cbn [map fst]; [now left|].
    destruct IH as [-> | [-> F]]; [now left|].
    right. split; [reflexivity | now constructor].
Qed.

Lemma pairs_of_keys (l : list (Q * Stat)) :
  keys_distinct l <->
  ForallOrdPairs (fun a b => Num.eqb a b = false) (map fst l).
Proof.
  unfold keys_distinct. induction l as [|kv l IH]; cbn [map].
  - split; constructor.
  - split; intros H; inversion H as [|? ? F P]; subst; constructor.
    + apply Forall_map. exact F.
    + now apply IH.
    + apply Forall_map in F. exact F.
    + now apply IH.
Qed.

Lemma count_span_sound fs span :
  stats_ok fs -> keys_distinct fs ->
  stats_ok (count_span fs span) /\ keys_distinct (count_span fs span).
Proof.
  intros S D. unfold count_span.
  destruct (truthy (strip (Fitz.span_text span))) eqn:T; cbn [negb]; [|auto].
  assert (N : (1 <= Z.of_nat (len (strip (Fitz.span_text span))))%Z).
  { destruct (strip (Fitz.span_text span)); [discriminate|].
    rewrite len_cons. lia. }
  split.
  - apply (update_values Num.eqb
             (fun st => (1 <= char_count st)%Z /\
                        (0 <= bold_count st <= char_count st)%Z)).
    + exact S.
    + intros v [C B]. cbn [char_count bold_count].
      destruct (_is_bold_font _); lia.
    + cbn [char_count bold_count]. destruct (_is_bold_font _); lia.
  - apply pairs_of_keys. apply pairs_of_keys in D.
    match goal with
    | |- context [Seq.update Num.eqb fs ?k ?d ?f] =>
        destruct (update_keys Num.eqb fs k d f) as [-> | [-> F]]
    end; [exact D|].
    now apply pairs_snoc.
Qed.

Lemma count_spans_sound spans : forall fs,
  stats_ok fs -> keys_distinct fs ->
  stats_ok (fold_left count_span spans fs) /\
  keys_distinct (fold_left count_span spans fs).
Proof.
  induction spans as [|span spans IH]; intros fs S D; cbn [fold_left]; [auto|].
  destruct (count_span_sound fs span S D). now apply IH.
Qed.

Lemma counted_refl self : counted self self.
Proof. unfold counted. auto. Qed.

Lemma counted_trans a b c : counted a b -> counted b c -> counted a c.
Proof.
  intros (T1 & C1 & P1 & S1) (T2 & C2 & P2 & S2).
  split; [congruence|]. split; [congruence|]. split; [congruence|].
  intros S D. destruct (S1 S D) as [S' D']. now apply S2.
Qed.

Lemma count_lines_counted lines : forall self,
  counted self (snd (count_lines self lines)).
Proof.
  induction lines as [|line lines IH]; intros self; cbn [count_lines].
  - apply counted_refl.
  - destruct (_is_header_footer self (Fitz.line_bbox line)) as [[|]|e].
    + apply IH.
    + eapply counted_trans; [|apply IH].
      split; [reflexivity|]. split; [reflexivity|]. split; [reflexivity|].
      cbn [font_stats with_font_stats]. intros S D.
      now apply count_spans_sound.
    + apply counted_refl.
Qed.

Lemma count_pages_counted pages : forall self,
  counted self (snd (count_pages self pages)).
Proof.
  induction pages as [|page pages IH]; intros self; cbn [count_pages].
  - apply counted_refl.
  - destruct (_is_form_page self page) as [[|]|e].
    + apply IH.
    + pose proof (count_lines_counted (text_lines page) self) as C.
      destruct (count_lines self (text_lines page)) as [[u|e] self'];
        cbn [snd] in C.
      * eapply counted_trans; [exact C | apply IH].
      * exact C.
    + apply counted_refl.
Qed.

(** X11. The statistics stay sound.  [_analyze_document_styles] changes
    nothing of the extractor but the statistics, also when it raises, and
    it keeps them sound: every size has one entry, with at least one
    character and no more bold characters than characters. *)
Theorem analyze_keeps_stats_sound (self : t) (doc : Fitz.Document) :
  stats_ok (font_stats self) ->
  keys_distinct (font_stats self) ->
  stats_ok (font_stats (snd (_analyze_document_styles self doc))) /\
  keys_distinct (font_stats (snd (_analyze_document_styles self doc))) /\
  document_title (snd (_analyze_document_styles self doc))
  = document_title self /\
  page_dimensions (snd (_analyze_document_styles self doc))
  = page_dimensions self.
Proof.
  intros S D. unfold _analyze_document_styles.
  destruct (count_pages_counted
              (firstn 20 (skipn (start_page_idx self) (Fitz.doc_pages doc)))
              self) as (T & _ & P & K).
  destruct (K S D). auto.
Qed.

Lemma analyze_keeps_stats_sound_witness :
  stats_ok (font_stats sample_extractor) /\
  keys_distinct (font_stats sample_extractor).
Proof.
  destruct (analyze_keeps_stats_sound
              (with_page_dimensions (__init__ "Report" false) (600%Q, 800%Q))
              sample_document) as (S & D & _).
  - constructor.
  - constructor.
  - split; [exact S | exact D].
Defined.

End Statistics.

(** ** Form pages and documents without statistics *)

Section Forms.
Import PDFOutlineExtractor.

Lemma startswith_nonempty sub : sub <> "" -> startswith sub "" = false.
Proof. destruct sub; [congruence | reflexivity]. Qed.

(** a text that holds [sub] has at least one occurrence of it *)
Lemma count_from_positive sub : sub <> "" -> forall fuel s,
  len s <= fuel -> contains sub s = true -> 1 <= count_from fuel sub s.
Proof.
  intros NE. induction fuel as [|fuel IH]; intros s L C.
  - destruct s; [|rewrite len_cons in L; lia].
    cbn in C. rewrite (startswith_nonempty sub NE) in C. discriminate.
  - destruct s as [|c s].
    + cbn in C. rewrite (startswith_nonempty sub NE) in C. discriminate.
    + cbn [count_from]. cbn [contains] in C.
      destruct (startswith sub (String c s)); [lia|].
      cbn [orb] in C. apply IH; [rewrite len_cons in L; lia | exact C].
Qed.

Lemma count_positive s sub :
  sub <> "" -> contains sub s = true -> 1 <= count s sub.
Proof. intros NE C. unfold count. now apply count_from_positive. Qed.

Lemma labels_counted text (labels : list string) :
  Forall (fun label => label <> "") labels ->
  List.length (filter (fun label => contains label text) labels)
  <= list_sum (map (fun label => count text label) labels).
Proof.
  induction 1 as [|label labels NE _ IH]; [cbn; lia|].
  cbn [filter map].
  change (list_sum (count text label
                    :: map (fun label0 => count text label0) labels))
    with (count text label
          + list_sum (map (fun label0 => count text label0) labels)).
  destruct (contains label text) eqn:C; cbn [List.length]; [|lia].
  pose proof (count_positive text label NE C). lia.
Qed.

Lemma form_labels_nonempty : Forall (fun label => label <> "") form_labels.
Proof. repeat constructor; discriminate. Qed.

Lemma labelled_is_form_page self page :
  Fitz.page_widgets page = [] ->
  3 <= List.length (filter (fun label => contains label (lower (Fitz.page_text page)))
                           form_labels) ->
  _is_form_page self page = Ok true.
Proof.
  intros W L. unfold _is_form_page. rewrite W. cbn [bind].
  pose proof (labels_counted (lower (Fitz.page_text page)) form_labels
                             form_labels_nonempty) as S.
  f_equal. apply Nat.leb_le.
  destruct (_ || _ || _); lia.
Qed.

(** X12. Three field labels make a form page.  A page without form fields
    whose text holds three of the labels "name:", "date:", "signature:",
    ..., in any case, is a form page whatever else is on it; such a page
    adds nothing to the statistics and is passed over by the scan for
    headings. *)
Theorem labelled_page_is_skipped (self : t) (page : Fitz.Page) :
  Fitz.page_widgets page = [] ->
  3 <= List.length (filter (fun label => contains label (lower (Fitz.page_text page)))
                           form_labels) ->
  _is_form_page self page = Ok true /\
  (forall more, count_pages self (page :: more) = count_pages self more) /\
  (forall body_size styles n more prev cands,
     scan_pages self body_size styles n (page :: more) prev cands
     = scan_pages self body_size styles (n + 1) more prev cands).
Proof.
  intros W L. pose proof (labelled_is_form_page self page W L) as F.
  split; [exact F|]. split.
  - intros more. cbn [count_pages]. now rewrite F.
  - intros body_size styles n more prev cands. cbn [scan_pages]. now rewrite F.
Qed.

Lemma labelled_page_is_skipped_witness :
  _is_form_page (__init__ "" false) labelled_page = Ok true /\
  (forall more,
     count_pages (__init__ "" false) (labelled_page :: more)
     = count_pages (__init__ "" false) more) /\
  (forall body_size styles n more prev cands,
     scan_pages (__init__ "" false) body_size styles n (labelled_page :: more)
                prev cands
     = scan_pages (__init__ "" false) body_size styles (n + 1) more prev cands).
Proof.
  apply (labelled_page_is_skipped (__init__ "" false) labelled_page).
  - reflexivity.
  - vm_compute. lia.
Defined.

Lemma forall_firstn {A} (P : A -> Prop) n (l : list A) :
  Forall P l -> Forall P (firstn n l).
Proof.
  intros F. rewrite <- (firstn_skipn n l) in F.
  apply Forall_app in F. apply F.
Qed.

Lemma forall_skipn {A} (P : A -> Prop) n (l : list A) :
  Forall P l -> Forall P (skipn n l).
Proof.
  intros F. rewrite <- (firstn_skipn n l) in F.
  apply Forall_app in F. apply F.
Qed.

Lemma count_pages_all_forms pages : forall self,
  Forall (fun page => _is_form_page self page = Ok true) pages ->
  count_pages self pages = (Ok tt, self).
Proof.
  induction pages as [|page pages IH]; intros self F; [reflexivity|].
  inversion F as [|? ? Fp F']. subst. cbn [count_pages]. rewrite Fp.
  now apply IH.
Qed.

(** X13. A document of form pages has an empty outline.  When the extractor
    has a title and every page of the document is a form page, no
    statistics are taken and [extract_outline] returns the empty list, not
    the fallback dictionary. *)
Theorem form_document_outline
  (fitz_open : string -> result Fitz.Document) (self : t) (pdf_path : string)
  (doc : Fitz.Document) (first : Fitz.Page) (others : list Fitz.Page) :
  fitz_open pdf_path = Ok doc ->
  Fitz.doc_pages doc = first :: others ->
  document_title self <> "" ->
  font_stats self = [] ->
  Forall (fun page =>
            _is_form_page
              (with_page_dimensions self
                 (Fitz.rect_width first, Fitz.rect_height first)) page
            = Ok true)
         (first :: others) ->
  extract_outline fitz_open self pdf_path
  = (Ok (OutlineList []),
     with_page_dimensions self (Fitz.rect_width first, Fitz.rect_height first)).
Proof.
  intros O P T S F.
  unfold extract_outline, extract_outline_try. rewrite O, P.
  unfold _analyze_document_styles. rewrite P.
  rewrite count_pages_all_forms
    by (apply forall_firstn, forall_skipn; exact F).
  cbn [document_title with_page_dimensions].
  destruct (document_title self) eqn:E; [congruence|]. cbn [truthy negb].
  unfold _extract_headings_from_content.
  cbn [font_stats with_page_dimensions]. rewrite S.
  reflexivity.
Qed.

Lemma form_document_outline_witness :
  extract_outline open_labelled (__init__ "Application" false) "form.pdf"
  = (Ok (OutlineList []),
     with_page_dimensions (__init__ "Application" false) (600%Q, 800%Q)).
Proof.
  apply (form_document_outline open_labelled (__init__ "Application" false)
           "form.pdf" labelled_document labelled_page []).
  - reflexivity.
  - reflexivity.
  - discriminate.
  - reflexivity.
  - constructor; [vm_compute; reflexivity | constructor].
Defined.

End Forms.

(** ** The assembly of blocks *)

Section Blocks.
Import PDFOutlineExtractor.

Lemma append_assoc (a b c : string) : ((a ++ b) ++ c = a ++ (b ++ c))%string.
Proof. induction a as [|x a IH]; cbn; [reflexivity | now rewrite IH]. Qed.

Lemma join_cons sep (x : string) (l : list string) :
  l <> [] -> join sep (x :: l) = (x ++ sep ++ join sep l)%string.
Proof. destruct l; [congruence | reflexivity]. Qed.

(** two texts that follow each other read the same whether they are one
    member, joined by a space, or two *)
Lemma join_merged (a b : string) (ys : list string) : forall xs,
  join " " (xs ++ (a ++ " " ++ b)%string :: ys)
  = join " " (xs ++ a :: b :: ys).
Proof.
  induction xs as [|x xs IH].
  - cbn [app]. rewrite (join_cons " " a (b :: ys)) by discriminate.
    destruct ys as [|y ys]; [reflexivity|].
    rewrite !join_cons by discriminate. now rewrite !append_assoc.
  - cbn [app]. rewrite !join_cons by (now destruct xs). now rewrite IH.
Qed.

Lemma append_nonempty (a b : string) : a <> "" -> (a ++ b)%string <> "".
Proof. destruct a; [congruence | discriminate]. Qed.

Lemma merge_lines_texts self lines : forall current blocks out,
  merge_lines self lines current blocks = Ok out ->
  Forall (fun text => text <> "") (texts_so_far blocks current) ->
  join " " (map b_text out)
  = join " " (texts_so_far blocks current
              ++ map assembled_text (filter (kept_line self) lines)) /\
  Forall (fun text => text <> "") (map b_text out) /\
  List.length out
  <= List.length (texts_so_far blocks current)
     + List.length (filter (kept_line self) lines).
Proof.
  induction lines as [|line lines IH]; intros current blocks out Run NE.
  - cbn [filter map]. rewrite app_nil_r. cbn [merge_lines] in Run.
    assert (E : map b_text out = texts_so_far blocks current).
    { unfold texts_so_far. destruct current as [cur|]; injection Run as <-.
      - now rewrite map_app.
      - now rewrite app_nil_r. }
    rewrite E. repeat split; [exact NE|].
    rewrite <- E, length_map. cbn. lia.
  - cbn [merge_lines] in Run. cbn [filter].
    assert (K : kept_line self line
                = match _is_header_footer self (Fitz.line_bbox line) with
                  | Ok false => truthy (assembled_text line)
                  | _ => false
                  end) by reflexivity.
    rewrite K. clear K.
    destruct (_is_header_footer self (Fitz.line_bbox line)) as [[|]|e];
      cbn [bind] in Run; [now apply IH | | discriminate].
    destruct (line_summary (Fitz.line_spans line)) as [[lt sc] bc] eqn:Sum.
    assert (At : assembled_text line = strip lt)
      by (unfold assembled_text; now rewrite Sum).
    rewrite At.
    destruct (truthy (strip lt)) eqn:T; cbn [negb] in Run; [|now apply IH].
    assert (Lt : strip lt <> "") by (intros E; rewrite E in T; discriminate).
    cbn [map]. rewrite At.
    destruct current as [cur|].
    + destruct (_ && _ && _ && _).
      * (* the line goes into the block in the making *)
        apply IH in Run.
        -- destruct Run as (J & F & L). split; [|split; [exact F|]].
           ++ rewrite J. unfold texts_so_far. cbn [b_text].
              rewrite <- !app_assoc. cbn [app]. apply join_merged.
           ++ unfold texts_so_far in *. rewrite !length_app in *.
              cbn [List.length] in *. lia.
        -- unfold texts_so_far in *. cbn [b_text].
           apply Forall_app in NE as [Nb Nc]. apply Forall_app. split; [exact Nb|].
           inversion Nc as [|? ? Ncur _]. subst.
           constructor; [now apply append_nonempty | constructor].
      * (* the block is closed and the line opens the next one *)
        apply IH in Run.
        -- destruct Run as (J & F & L). split; [|split; [exact F|]].
           ++ rewrite J. unfold texts_so_far. cbn [b_text].
              rewrite map_app. cbn [map]. now rewrite <- !app_assoc.
           ++ unfold texts_so_far in *. rewrite map_app in L.
              rewrite !length_app in *. cbn [List.length map] in *. lia.
        -- unfold texts_so_far in *. cbn [b_text].
           rewrite map_app. cbn [map]. rewrite <- app_assoc. cbn [app].
           apply Forall_app in NE as [Nb Nc]. apply Forall_app. split; [exact Nb|].
           inversion Nc as [|? ? Ncur _]. subst.
           constructor; [exact Ncur|]. constructor; [exact Lt | constructor].
    + apply IH in Run.
      * destruct Run as (J & F & L). split; [|split; [exact F|]].
        -- rewrite J. unfold texts_so_far. cbn [b_text].
           now rewrite <- !app_assoc.
        -- unfold texts_so_far in *. rewrite !length_app in *.
           cbn [List.length] in *. lia.
      * unfold texts_so_far in *. cbn [b_text].
        rewrite app_nil_r in NE. apply Forall_app. split; [exact NE|].
        constructor; [exact Lt | constructor].
Qed.

(** X14. The assembler loses no text.  When [_get_clean_text_blocks]
    returns, the texts of its blocks, joined by single spaces, are the texts
    of the lines it kept, joined by single spaces and in the same order; no
    block has an empty text, and there are no more blocks than kept
    lines. *)
Theorem blocks_keep_text (self : t) (page : Fitz.Page)
  (blocks : list TextBlock) :
  _get_clean_text_blocks self page = Ok blocks ->
  join " " (map b_text blocks)
  = join " " (map assembled_text (filter (kept_line self) (text_lines page))) /\
  Forall (fun block => b_text block <> "") blocks /\
  List.length blocks <= List.length (filter (kept_line self) (text_lines page)).
Proof.
  intros Run. unfold _get_clean_text_blocks in Run.
  apply merge_lines_texts in Run as (J & F & L);
    [|constructor].
  split; [exact J|]. split; [|exact L].
  apply Forall_forall. intros block In.
  rewrite Forall_forall in F. apply F. now apply in_map.
Qed.

Lemma blocks_keep_text_witness :
  join " " (map b_text sample_blocks)
  = join " " (map assembled_text
                  (filter (kept_line sample_extractor) (text_lines sample_page))) /\
  Forall (fun block => b_text block <> "") sample_blocks /\
  List.length sample_blocks
  <= List.length (filter (kept_line sample_extractor) (text_lines sample_page)).
Proof.
  apply (blocks_keep_text sample_extractor sample_page sample_blocks).
  vm_compute. reflexivity.
Defined.

End Blocks.

(** ** The words of the title *)

Section TitleWords.
Import TitleFinder.

Lemma dominant_words_snoc (pre : list SafeWord) (w : SafeWord) :
  dominant_words (pre ++ [w])
  = let '(kept, size, font) := dominant_words pre in
    if negb (usable_word w) then (kept, size, font)
    else if Num.ltb size (sw_size w)
    then ([sw_text w], sw_size w, sw_fontname w)
    else if Num.eqb (sw_size w) size && String.eqb (sw_fontname w) font
    then ((kept ++ [sw_text w])%list, size, font)
    else (kept, size, font).
Proof.
  unfold dominant_words. rewrite fold_left_app. cbn [fold_left].
  destruct (fold_left _ pre _) as [[kept size] font].
  unfold usable_word. rewrite negb_involutive. reflexivity.
Qed.

Lemma filter_none {A} (p : A -> bool) (l : list A) :
  (forall x, In x l -> p x = false) -> filter p l = [].
Proof.
  induction l as [|a l IH]; intros H; [reflexivity|].
  cbn [filter]. rewrite (H a (or_introl eq_refl)). apply IH.
  intros x I. apply H. now right.
Qed.

Lemma eqb_refl_q (a : Q) : Num.eqb a a = true.
Proof. unfold Num.eqb. apply Qeq_bool_iff. reflexivity. Qed.

Lemma dominant_words_invariant (words : list SafeWord) :
  forall kept size font,
    dominant_words words = (kept, size, font) ->
    kept = map sw_text (filter (in_style size font) words) /\
    (0 <= size)%Q /\
    (forall w, In w words -> usable_word w = true -> (sw_size w <= size)%Q) /\
    (size = 0%Q /\ font = "" \/
     exists w, In w words /\ usable_word w = true /\
               sw_size w = size /\ sw_fontname w = font).
Proof.
  induction words as [|w pre IH] using rev_ind; intros kept size font Run.
  - injection Run as <- <- <-. cbn.
    split; [reflexivity|]. split; [discriminate|].
    split; [intros w []|]. now left.
  - rewrite dominant_words_snoc in Run.
    destruct (dominant_words pre) as [[k s] f].
    destruct (IH k s f eq_refl) as (K & P & M & O). clear IH.
    rewrite filter_app, map_app. cbn [filter].
    destruct (usable_word w) eqn:U; cbn [negb] in Run.
    + destruct (Num.ltb s (sw_size w)) eqn:L.
      * (* a larger word starts the title anew *)
        injection Run as <- <- <-. apply lt_of_ltb in L.
        assert (N : filter (in_style (sw_size w) (sw_fontname w)) pre = []).
        { apply filter_none. intros x I. unfold in_style.
          destruct (usable_word x) eqn:Ux; [|reflexivity].
          destruct (Num.eqb (sw_size x) (sw_size w)) eqn:E; [|reflexivity].
          exfalso. apply Qeq_bool_iff in E. pose proof (M x I Ux) as B.
          rewrite E in B. exact (Qlt_not_le _ _ L B). }
        rewrite N. unfold in_style at 1.
        rewrite U, eqb_refl_q, String.eqb_refl. cbn [andb map app].
        split; [reflexivity|].
        split; [apply Qlt_le_weak; eapply Qle_lt_trans; eassumption|].
        split.
        -- intros x I Ux. apply in_app_or in I as [I | [<- | []]].
           ++ apply Qlt_le_weak. eapply Qle_lt_trans; [|exact L]. now apply M.
           ++ apply Qle_refl.
        -- right. exists w. split; [apply in_or_app; right; now left|].
           now repeat split.
      * apply le_of_ltb_false in L.
        assert (Keep :
                  (forall x, In x (pre ++ [w]) -> usable_word x = true ->
                             (sw_size x <= s)%Q) /\
                  (s = 0%Q /\ f = "" \/
                   exists x, In x (pre ++ [w]) /\ usable_word x = true /\
                             sw_size x = s /\ sw_fontname x = f)).
        { split.
          - intros x I Ux. apply in_app_or in I as [I | [<- | []]];
              [now apply M | exact L].
          - destruct O as [O | (x & I & Ox)]; [now left|].
            right. exists x. split; [apply in_or_app; now left | exact Ox]. }
        destruct (Num.eqb (sw_size w) s && String.eqb (sw_fontname w) f) eqn:E;
          injection Run as <- <- <-;
          unfold in_style at 2; rewrite U; cbn [andb]; rewrite E.
        -- (* a word in the style of the title goes on the end of it *)
           cbn [map]. rewrite <- K. destruct Keep as [M' O'].
           split; [reflexivity|]. split; [exact P|]. split; assumption.
        -- cbn [map]. rewrite app_nil_r, <- K. destruct Keep as [M' O'].
           split; [reflexivity|]. split; [exact P|]. split; assumption.
    + (* a word that is too short, or a number, changes nothing *)
      injection Run as <- <- <-.
      unfold in_style at 2. rewrite U. cbn [andb map].
      rewrite app_nil_r, <- K.
      split; [reflexivity|]. split; [exact P|]. split.
      * intros x I Ux. apply in_app_or in I as [I | [<- | []]];
          [now apply M | congruence].
      * destruct O as [O | (x & I & Ox)]; [now left|].
        right. exists x. split; [apply in_or_app; now left | exact Ox].
Qed.

(** X15. What the loop of [find_title] keeps.  The size it ends with is
    the largest size of a usable word (a word of more than two characters
    that is not a number), or 0 when no usable word is larger than that; the
    font is the font of a usable word of that size; and the words kept are
    exactly the usable words of that size and that font, in the order of the
    page. *)
Theorem dominant_words_spec (words : list SafeWord)
  (kept : list string) (size : Q) (font : string) :
  dominant_words words = (kept, size, font) ->
  kept = map sw_text (filter (in_style size font) words) /\
  (0 <= size)%Q /\
  (forall w, In w words -> usable_word w = true -> (sw_size w <= size)%Q) /\
  (size = 0%Q /\ font = "" \/
   exists w, In w words /\ usable_word w = true /\
             sw_size w = size /\ sw_fontname w = font).
Proof. apply dominant_words_invariant. Qed.

Lemma dominant_words_spec_witness :
  ["Annual"; "Report"; "Department"]
  = map sw_text (filter (in_style 24%Q "Helvetica-Bold") sample_words).
Proof.
  apply (dominant_words_spec sample_words ["Annual"; "Report"; "Department"]
                             24%Q "Helvetica-Bold").
  vm_compute. reflexivity.
Defined.

End TitleWords.

(** ** The page of the title *)

Section ContentPage.
Import TitleFinder.

Lemma content_test (page : Plumber.Page) :
  match Plumber.extract_text page with
  | Ok (Some text) => truthy text && truthy (strip text)
  | _ => false
  end = has_content page.
Proof.
  unfold has_content. destruct (Plumber.extract_text page) as [[text|]|e];
    try reflexivity.
  now destruct text.
Qed.

Lemma find_first_content_page_from (pages : list Plumber.Page) :
  forall start : Z,
    match _find_first_content_page start pages with
    | (Some page, page_num) =>
        exists i, page_num = (start + Z.of_nat i)%Z /\
                  nth_error pages i = Some page /\
                  has_content page = true /\
                  Forall (fun p => has_content p = false) (firstn i pages)
    | (None, page_num) =>
        page_num = 1%Z /\ Forall (fun p => has_content p = false) pages
    end.
Proof.
  induction pages as [|page more IH]; intros start.
  - cbn. split; [reflexivity | constructor].
  - assert (Step : _find_first_content_page start (page :: more)
                   = if has_content page then (Some page, start)
                     else _find_first_content_page (start + 1) more).
    { rewrite <- content_test. cbn [_find_first_content_page].
      destruct (Plumber.extract_text page) as [[text|]|e]; reflexivity. }
    rewrite Step. destruct (has_content page) eqn:C.
    + exists 0. split; [cbn; lia|]. split; [reflexivity|].
      split; [exact C | constructor].
    + specialize (IH (start + 1)%Z).
      destruct (_find_first_content_page (start + 1) more) as [[found|] n].
      * destruct IH as (i & -> & Nth & Cf & Before). exists (S i).
        split; [lia|]. split; [exact Nth|]. split; [exact Cf|].
        cbn [firstn]. now constructor.
      * destruct IH as [-> Blank]. split; [reflexivity | now constructor].
Qed.

(** X16. The page that [find_title] reads.  [_find_first_content_page]
    returns the first page whose text can be read and is not blank, with
    its number counted from 1: every page before it has no such text.  When
    no page has any, it returns no page and the number 1. *)
Theorem first_content_page_spec (pages : list Plumber.Page) :
  match _find_first_content_page 1 pages with
  | (Some page, page_num) =>
      exists i, page_num = Z.of_nat (S i) /\
                nth_error pages i = Some page /\
                has_content page = true /\
                Forall (fun p => has_content p = false) (firstn i pages)
  | (None, page_num) =>
      page_num = 1%Z /\ Forall (fun p => has_content p = false) pages
  end.
Proof.
  pose proof (find_first_content_page_from pages 1) as H.
  destruct (_find_first_content_page 1 pages) as [[page|] n]; [|exact H].
  destruct H as (i & -> & H). exists i. split; [lia | exact H].
Qed.

End ContentPage.

(** ** Titles that the clean-up leaves alone *)

Section Deduplication.
Import TitleFinder.

Lemma triple_of_run (s : string) :
  has_run s = true -> exists c, c <> newline /\ triple_in c s.
Proof.
  induction s as [|a s IH]; [discriminate|].
  cbn [has_run]. destruct (run_head (String a s)) as [[c r]|] eqn:E.
  - intros _. apply run_head_some in E as (NE & rest & Es & _).
    exists c. split; [exact NE|]. exists "", rest. exact Es.
  - intros H. destruct (IH H) as (c & NE & pre & post & ->).
    exists c. split; [exact NE|]. now exists (String a pre), post.
Qed.

Lemma sub_dedup_len (fuel : nat) : forall p s,
  len s < fuel ->
  len (sub_dedup fuel p s) <= len s /\
  (has_run s = true -> len (sub_dedup fuel p s) + 2 <= len s).
Proof.
  induction fuel as [|fuel IH]; intros p s L; [lia|].
  rewrite sub_dedup_step.
  destruct s as [|c s]; [split; [cbn; lia | discriminate]|].
  rewrite len_cons in L. cbn [has_run].
  destruct (run_head (String c s)) as [[c' r]|] eqn:E.
  - apply run_head_some in E as (_ & rest & [= <- ->] & ->).
    pose proof (len_drop_run c rest) as Lr. rewrite !len_cons in *.
    destruct (IH (Some c) (drop_run c rest)) as [B _]; [lia|].
    split; [lia | intros _; lia].
  - destruct (IH (Some c) s) as [B R]; [lia|]. rewrite !len_cons.
    split; [lia|]. intros H. specialize (R H). lia.
Qed.

(** X17. Which titles [_deduplicate_title] changes.  It returns a text
    as it is exactly when no character other than the newline stands three
    times in a row in it.  It never makes a text longer, and a text that it
    changes loses at least two characters. *)
Theorem deduplicate_title_fixed_points (text : string) :
  (_deduplicate_title text = text <->
   forall c, triple_in c text -> c = newline) /\
  len (_deduplicate_title text) <= len text /\
  (_deduplicate_title text <> text ->
   len (_deduplicate_title text) + 2 <= len text).
Proof.
  assert (Fixed : has_run text = false -> _deduplicate_title text = text).
  { intros R. rewrite deduplicate_title_scan. apply sub_dedup_fixed; [lia|].
    exact R. }
  destruct (sub_dedup_len (S (len text)) None text) as [Le Lt]; [lia|].
  rewrite <- deduplicate_title_scan in Le, Lt.
  split; [split|split].
  - intros E c T. destruct (ascii_dec c newline) as [-> | NE]; [reflexivity|].
    pose proof (has_run_of_triple c text NE T) as R.
    rewrite <- E, deduplicate_title_scan, sub_dedup_no_run in R;
      [discriminate | lia].
  - intros H. apply Fixed. destruct (has_run text) eqn:R; [|reflexivity].
    apply triple_of_run in R as (c & NE & T). now apply H in T.
  - exact Le.
  - intros NE. apply Lt. destruct (has_run text); [reflexivity|].
    exfalso. apply NE, Fixed. reflexivity.
Qed.

End Deduplication.

(** ** Pages of plain text are no covers *)

Section PlainPages.
Import cover_page.

(** without the short cut the classifier does not look at the table of
    contents *)
Lemma analyze_without_toc (page : Fitz.Page) (document : Fitz.Document)
  (hp : Heuristics) :
  no_toc_shortcut page document ->
  analyze page document hp
  = analyze page
      {| Fitz.doc_name := Fitz.doc_name document;
         Fitz.doc_pages := Fitz.doc_pages document;
         Fitz.doc_toc := [] |} hp.
Proof.
  intros N. unfold analyze. cbn [Fitz.doc_toc].
  destruct (Fitz.doc_toc document) as [|first others] eqn:T; [reflexivity|].
  assert (S : ((match Fitz.toc_tail first with p :: _ => p | [] => (-1)%Z end
                =? Fitz.page_number page + 1)%Z
               && (Fitz.page_number page =? 0)%Z = true)
              \/ (Fitz.page_number page =? 0)%Z = false).
  { destruct (Z.eqb_spec (Fitz.page_number page) 0) as [Z | NZ]; [|now right].
    left. destruct N as [N | [(f & o & m & E & P) | N]];
      [congruence | | contradiction].
    rewrite T in E. injection E as <- <-. rewrite P, Z. reflexivity. }
  destruct S as [-> | S]; [reflexivity|].
  rewrite S, !andb_false_r. reflexivity.
Qed.

Lemma scaled_up (c r : Q) : (0 <= c)%Q -> (1 <= r)%Q -> (c <= c * r)%Q.
Proof.
  intros C R. rewrite <- (Qmult_1_r c) at 1.
  rewrite !(Qmult_comm c). now apply Qmult_le_compat_r.
Qed.

(** X18. A page of plain text is no cover.  When the table of contents
    does not settle the matter, a page whose text is all of one size is a
    content page, whatever its length, its images and the place of its
    lines: no text on it is prominent.  This holds for every setting of the
    heuristics that asks for at least one prominent element and for a
    prominence ratio of at least 1.2, the defaults among them. *)
Theorem uniform_text_is_content (page : Fitz.Page)
  (document : Fitz.Document) (hp : Heuristics) (c : Q) :
  no_toc_shortcut page document ->
  uniform_text page c ->
  (12 # 10 <= min_prominent_font_ratio hp)%Q ->
  1 <= min_prominent_elements hp ->
  _analyze_page_for_cover_characteristics page document hp = false.
Proof.
  intros N (NE & C & F) R M.
  assert (R1 : (1 <= min_prominent_font_ratio hp)%Q)
    by (eapply Qle_trans; [|exact R]; discriminate).
  unfold _analyze_page_for_cover_characteristics.
  rewrite (analyze_without_toc page document hp N).
  unfold analyze. cbn [Fitz.doc_toc].
  change (flat_map Fitz.line_spans (lines_of page)) with (page_spans page).
  destruct (page_spans page) as [|first_span more_spans] eqn:Sp;
    [congruence|].
  set (spans := first_span :: more_spans) in *.
  assert (Fs : Forall (fun x => (x == c)%Q) (map Fitz.span_size spans)).
  { apply Forall_map. exact F. }
  destruct (average_of_equal c (map Fitz.span_size spans))
    as (avg & Ea & Havg); [discriminate | exact Fs |].
  rewrite Ea. cbn [bind].
  match goal with
  | |- context [max_body_text_lines hp <? ?n] =>
      destruct (max_body_text_lines hp <? n); [reflexivity|]
  end.
  rewrite no_prominent_texts.
  - cbn [List.length].
    destruct (Nat.leb_spec (min_prominent_elements hp) 0) as [L | _]; [lia|].
    reflexivity.
  - intros span I. apply ltb_false_of_le.
    rewrite Forall_forall in F. rewrite (F span I), Havg.
    apply scaled_up; assumption.
Qed.

Lemma uniform_text_is_content_witness :
  _analyze_page_for_cover_characteristics plain_page plain_document defaults
  = false.
Proof.
  apply (uniform_text_is_content plain_page plain_document defaults 11%Q).
  - left. reflexivity.
  - split; [discriminate|]. split; [discriminate|].
    repeat constructor.
  - discriminate.
  - cbn. lia.
Defined.

End PlainPages.

(** ** Lines in the margins and in the middle *)

Section Margins.
Import PDFOutlineExtractor.

Lemma eqb_false_of_neq (a b : Q) : ~ (a == b)%Q -> Num.eqb a b = false.
Proof.
  intros NE. unfold Num.eqb. destruct (Qeq_bool a b) eqn:E; [|reflexivity].
  apply Qeq_bool_eq in E. contradiction.
Qed.

Lemma passed_over_header_footer (self : t) (line : Fitz.Line) :
  ~ (snd (page_dimensions self) == 0)%Q ->
  passed_over self line ->
  _is_header_footer self (Fitz.line_bbox line) = Ok true.
Proof.
  intros H P. unfold _is_header_footer, Num.div, header_footer_threshold.
  rewrite (eqb_false_of_neq _ _ H). cbn [bind].
  destruct P as [Top | [Bottom | Middle]].
  - rewrite (ltb_of_lt _ _ Top). reflexivity.
  - assert (B : (1 - (1 # 10)
                 < Fitz.y0 (Fitz.line_bbox line) / snd (page_dimensions self))%Q).
    { eapply Qle_lt_trans; [|exact Bottom]. discriminate. }
    rewrite (ltb_of_lt _ _ B), orb_true_r. reflexivity.
  - rewrite (ltb_of_lt _ _ Middle). now destruct (_ || _).
Qed.

Lemma merge_lines_passed_over (self : t) (lines : list Fitz.Line) :
  Forall (fun line => _is_header_footer self (Fitz.line_bbox line) = Ok true)
         lines ->
  forall current blocks,
    merge_lines self lines current blocks = merge_lines self [] current blocks.
Proof.
  induction 1 as [|line lines Hl _ IH]; intros current blocks; [reflexivity|].
  cbn [merge_lines]. rewrite Hl. cbn [bind]. apply IH.
Qed.

Lemma title_candidates_passed_over (self : t) (lines : list Fitz.Line) :
  Forall (fun line => _is_header_footer self (Fitz.line_bbox line) = Ok true)
         lines ->
  title_candidates_of self lines = Ok [].
Proof.
  induction 1 as [|line lines Hl _ IH]; [reflexivity|].
  cbn [title_candidates_of]. rewrite Hl. cbn [bind]. exact IH.
Qed.

(** X19. Text in the margins and in the middle is not seen.  On a page
    whose height is not 0, when every line of text starts in the top or in
    the bottom tenth of the page or has its middle less than 20 points from
    the middle of the page, the assembler returns no block, so that the page
    gives no heading, and the search for a title on that page returns the
    empty text. *)
Theorem centred_text_is_passed_over (self : t) (page : Fitz.Page) :
  ~ (snd (page_dimensions self) == 0)%Q ->
  Forall (passed_over self) (text_lines page) ->
  _get_clean_text_blocks self page = Ok [] /\
  forall doc,
    nth_error (Fitz.doc_pages doc) (start_page_idx self) = Some page ->
    _extract_document_title self doc = Ok "".
Proof.
  intros H P.
  assert (F : Forall (fun line =>
                        _is_header_footer self (Fitz.line_bbox line) = Ok true)
                     (text_lines page)).
  { eapply Forall_impl; [|exact P]. intros line. cbv beta.
    now apply passed_over_header_footer. }
  split.
  - unfold _get_clean_text_blocks. now rewrite merge_lines_passed_over.
  - intros doc Nth. unfold _extract_document_title.
    rewrite Nth, (title_candidates_passed_over self _ F). reflexivity.
Qed.

Lemma centred_text_is_passed_over_witness :
  _get_clean_text_blocks title_extractor title_page = Ok [] /\
  _extract_document_title title_extractor (document_with_toc 1) = Ok "".
Proof.
  destruct (centred_text_is_passed_over title_extractor title_page)
    as [Blocks Title].
  - discriminate.
  - constructor; [|constructor]. right. right. reflexivity.
  - split; [exact Blocks|]. apply Title. reflexivity.
Defined.

End Margins.

(** ** Where the title of a document comes from *)

Section DocumentTitle.
Import PDFOutlineExtractor.

Lemma header_footer_false (self : t) (line : Fitz.Line) :
  _is_header_footer self (Fitz.line_bbox line) = Ok false ->
  Num.div (Fitz.y0 (Fitz.line_bbox line)) (snd (page_dimensions self))
  = Ok (Fitz.y0 (Fitz.line_bbox line) / snd (page_dimensions self))%Q /\
  (1 # 10 <= Fitz.y0 (Fitz.line_bbox line) / snd (page_dimensions self))%Q /\
  (20 <= Qabs ((Fitz.x0 (Fitz.line_bbox line) + Fitz.x1 (Fitz.line_bbox line)) / 2
               - fst (page_dimensions self) / 2))%Q.
Proof.
  unfold _is_header_footer, header_footer_threshold.
  destruct (Num.div _ _) as [r|e] eqn:D; cbn [bind]; [|discriminate].
  pose proof (div_ok _ _ _ D) as ->.
  destruct (Num.ltb _ (1 # 10)) eqn:Top; [discriminate|]. cbn [orb].
  destruct (Num.ltb (1 - (1 # 10)) _); [discriminate|].
  destruct (Num.ltb (Qabs _) 20) eqn:Mid; [discriminate|]. intros _.
  split; [reflexivity|]. split; now apply le_of_ltb_false.
Qed.

Lemma title_candidates_origin (self : t) (lines : list Fitz.Line) :
  forall cands,
    title_candidates_of self lines = Ok cands ->
    Forall (fun cand =>
              exists line, In line lines /\
                           c_text cand = title_line_text line /\
                           title_band self line) cands.
Proof.
  induction lines as [|line lines IH]; intros cands Run;
    cbn [title_candidates_of] in Run.
  - injection Run as <-. constructor.
  - assert (Weaken :
              forall l,
                Forall (fun cand =>
                          exists line0, In line0 lines /\
                                        c_text cand = title_line_text line0 /\
                                        title_band self line0) l ->
                Forall (fun cand =>
                          exists line0, In line0 (line :: lines) /\
                                        c_text cand = title_line_text line0 /\
                                        title_band self line0) l).
    { intros l. apply Forall_impl. intros cand (line0 & I & H).
      exists line0. split; [now right | exact H]. }
    destruct (_is_header_footer self (Fitz.line_bbox line)) as [[|]|e] eqn:HF;
      cbn [bind] in Run; [now apply Weaken, IH | | discriminate].
    fold (title_line_text line) in Run.
    destruct (truthy (title_line_text line)) eqn:T; cbn [negb] in Run;
      [|now apply Weaken, IH].
    apply header_footer_false in HF as (D & Top & Mid).
    rewrite D in Run. cbn [bind] in Run.
    destruct (title_candidates_of self lines) as [rest|e]; cbn [bind] in Run;
      [|discriminate].
    specialize (IH rest eq_refl). apply Weaken in IH.
    destruct (Num.ltb _ (4 # 10)) eqn:Band; injection Run as <-; [|exact IH].
    constructor; [|exact IH].
    exists line. split; [now left|]. split; [reflexivity|].
    split; [intros E; rewrite E in T; discriminate|].
    split; [exact Top|]. split; [now apply lt_of_ltb | exact Mid].
Qed.

Lemma in_skipn {A} (n : nat) (l : list A) (x : A) :
  In x (skipn n l) -> In x l.
Proof.
  intros I. rewrite <- (firstn_skipn n l). apply in_or_app. now right.
Qed.

Lemma merge_title_parts_chosen (self : t) (parts : list TitleCandidate) :
  forall last acc out,
    merge_title_parts self parts last acc = Ok out ->
    exists chosen,
      out = (acc ++ map c_text chosen)%list /\
      forall x, In x chosen -> In x parts.
Proof.
  induction parts as [|next more IH]; intros last acc out Run;
    cbn [merge_title_parts] in Run.
  - injection Run as <-. exists []. cbn [map]. rewrite app_nil_r.
    split; [reflexivity | intros x []].
  - assert (Stop : Ok acc = Ok out ->
                   exists chosen,
                     out = (acc ++ map c_text chosen)%list /\
                     forall x, In x chosen -> In x (next :: more)).
    { intros [= <-]. exists []. cbn [map]. rewrite app_nil_r.
      split; [reflexivity | intros x []]. }
    destruct (_ && _ && _); [|now apply Stop].
    destruct (Num.div _ _) as [y_ratio|e]; cbn [bind] in Run; [|discriminate].
    destruct (Num.ltb y_ratio (1 # 2)); [|now apply Stop].
    cbv zeta in Run.
    destruct (_ || _); [now apply Stop|].
    apply IH in Run as (chosen & -> & Inc). exists (next :: chosen).
    rewrite <- app_assoc. split; [reflexivity|].
    intros x [<- | I]; [now left | right; now apply Inc].
Qed.

Lemma lines_of_candidates (P : Fitz.Line -> Prop) (cands : list TitleCandidate) :
  Forall (fun cand => exists line, c_text cand = title_line_text line /\ P line)
         cands ->
  exists lines,
    map c_text cands = map title_line_text lines /\ Forall P lines.
Proof.
  induction 1 as [|cand cands (line & E & H) _ (lines & El & Hl)].
  - now exists [].
  - exists (line :: lines). cbn [map]. rewrite E, El. split; [reflexivity|].
    now constructor.
Qed.

(** X20. Where the title of a document comes from.  What
    [_extract_document_title] returns is made of the texts of lines of the
    page on which the outline starts, joined by single spaces.  Each of
    these lines has text, starts below the top tenth and above four tenths
    of the height of the page, and has its middle at least 20 points from
    the middle of the page: a line in the top margin, or a centred one, is
    never part of the title. *)
Theorem document_title_lines (self : t) (doc : Fitz.Document)
  (title : string) :
  _extract_document_title self doc = Ok title ->
  exists lines,
    title = join " " (map title_line_text lines) /\
    Forall (fun line =>
              In line (title_page_lines self doc) /\ title_band self line)
           lines.
Proof.
  unfold _extract_document_title, title_page_lines.
  destruct (nth_error (Fitz.doc_pages doc) (start_page_idx self)) as [page|];
    [|intros [= <-]; now exists []].
  destruct (title_candidates_of self (text_lines page)) as [cands|e] eqn:C;
    cbn [bind]; [|discriminate].
  apply title_candidates_origin in C. rewrite Forall_forall in C.
  assert (S : forall x,
                In x (Seq.sorted title_before cands) ->
                exists line,
                  c_text x = title_line_text line /\
                  In line (text_lines page) /\ title_band self line).
  { intros x I. apply sorted_in, C in I as (line & I & E & B). now exists line. }
  destruct (Seq.sorted title_before cands) as [|top more];
    [intros [= <-]; now exists []|].
  set (sorted := top :: more) in *.
  set (start := match main_title_index (c_size top) 0 sorted with
                | Some i => i
                | None => 0
                end).
  destruct (merge_title_parts _ _ _ _) as [parts|e] eqn:M; cbn [bind];
    [|discriminate].
  intros [= <-].
  apply merge_title_parts_chosen in M as (chosen & -> & Inc).
  destruct (lines_of_candidates
              (fun line => In line (text_lines page) /\ title_band self line)
              (nth start sorted top :: chosen)) as (lines & E & F).
  { apply Forall_forall. intros x [<- | I].
    - apply S. destruct (nth_in_or_default start sorted top) as [I | ->];
        [exact I | now left].
    - apply S. eapply in_skipn, Inc, I. }
  exists lines. split; [|exact F]. now rewrite <- E.
Qed.

Lemma document_title_lines_witness :
  exists lines,
    sample_title = join " " (map title_line_text lines) /\
    Forall (fun line =>
              In line (title_page_lines sample_extractor sample_document) /\
              title_band sample_extractor line)
           lines.
Proof.
  apply (document_title_lines sample_extractor sample_document sample_title).
  vm_compute. reflexivity.
Defined.

End DocumentTitle.

(** ** The whole program *)

Section WholeProgram.
Import main.

Variable fitz_load : string -> result Fitz.Document.
Variable pdfplumber_load : string -> result Plumber.PDF.
Variable json_dump : Result -> string.

Lemma truthy_of_nonempty (s : string) : s <> "" -> truthy s = true.
Proof. destruct s; [congruence | reflexivity]. Qed.

Lemma analyze_keeps_title (self : PDFOutlineExtractor.t) (doc : Fitz.Document) :
  PDFOutlineExtractor.document_title
    (snd (PDFOutlineExtractor._analyze_document_styles self doc))
  = PDFOutlineExtractor.document_title self.
Proof.
  unfold PDFOutlineExtractor._analyze_document_styles.
  apply (count_pages_counted
           (firstn 20 (skipn (PDFOutlineExtractor.start_page_idx self)
                             (Fitz.doc_pages doc)))
           self).
Qed.

(** with a title of its own, the extractor returns a well nested list or a
    dictionary with that title and no entry *)
Lemma extract_outline_titled
  (fitz_open : string -> result Fitz.Document) (self : PDFOutlineExtractor.t)
  (pdf_path : string) :
  truthy (PDFOutlineExtractor.document_title self) = true ->
  exists r self',
    PDFOutlineExtractor.extract_outline fitz_open self pdf_path = (Ok r, self') /\
    match r with
    | PDFOutlineExtractor.OutlineList outline => well_nested outline
    | PDFOutlineExtractor.OutlineDict title outline =>
        title = PDFOutlineExtractor.document_title self /\ outline = []
    end.
Proof.
  intros T.
  unfold PDFOutlineExtractor.extract_outline,
         PDFOutlineExtractor.extract_outline_try,
         PDFOutlineExtractor.fallback.
  destruct (fitz_open pdf_path) as [doc|e];
    [|do 2 eexists; split; [reflexivity|]; now rewrite T].
  destruct (Fitz.doc_pages doc) as [|first_page pages];
    [do 2 eexists; split; [reflexivity|]; now rewrite T|].
  set (self0 := PDFOutlineExtractor.with_page_dimensions self _).
  pose proof (analyze_keeps_title self0 doc) as T1.
  destruct (PDFOutlineExtractor._analyze_document_styles self0 doc)
    as [[[]|e] self1]; cbn [snd] in T1;
    change (PDFOutlineExtractor.document_title self0)
      with (PDFOutlineExtractor.document_title self) in T1;
    [|do 2 eexists; split; [reflexivity|]; now rewrite T1, T].
  rewrite T1, T. cbn [negb].
  destruct (PDFOutlineExtractor._extract_headings_from_content self1 doc)
    as [cands|e] eqn:E;
    [|do 2 eexists; split; [reflexivity|]; now rewrite T1, T].
  apply extract_headings_valid in E.
  destruct (refine_fresh_nesting cands E) as (out & -> & N).
  do 2 eexists. split; [reflexivity | exact N].
Qed.

(** X21. [process_pdf] always completes.  For a path with a file
    name, whatever the two readers find or raise, [process_pdf] does not
    raise; the title of its record is not empty; the outline of the record
    is a list that is well nested, with levels H1 to H3, or the dictionary
    of the fall-back, which repeats the title and has no entry.  The record
    is written under the output path when that can be written, and no other
    file changes. *)
Theorem process_pdf_completes (fs : Files) (input_path output_path : string) :
  file_stem input_path <> "" ->
  exists record after,
    process_pdf_result fitz_load pdfplumber_load fs input_path = Ok record /\
    process_pdf fitz_load pdfplumber_load json_dump fs input_path output_path
    = Ok after /\
    r_title record <> "" /\
    match r_outline record with
    | PDFOutlineExtractor.OutlineList outline => well_nested outline
    | PDFOutlineExtractor.OutlineDict title outline =>
        title = r_title record /\ outline = []
    end /\
    contents after output_path
    = (if writable fs output_path then Some (json_dump record)
       else contents fs output_path) /\
    forall p, p <> output_path -> contents after p = contents fs p.
Proof.
  intros Stem. pose proof (truthy_of_nonempty _ Stem) as TS.
  assert (R : exists record,
                process_pdf_result fitz_load pdfplumber_load fs input_path
                = Ok record /\
                truthy (r_title record) = true /\
                match r_outline record with
                | PDFOutlineExtractor.OutlineList outline => well_nested outline
                | PDFOutlineExtractor.OutlineDict title outline =>
                    title = r_title record /\ outline = []
                end).
  { unfold process_pdf_result.
    set (title := match TitleFinder.find_title _ _ _ with
                  | (Ok title_info, _) => fst title_info
                  | (Raise _, _) => file_stem input_path
                  end).
    assert (Tt : truthy title = true).
    { subst title. unfold TitleFinder.find_title.
      destruct (open_with pdfplumber_load fs input_path) as [pdf|e];
        [|exact TS].
      destruct (TitleFinder._find_first_content_page 1 (Plumber.pages pdf))
        as [[page|] n]; [|exact TS].
      destruct (TitleFinder.dominant_words _) as [[k s] f].
      cbn [fst TitleFinder.title].
      destruct (truthy (TitleFinder._deduplicate_title _)) eqn:E;
        [exact E | exact TS]. }
    destruct (extract_outline_titled
                (open_with fitz_load fs)
                (PDFOutlineExtractor.__init__ title
                   (cover_page.is_cover_page (open_with fitz_load fs)
                                             input_path 0 cover_page.defaults))
                input_path Tt) as (r & self' & -> & Shape).
    eexists. split; [reflexivity|]. split; [exact Tt | exact Shape]. }
  destruct R as (record & R & Tt & Shape).
  exists record,
    (if writable fs output_path
     then write fs output_path (json_dump record) else fs).
  split; [exact R|]. split.
  { unfold process_pdf. rewrite R. cbn [bind].
    now destruct (writable fs output_path). }
  split; [intros E; rewrite E in Tt; discriminate|].
  split; [exact Shape|]. split.
  - destruct (writable fs output_path); [|reflexivity].
    cbn. now rewrite String.eqb_refl.
  - intros p NE. destruct (writable fs output_path); [|reflexivity].
    cbn. apply String.eqb_neq in NE. now rewrite NE.
Qed.

End WholeProgram.

Section WholeProgramExample.
Import main.

Lemma process_pdf_completes_witness :
  exists record after,
    process_pdf_result load_sample load_no_words report_files
                       "input/report.pdf" = Ok record /\
    process_pdf load_sample load_no_words dump_title report_files
                "input/report.pdf" "output/report.json" = Ok after /\
    r_title record <> "" /\
    match r_outline record with
    | PDFOutlineExtractor.OutlineList outline => well_nested outline
    | PDFOutlineExtractor.OutlineDict title outline =>
        title = r_title record /\ outline = []
    end /\
    contents after "output/report.json"
    = (if writable report_files "output/report.json"
       then Some (dump_title record)
       else contents report_files "output/report.json") /\
    forall p, p <> "output/report.json" ->
              contents after p = contents report_files p.
Proof.
  apply (process_pdf_completes load_sample load_no_words dump_title
                               report_files
                               "input/report.pdf" "output/report.json").
  vm_compute. discriminate.
Defined.

End WholeProgramExample.

(** ** Where the entries of the outline come from *)

Section Entries.
Import PDFOutlineExtractor.

Lemma sorted_app {A} (R : A -> A -> Prop) (l1 l2 : list A) :
  StronglySorted R l1 -> StronglySorted R l2 ->
  (forall x y, In x l1 -> In y l2 -> R x y) ->
  StronglySorted R (l1 ++ l2).
Proof.
  induction 1 as [|a l1 S1 IH F]; intros S2 Le; [exact S2|].
  cbn [app]. constructor.
  - apply IH; [exact S2|]. intros x y Ix Iy. apply Le; [now right | exact Iy].
  - apply Forall_app. split; [exact F|].
    apply Forall_forall. intros y Iy. apply Le; [now left | exact Iy].
Qed.

Lemma sorted_const (n : Z) (l : list Z) :
  Forall (fun x => x = n) l -> StronglySorted Z.le l.
Proof.
  induction 1 as [|x l -> F IH]; constructor; [exact IH|].
  eapply Forall_impl; [|exact F]. intros y ->. lia.
Qed.

Lemma subseq_map {A B} (f : A -> B) (l : list A) : forall s,
  subseq s l -> subseq (map f s) (map f l).
Proof.
  induction l as [|y l IH]; intros s S.
  - destruct s; [exact I | contradiction].
  - destruct s as [|a s]; [exact I|]. cbn [map].
    destruct S as [[<- S] | S].
    + left. split; [reflexivity | now apply IH].
    + right. apply (IH (a :: s)). exact S.
Qed.

Lemma map_nth_seq {A} (d : A) (l : list A) :
  map (fun r => nth r l d) (seq 0 (List.length l)) = l.
Proof.
  induction l as [|a l IH]; [reflexivity|].
  cbn [List.length seq map nth]. rewrite <- seq_shift, map_map.
  cbn [nth]. now rewrite IH.
Qed.

Lemma scan_blocks_origin (self : t) (styles : list HeadingStyle) (n : Z)
  (all_blocks : list TextBlock) :
  forall blocks prev cands out prev',
    (forall b, In b blocks -> In b all_blocks) ->
    scan_blocks self (_determine_body_text_size self) styles n blocks prev cands
    = Ok (out, prev') ->
    exists new,
      out = (cands ++ new)%list /\
      Forall (fun e =>
                e_page e = n /\
                exists block,
                  In block all_blocks /\ e_text e = b_text block /\
                  _is_heading_candidate block (_determine_body_text_size self)
                  = true) new.
Proof.
  induction blocks as [|block more IH]; intros prev cands out prev' Sub Run;
    cbn [scan_blocks] in Run.
  - injection Run as <- <-. exists []. rewrite app_nil_r.
    split; [reflexivity | constructor].
  - assert (Sub' : forall b, In b more -> In b all_blocks)
      by (intros b Ib; apply Sub; now right).
    destruct (_is_heading_candidate block (_determine_body_text_size self))
      eqn:C.
    + destruct (_determine_heading_level self block styles prev) as [level|e];
        cbn [bind] in Run; [|discriminate].
      apply IH in Run as (new & -> & F); [|exact Sub'].
      eexists (_ :: new). rewrite <- app_assoc. split; [reflexivity|].
      constructor; [|exact F]. cbn [e_page e_text].
      split; [reflexivity|]. exists block.
      split; [apply Sub; now left|]. split; [reflexivity | exact C].
    + apply IH in Run as (new & -> & F); [|exact Sub']. now exists new.
Qed.

Lemma scan_pages_origin (self : t) (styles : list HeadingStyle)
  (pages : list Fitz.Page) :
  forall n prev cands out,
    scan_pages self (_determine_body_text_size self) styles n pages prev cands
    = Ok out ->
    exists new,
      out = (cands ++ new)%list /\
      StronglySorted Z.le (map e_page new) /\
      Forall (fun e =>
                exists i page,
                  e_page e = (n + Z.of_nat i)%Z /\
                  nth_error pages i = Some page /\
                  heading_on self page e) new.
Proof.
  induction pages as [|page more IH]; intros n prev cands out Run;
    cbn [scan_pages] in Run.
  - injection Run as <-. exists []. rewrite app_nil_r.
    split; [reflexivity|]. split; constructor.
  - assert (Shift :
              forall l,
                Forall (fun e =>
                          exists i pg,
                            e_page e = (n + 1 + Z.of_nat i)%Z /\
                            nth_error more i = Some pg /\
                            heading_on self pg e) l ->
                Forall (fun e =>
                          exists i pg,
                            e_page e = (n + Z.of_nat i)%Z /\
                            nth_error (page :: more) i = Some pg /\
                            heading_on self pg e) l).
    { intros l. apply Forall_impl. intros e (i & pg & Ei & Nth & H).
      exists (S i), pg. split; [lia|]. split; [exact Nth | exact H]. }
    destruct (_is_form_page self page) as [[|]|e] eqn:Form; cbn [bind] in Run;
      [| |discriminate].
    + apply IH in Run as (new & -> & S & F). exists new.
      split; [reflexivity|]. split; [exact S | now apply Shift].
    + destruct (_get_clean_text_blocks self page) as [blocks|e] eqn:B;
        cbn [bind] in Run; [|discriminate].
      destruct (scan_blocks _ _ _ _ _ _ _) as [[c1 prev1]|e] eqn:SB;
        cbn [bind fst snd] in Run; [|discriminate].
      apply (scan_blocks_origin self styles n blocks) in SB
        as (new1 & -> & F1); [|auto].
      apply IH in Run as (new2 & -> & S2 & F2). apply Shift in F2.
      exists (new1 ++ new2)%list. rewrite app_assoc.
      split; [reflexivity|]. split.
      * rewrite map_app. apply sorted_app; [|exact S2|].
        -- apply (sorted_const n). apply Forall_map.
           eapply Forall_impl; [|exact F1]. now intros e [E _].
        -- intros x y Ix Iy.
           apply in_map_iff in Ix as (ex & <- & Ix).
           apply in_map_iff in Iy as (ey & <- & Iy).
           rewrite Forall_forall in F1, F2.
           destruct (F1 ex Ix) as [-> _].
           destruct (F2 ey Iy) as (i & pg & -> & _). lia.
      * apply Forall_app. split; [|exact F2].
        eapply Forall_impl; [|exact F1].
        intros e (E & block & Ib & Et & C). exists 0, page.
        split; [lia|]. split; [reflexivity|]. split; [exact Form|].
        now exists blocks, block.
Qed.

Lemma headings_origin (self : t) (doc : Fitz.Document) (cands : list Entry) :
  _extract_headings_from_content self doc = Ok cands ->
  StronglySorted Z.le (map e_page cands) /\
  Forall (entry_of self doc) cands.
Proof.
  unfold _extract_headings_from_content.
  destruct (font_stats self); [intros [= <-]; split; constructor|].
  destruct (_identify_heading_styles _ _) as [[|st styles]|e]; cbn [bind];
    [intros [= <-]; split; constructor | | discriminate].
  intros Run. apply scan_pages_origin in Run as (new & -> & S & F).
  cbn [app]. split; [exact S|].
  eapply Forall_impl; [|exact F]. intros e (i & page & E & Nth & H).
  split; [lia|]. exists page. split; [|exact H].
  rewrite E, <- Nat2Z.inj_add, Nat2Z.id.
  rewrite nth_error_skipn in Nth. exact Nth.
Qed.

(** the refiner picks some of the candidates and keeps their texts and
    pages *)
Lemma refine_fresh_picks (cands outline : list Entry) :
  refine_fresh cands = Ok outline ->
  exists picked,
    subseq picked cands /\
    Forall2 (fun o c => e_text o = e_text c /\ e_page o = e_page c)
            outline picked.
Proof.
  unfold refine_fresh.
  destruct (_refine_hierarchy _ _) as [[out h']|e] eqn:R; cbn [bind fst snd];
    [|discriminate].
  intros [= <-].
  apply refine_hierarchy_frame in R as (S & _ & T & _).
  exists (map (fresh_store cands) out). split.
  - rewrite <- (map_nth_seq blank_entry cands) at 2.
    now apply (subseq_map (fresh_store cands)).
  - unfold entries. clear S. induction out as [|r out IH]; constructor.
    + apply T.
    + exact IH.
Qed.

(** X23. Every entry of the outline is a heading of its page.  When
    [extract_outline] returns a list for a document, the entries come in
    the order of their pages, and every entry carries the number, counted
    from 0, of a page of the document that is no form page and is not a
    cover left out; on that page a block of text has the text of the entry
    and is accepted by [_is_heading_candidate]. *)
Theorem outline_entries_sound
  (fitz_open : string -> result Fitz.Document) (self self' : t)
  (pdf_path : string) (doc : Fitz.Document) (outline : list Entry) :
  fitz_open pdf_path = Ok doc ->
  extract_outline fitz_open self pdf_path = (Ok (OutlineList outline), self') ->
  StronglySorted Z.le (map e_page outline) /\
  Forall (entry_of self' doc) outline.
Proof.
  intros Open. unfold extract_outline, extract_outline_try, fallback.
  rewrite Open.
  destruct (Fitz.doc_pages doc) as [|first_page pages] eqn:P; [discriminate|].
  destruct (_analyze_document_styles _ doc) as [[[]|e] self1]; [|discriminate].
  destruct (if negb (truthy (document_title self1)) then _ else _)
    as [[[]|e] self2]; [|discriminate].
  destruct (_extract_headings_from_content self2 doc) as [cands|e] eqn:E;
    [|discriminate].
  destruct (refine_fresh cands) as [refined|e] eqn:R; [|discriminate].
  intros [= <- <-].
  apply headings_origin in E as (S & F).
  apply refine_fresh_picks in R as (picked & Sub & Same).
  assert (Sp : StronglySorted Z.le (map e_page picked)).
  { eapply subseq_sorted; [exact S | now apply subseq_map]. }
  assert (Fp : Forall (entry_of self2 doc) picked).
  { apply Forall_forall. intros e I. rewrite Forall_forall in F.
    apply F. eapply subseq_in; eassumption. }
  clear S F Sub.
  induction Same as [|o c refined picked [Et Ep] Same IH]; [split; constructor|].
  inversion Sp as [|? ? Sp' Le]. inversion Fp as [|? ? Fc Fp']. subst.
  destruct (IH Sp' Fp') as [So Fo]. cbn [map]. split.
  - constructor; [exact So|]. rewrite Ep.
    clear - Le Same. revert Le. induction Same as [|o' c' ? ? [_ Ep'] _ IH'];
      [constructor|].
    cbn [map]. intros Le. inversion Le. subst.
    constructor; [now rewrite Ep' | now apply IH'].
  - constructor; [|exact Fo].
    destruct Fc as (Lo & page & Nth & Form & blocks & block & B & Ib & Tb & C).
    unfold entry_of, heading_on. rewrite Ep, Et.
    split; [exact Lo|]. exists page. split; [exact Nth|].
    split; [exact Form|]. now exists blocks, block.
Qed.

Lemma outline_entries_sound_witness :
  StronglySorted Z.le (map e_page sample_outline) /\
  Forall (entry_of sample_extractor sample_document) sample_outline.
Proof.
  apply (outline_entries_sound open_sample (__init__ "Report" false)
                               sample_extractor "report.pdf"
                               sample_document sample_outline).
  - reflexivity.
  - vm_compute. reflexivity.
Defined.

End Entries.
